(** * poetry-dynamic-versioning: a shallow embedding of
      [poetry_dynamic_versioning/__init__.py]

    The development follows the source file top to bottom: Python values
    and dictionaries, the configuration functions, the override lookup, the
    version query, the substitution engine (with the part of [re] it needs)
    and the apply / revert pair over a file store. *)

From Stdlib Require Import ZArith Lia Bool Ascii String List.
From stdpp Require Import gmap strings list pretty.

Open Scope string_scope.
Open Scope list_scope.

(** ** Python strings *)

Module Py.

(** [sep.join(l)] *)
Fixpoint join (sep : string) (l : list string) : string :=
  match l with
  | [] => ""
  | [x] => x
  | x :: rest => x ++ sep ++ join sep rest
  end.

(** [s.startswith(p)] *)
Fixpoint startswith (p s : string) : bool :=
  match p, s with
  | EmptyString, _ => true
  | String a p', String b s' => if Ascii.eqb a b then startswith p' s' else false
  | String _ _, EmptyString => false
  end.

(** [sub in s] on strings: [sub] occurs as a contiguous slice of [s]. *)
Fixpoint str_in (sub s : string) : bool :=
  if startswith sub s then true
  else match s with
       | EmptyString => false
       | String _ s' => str_in sub s'
       end.

(** [c in s] for a single character. *)
Fixpoint char_in (c : ascii) (s : string) : bool :=
  match s with
  | EmptyString => false
  | String a s' => if Ascii.eqb a c then true else char_in c s'
  end.

(** The characters [str.strip()] removes and [\s] matches, among the
    first 128 code points.  Strings are byte strings here; a byte above
    127 is never whitespace and never a digit. *)
Definition is_space (c : ascii) : bool :=
  let n := nat_of_ascii c in
  (((9 <=? n) && (n <=? 13)) || ((28 <=? n) && (n <=? 32)))%nat.

(** The characters [int()] skips around a numeral in an ASCII string. *)
Definition is_c_space (c : ascii) : bool :=
  let n := nat_of_ascii c in
  (((9 <=? n) && (n <=? 13)) || (n =? 32))%nat.

Definition is_digit (c : ascii) : bool :=
  let n := nat_of_ascii c in ((48 <=? n) && (n <=? 57))%nat.

Fixpoint lstrip_by (sp : ascii -> bool) (s : string) : string :=
  match s with
  | EmptyString => EmptyString
  | String c s' => if sp c then lstrip_by sp s' else s
  end.

Fixpoint rstrip_by (sp : ascii -> bool) (s : string) : string :=
  match s with
  | EmptyString => EmptyString
  | String c s' =>
      match rstrip_by sp s' with
      | EmptyString => if sp c then EmptyString else String c EmptyString
      | t => String c t
      end
  end.

(** [s.strip()] *)
Definition strip (s : string) : string := rstrip_by is_space (lstrip_by is_space s).

(** Splitting at every character of a class: [s.split(sep)] for a
    one-character [sep], and [re.split] with a one-character class as its
    pattern.  The result has one more element than [s] has separators. *)
Fixpoint split_by (is_sep : ascii -> bool) (s : string) : list string :=
  match s with
  | EmptyString => [EmptyString]
  | String c s' =>
      if is_sep c then EmptyString :: split_by is_sep s'
      else match split_by is_sep s' with
           | [] => [String c EmptyString]
           | w :: ws => String c w :: ws
           end
  end.

Definition split (sep : ascii) (s : string) : list string :=
  split_by (Ascii.eqb sep) s.

(** [s.split(sep, 1)]: the part before the first [sep] and, when there is
    a [sep], the part after it. *)
Fixpoint split_once (sep : ascii) (s : string) : string * option string :=
  match s with
  | EmptyString => (EmptyString, None)
  | String c s' =>
      if Ascii.eqb c sep then (EmptyString, Some s')
      else let '(a, b) := split_once sep s' in (String c a, b)
  end.

Definition digit_value (c : ascii) : Z := Z.of_nat (nat_of_ascii c) - 48.

(** The digits of a decimal numeral after its first digit: digits, with
    single underscores between them. *)
Fixpoint int_digits (acc : Z) (after_underscore : bool) (s : string) : option Z :=
  match s with
  | EmptyString => if after_underscore then None else Some acc
  | String c s' =>
      if is_digit c then int_digits (10 * acc + digit_value c) false s'
      else if Ascii.eqb c "_" then
        if after_underscore then None else int_digits acc true s'
      else None
  end.

Definition int_unsigned (s : string) : option Z :=
  match s with
  | EmptyString => None
  | String c s' => if is_digit c then int_digits (digit_value c) false s' else None
  end.

(** [int(s)] for an ASCII string; [None] is [ValueError].  Integers are
    unbounded, and the limit recent versions of Python put on the number of
    digits of a numeral is left out. *)
Definition int (s : string) : option Z :=
  match rstrip_by is_c_space (lstrip_by is_c_space s) with
  | String "+" t => int_unsigned t
  | String "-" t => option_map Z.opp (int_unsigned t)
  | t => int_unsigned t
  end.

(** [str(z)] for an integer. *)
Definition str_of_int (z : Z) : string := pretty z.


End Py.

(** ** Python values

    The values a parsed TOML document and the default configuration are
    made of; floats and dates, which no function here looks into, are left
    out.  A [dict] keeps its insertion order and has one entry per key, so
    it is an association list; [dict_set] keeps the position of a key that
    is already there and appends a new one. *)

#[warnings="-register-all"]
Inductive pyval :=
| VNone
| VBool (b : bool)
| VInt (z : Z)
| VStr (s : string)
| VList (l : list pyval)
| VDict (d : list (string * pyval)).

Definition dict := list (string * pyval).

(** ** Induction on Python values *)

Section pyval_induction.
Variable P : pyval -> Prop.
Hypothesis HNone : P VNone.
Hypothesis HBool : forall b, P (VBool b).
Hypothesis HInt : forall z, P (VInt z).
Hypothesis HStr : forall s, P (VStr s).
Hypothesis HList : forall l, Forall P l -> P (VList l).
Hypothesis HDict : forall d, Forall (fun kv => P (snd kv)) d -> P (VDict d).

Fixpoint pyval_nested_ind (v : pyval) : P v :=
  match v with
  | VNone => HNone
  | VBool b => HBool b
  | VInt z => HInt z
  | VStr s => HStr s
  | VList l =>
      HList l
        ((fix go (l : list pyval) : Forall P l :=
            match l with
            | [] => List.Forall_nil P
            | x :: l' => @List.Forall_cons _ P x l' (pyval_nested_ind x) (go l')
            end) l)
  | VDict d =>
      HDict d
        ((fix go (d : dict) : Forall (fun kv => P (snd kv)) d :=
            match d with
            | [] => List.Forall_nil _
            | kv :: d' =>
                @List.Forall_cons _ (fun kv => P (snd kv)) kv d'
                  (pyval_nested_ind (snd kv)) (go d')
            end) d)
  end.
End pyval_induction.

(** ** Exceptions and results *)

(** The exceptions the embedded code can raise.  [InvalidMode mode] is
    the [ValueError] of [_substitute_version_in_text], whose message is
    [Invalid substitution mode: ] followed by [mode]; [ReError] is
    [re.error], also raised for a pattern outside the part of [re] that is
    embedded below; [TomlError] is a failure of [tomlkit.parse]. *)
Inductive exn :=
| TypeError
| AttributeError
| KeyError (key : string)
| ValueError (msg : string)
| InvalidMode (mode : pyval)
| RuntimeError (msg : string)
| FileNotFoundError
| FileExistsError
| IsADirectoryError
| NotADirectoryError
| ReError
| TomlError.

Inductive result (A : Type) :=
| Ok (a : A)
| Raise (e : exn).
Arguments Ok {A} a.
Arguments Raise {A} e.

Definition rbind {A B} (r : result A) (k : A -> result B) : result B :=
  match r with
  | Ok a => k a
  | Raise e => Raise e
  end.

Declare Scope res_scope.
Delimit Scope res_scope with res.
Notation "'let*' x := r 'in' k" := (rbind r (fun x => k))
  (at level 10, x pattern, r at level 100, k at level 200) : res_scope.

Fixpoint dict_get (k : string) (d : dict) : option pyval :=
  match d with
  | [] => None
  | (k', v) :: rest => if String.eqb k' k then Some v else dict_get k rest
  end.

Definition dict_in (k : string) (d : dict) : bool :=
  match dict_get k d with
  | Some _ => true
  | None => false
  end.

Fixpoint dict_set (k : string) (v : pyval) (d : dict) : dict :=
  match d with
  | [] => [(k, v)]
  | (k', v') :: rest =>
      if String.eqb k' k then (k', v) :: rest else (k', v') :: dict_set k v rest
  end.

Definition is_dict (v : pyval) : bool :=
  match v with
  | VDict _ => true
  | _ => false
  end.

(** Truth value of an object ([bool(v)]). *)
Definition py_truthy (v : pyval) : bool :=
  match v with
  | VNone => false
  | VBool b => b
  | VInt z => negb (Z.eqb z 0)
  | VStr s => negb (String.eqb s "")
  | VList l => match l with [] => false | _ => true end
  | VDict d => match d with [] => false | _ => true end
  end.

(** [key in container] for a string [key]: key membership in a dict,
    substring in a string, element equality in a list; the other values
    are not containers. *)
Definition py_contains (container : pyval) (key : string) : result bool :=
  match container with
  | VDict d => Ok (dict_in key d)
  | VStr s => Ok (Py.str_in key s)
  | VList l =>
      Ok (existsb (fun x => match x with VStr s => String.eqb s key | _ => false end) l)
  | _ => Raise TypeError
  end.

(** [container[key]] for a string [key]. *)
Definition py_getitem (container : pyval) (key : string) : result pyval :=
  match container with
  | VDict d =>
      match dict_get key d with
      | Some v => Ok v
      | None => Raise (KeyError key)
      end
  | _ => Raise TypeError
  end.

(** ** The default configuration *)

Definition default_version_pattern : string :=
  "(^__version__\s*(?::.*?)?=\s*['\" ++ String "034" "])[^'\" ++ String "034" "]*(['\"
    ++ String "034" "])".

Definition default_version_tuple_pattern : string :=
  "(^__version_tuple__\s*(?::.*?)?=\s*\()[^)]*(\))".

Definition default_section : dict :=
  [ ("enable", VBool false);
    ("vcs", VStr "any");
    ("dirty", VBool false);
    ("pattern", VNone);
    ("latest-tag", VBool false);
    ("substitution",
      VDict
        [ ("files",
            VList [VStr "*.py"; VStr "*/__init__.py"; VStr "*/__version__.py";
                   VStr "*/_version.py"]);
          ("patterns",
            VList
              [ VStr default_version_pattern;
                VDict [ ("value", VStr default_version_tuple_pattern);
                        ("mode", VStr "tuple") ] ]);
          ("folders", VList []) ]);
    ("files", VDict []);
    ("style", VNone);
    ("metadata", VNone);
    ("format", VNone);
    ("format-jinja", VNone);
    ("format-jinja-imports", VList []);
    ("bump", VBool false);
    ("tagged-metadata", VBool false);
    ("full-commit", VBool false);
    ("tag-branch", VNone);
    ("tag-dir", VStr "tags");
    ("strict", VBool false);
    ("fix-shallow-repository", VBool false) ].

Definition _default_config : pyval :=
  VDict [ ("tool", VDict [ ("poetry-dynamic-versioning", VDict default_section) ]) ].

(** ** Validation of a configuration section *)

Definition escaped_key (key : string) : string :=
  if Py.str_in "." key then String "034" key ++ String "034" "" else key.

Definition unknown_key_msg (path : list string) (key : string) : string :=
  "Unknown key: " ++ Py.join "." (path ++ [escaped_key key]).

Local Open Scope res_scope.

(** [_validate_config_section], by recursion on the user section.  The
    loop visits [config.items()] in order; inside it [config[key]] and
    [config.get(key)] are the [value] of the entry, a dict having one
    entry per key. *)
Fixpoint validate_value (config : pyval) (default : pyval) (path : list string)
    {struct config} : result (list string) :=
  match config with
  | VDict items =>
      if negb (py_truthy default) then Ok []
      else
        (fix loop (items : dict) : result (list string) :=
           match items with
           | [] => Ok []
           | (key, value) :: rest =>
               let* known := py_contains default key in
               let* here :=
                 (if negb known then Ok [unknown_key_msg path key]
                  else if is_dict value && is_dict value then
                    let* sub := py_getitem default key in
                    validate_value value sub (path ++ [key])
                  else Ok []) in
               let* later := loop rest in
               Ok (here ++ later)
           end) items
  | _ => if negb (py_truthy default) then Ok [] else Raise AttributeError
  end.

Definition _validate_config_section (config : dict) (default : pyval)
    (path : list string) : result (list string) :=
  validate_value (VDict config) default path.

(** [_validate_config] on an already parsed document. *)
Definition _validate_config (config : pyval) : result (list string) :=
  match config with
  | VDict top =>
      match dict_get "tool" top with
      | None => _validate_config_section [] (VDict default_section)
                  ["tool"; "poetry-dynamic-versioning"]
      | Some (VDict tool) =>
          match dict_get "poetry-dynamic-versioning" tool with
          | None => _validate_config_section [] (VDict default_section)
                      ["tool"; "poetry-dynamic-versioning"]
          | Some section =>
              validate_value section (VDict default_section)
                ["tool"; "poetry-dynamic-versioning"]
          end
      | Some _ => Raise AttributeError
      end
  | _ => Raise AttributeError
  end.

(** The loop of [_validate_config_section] on its own. *)
Fixpoint validate_items (default : pyval) (path : list string) (items : dict)
    : result (list string) :=
  match items with
  | [] => Ok []
  | (key, value) :: rest =>
      let* known := py_contains default key in
      let* here :=
        (if negb known then Ok [unknown_key_msg path key]
         else if is_dict value && is_dict value then
           let* sub := py_getitem default key in
           validate_value value sub (path ++ [key])
         else Ok []) in
      let* later := validate_items default path rest in
      Ok (here ++ later)
  end.

(** *** What the specification asks of validation

    [unknown_keys_as_stated] follows the specification word for word: a
    key absent from the default at the same level is reported, a key whose
    value is a mapping on both sides is descended into, a leaf is not
    looked at.  [reported] is the same with the exemption the code makes
    for an empty default section. *)
Fixpoint unknown_keys_as_stated (config : pyval) (default : dict)
    (path : list string) {struct config} : list string :=
  match config with
  | VDict items =>
      (fix loop (items : dict) : list string :=
         match items with
         | [] => []
         | (key, value) :: rest =>
             match dict_get key default with
             | None => [unknown_key_msg path key]
             | Some (VDict d') =>
                 if is_dict value
                 then unknown_keys_as_stated value d' (path ++ [key])
                 else []
             | Some _ => []
             end ++ loop rest
         end) items
  | _ => []
  end.

Fixpoint reported (config : pyval) (default : dict) (path : list string)
    {struct config} : list string :=
  match config with
  | VDict items =>
      match default with
      | [] => []
      | _ :: _ =>
          (fix loop (items : dict) : list string :=
             match items with
             | [] => []
             | (key, value) :: rest =>
                 match dict_get key default with
                 | None => [unknown_key_msg path key]
                 | Some (VDict d') =>
                     if is_dict value then reported value d' (path ++ [key]) else []
                 | Some _ => []
                 end ++ loop rest
             end) items
      end
  | _ => []
  end.

Fixpoint reported_items (default : dict) (path : list string) (items : dict)
    : list string :=
  match items with
  | [] => []
  | (key, value) :: rest =>
      match dict_get key default with
      | None => [unknown_key_msg path key]
      | Some (VDict d') =>
          if is_dict value then reported value d' (path ++ [key]) else []
      | Some _ => []
      end ++ reported_items default path rest
  end.

(** A user section and a default agree on where the mappings are: every
    key of the user section that the default knows and whose user value is
    a mapping has a mapping as its default, and so on below it. *)
Fixpoint mappings_agree (config : pyval) (default : dict) {struct config} : bool :=
  match config with
  | VDict items =>
      (fix loop (items : dict) : bool :=
         match items with
         | [] => true
         | (key, value) :: rest =>
             match dict_get key default with
             | None => true
             | Some (VDict d') => mappings_agree value d'
             | Some _ => negb (is_dict value)
             end && loop rest
         end) items
  | _ => true
  end.

Fixpoint mappings_agree_items (default : dict) (items : dict) : bool :=
  match items with
  | [] => true
  | (key, value) :: rest =>
      match dict_get key default with
      | None => true
      | Some (VDict d') => mappings_agree value d'
      | Some _ => negb (is_dict value)
      end && mappings_agree_items default rest
  end.

(** ** The tuple encoding of a version

    The body of the branch [pattern.mode == "tuple"] of
    [_substitute_version_in_text]: what is put between the parentheses. *)

Definition is_dash_or_dot (c : ascii) : bool :=
  Ascii.eqb c "-" || Ascii.eqb c ".".

(** [split = version.split("+", 1)] followed by
    [split = [*re.split(r"[-.]", split[0]), *split[1:]]]. *)
Definition tuple_split (version : string) : list string :=
  let '(head, metadata) := Py.split_once "+" version in
  Py.split_by is_dash_or_dot head
    ++ match metadata with Some m => [m] | None => [] end.

Definition quoted (part : string) : string :=
  (String "034" part ++ String "034" "")%string.

(** One round of the loop over [split]: an empty part is skipped, a part
    [int] accepts is rendered as that integer, any other part is quoted. *)
Definition tuple_part (part : string) : list string :=
  if String.eqb part "" then []
  else match Py.int part with
       | Some z => [Py.str_of_int z]
       | None => [quoted part]
       end.

Definition tuple_parts (version : string) : list string :=
  flat_map tuple_part (tuple_split version).

Definition tuple_insert (version : string) : string :=
  let parts := tuple_parts version in
  let insert := Py.join ", " parts in
  if (length parts =? 1)%nat then (insert ++ ",")%string else insert.

(** ** Overrides from the environment *)

Definition _BYPASS_ENV : string := "POETRY_DYNAMIC_VERSIONING_BYPASS".
Definition _OVERRIDE_ENV : string := "POETRY_DYNAMIC_VERSIONING_OVERRIDE".

(** A pair of the override variable names the project. *)
Definition pair_matches (name pair_text : string) : bool :=
  Py.char_in "=" pair_text
  && String.eqb (Py.strip (fst (Py.split_once "=" pair_text))) name.

(** The value of a pair: what follows its first [=], stripped. *)
Definition pair_value (pair_text : string) : string :=
  match snd (Py.split_once "=" pair_text) with
  | Some v => Py.strip v
  | None => ""
  end.

(** The loop over [pairs] in [_get_override_version]; [None] when the loop
    ends without returning. *)
Fixpoint override_in_pairs (name : string) (pairs : list string) : option string :=
  match pairs with
  | [] => None
  | pair_text :: rest =>
      if negb (Py.char_in "=" pair_text) then override_in_pairs name rest
      else
        match Py.split_once "=" pair_text with
        | (k, Some v) =>
            if String.eqb (Py.strip k) name then Some (Py.strip v)
            else override_in_pairs name rest
        | (_, None) => override_in_pairs name rest
        end
  end.

Definition _get_override_version (name : option string) (env : gmap string string)
    : option string :=
  let bypass := env !! _BYPASS_ENV in
  match name with
  | Some name =>
      match env !! _OVERRIDE_ENV with
      | Some raw_overrides =>
          match override_in_pairs name (Py.split "," raw_overrides) with
          | Some v => Some v
          | None => bypass
          end
      | None => bypass
      end
  | None => bypass
  end.


(** ** Version resolution

    [dunamai], [jinja2] and the [git] subprocess are collaborators.  Each
    call to one of them is recorded as an event, and its answer may depend
    on the events so far (an unshallow fetch changes what the next query
    sees). *)

Inductive Vcs := Any | Git | Mercurial | Darcs | Subversion | Bazaar | Fossil | Pijul.

Definition Vcs_of_string (s : string) : option Vcs :=
  if String.eqb s "any" then Some Any
  else if String.eqb s "git" then Some Git
  else if String.eqb s "mercurial" then Some Mercurial
  else if String.eqb s "darcs" then Some Darcs
  else if String.eqb s "subversion" then Some Subversion
  else if String.eqb s "bazaar" then Some Bazaar
  else if String.eqb s "fossil" then Some Fossil
  else if String.eqb s "pijul" then Some Pijul
  else None.

Definition Vcs_eqb (a b : Vcs) : bool :=
  match a, b with
  | Any, Any | Git, Git | Mercurial, Mercurial | Darcs, Darcs
  | Subversion, Subversion | Bazaar, Bazaar | Fossil, Fossil | Pijul, Pijul => true
  | _, _ => false
  end.

Inductive Concern := ShallowRepository | OtherConcern (message : string).

Definition is_shallow (c : Concern) : bool :=
  match c with
  | ShallowRepository => true
  | OtherConcern _ => false
  end.

(** The [pattern] argument: [config["pattern"]] or [Pattern.Default]. *)
Inductive pattern_arg := PatternDefault | PatternValue (v : pyval).

(** The arguments of one [Version.from_vcs] call, in order. *)
Record from_vcs_args := {
  fv_vcs : Vcs;
  fv_pattern : pattern_arg;
  fv_latest_tag : pyval;
  fv_tag_dir : pyval;
  fv_tag_branch : pyval;
  fv_full_commit : pyval;
  fv_strict : pyval
}.

Inductive event :=
| EvFromVcs (args : from_vcs_args)
| EvRunCmd (command : string)
| EvWarning (c : Concern).

Class Collaborators := {
  Version : Type;
  concerns : Version -> list Concern;
  version_vcs : Version -> Vcs;
  (** [Version.from_vcs], given the events before the call *)
  from_vcs : list event -> from_vcs_args -> result Version;
  (** [subprocess.run]: return code and output *)
  subprocess_run : list event -> string -> Z * string;
  (** [Style(value)] raises [ValueError] on a value that names no style *)
  style_valid : pyval -> bool;
  (** what follows the warnings in [_get_version]: the Jinja rendering or
      [version.serialize], with the style check *)
  serialize : dict -> Version -> result string
}.

(** Computations over an explicit state that may raise: the state
    reached is kept when an exception is raised. *)
Definition stateful (S A : Type) : Type := S -> result A * S.

Definition sret {S A} (a : A) : stateful S A := fun s => (Ok a, s).

Definition sraise {S A} (e : exn) : stateful S A := fun s => (Raise e, s).

Definition sbind {S A B} (m : stateful S A) (k : A -> stateful S B) : stateful S B :=
  fun s =>
    match m s with
    | (Ok a, s') => k a s'
    | (Raise e, s') => (Raise e, s')
    end.

Definition slift {S A} (r : result A) : stateful S A := fun s => (r, s).

Declare Scope stateful_scope.
Delimit Scope stateful_scope with stateful.
Notation "'do' x <- m ; k" := (sbind m (fun x => k))
  (at level 10, x pattern, m at level 100, k at level 200) : stateful_scope.

(** The state of version resolution is the log of events. *)
Definition logged (A : Type) : Type := stateful (list event) A.

Section VersionResolution.
Context `{Collaborators}.
Local Open Scope stateful_scope.

(** [_run_cmd(command, codes)] *)
Definition _run_cmd (command : string) (codes : list Z) : logged (Z * string) :=
  fun log =>
    let '(returncode, output) := subprocess_run log command in
    let log' := log ++ [EvRunCmd command] in
    if py_truthy (VList (map VInt codes))
       && negb (existsb (Z.eqb returncode) codes)
    then (Raise (RuntimeError command), log')
    else (Ok (returncode, output), log').

(** [_get_version_from_dunamai]; [strict = None] is the default of the
    keyword argument. *)
Definition _get_version_from_dunamai (vcs : Vcs) (pattern : pattern_arg)
    (config : dict) (strict : option pyval) : logged Version :=
  do latest_tag <- slift (py_getitem (VDict config) "latest-tag");
  do tag_dir <- slift (py_getitem (VDict config) "tag-dir");
  do tag_branch <- slift (py_getitem (VDict config) "tag-branch");
  do full_commit <- slift (py_getitem (VDict config) "full-commit");
  do strict_arg <-
    match strict with
    | None => slift (py_getitem (VDict config) "strict")
    | Some s => sret s
    end;
  let args := {| fv_vcs := vcs; fv_pattern := pattern; fv_latest_tag := latest_tag;
                 fv_tag_dir := tag_dir; fv_tag_branch := tag_branch;
                 fv_full_commit := full_commit; fv_strict := strict_arg |} in
  fun log => (from_vcs log args, log ++ [EvFromVcs args]).

Definition shallow_git (version : Version) : bool :=
  existsb is_shallow (concerns version) && Vcs_eqb (version_vcs version) Git.

(** The two arms of [if config["fix-shallow-repository"]] in
    [_get_version]. *)
Definition query_with_shallow_fix (vcs : Vcs) (pattern : pattern_arg) (config : dict)
    : logged Version :=
  do version <- _get_version_from_dunamai vcs pattern config (Some (VBool false));
  do retry <- slift (py_getitem (VDict config) "strict");
  do retry <-
    (if shallow_git version
     then do _ <- _run_cmd "git fetch --unshallow" [0%Z]; sret (VBool true)
     else sret retry);
  if py_truthy retry
  then _get_version_from_dunamai vcs pattern config None
  else sret version.

Fixpoint print_warnings (cs : list Concern) : logged unit :=
  match cs with
  | [] => sret tt
  | c :: rest => fun log => print_warnings rest (log ++ [EvWarning c])
  end.

(** [_get_version] after the override check. *)
Definition resolve_from_vcs (config : dict) : logged string :=
  do vcs_name <- slift (py_getitem (VDict config) "vcs");
  do vcs <-
    slift (match vcs_name with
           | VStr s => match Vcs_of_string s with
                       | Some v => Ok v
                       | None => Raise (ValueError s)
                       end
           | _ => Raise (ValueError "vcs")
           end);
  do style <- slift (py_getitem (VDict config) "style");
  do _ <-
    slift (match style with
           | VNone => Ok tt
           | _ => if style_valid style then Ok tt else Raise (ValueError "style")
           end);
  do pattern <- slift (py_getitem (VDict config) "pattern");
  let pattern := match pattern with VNone => PatternDefault | p => PatternValue p end in
  do fix_shallow <- slift (py_getitem (VDict config) "fix-shallow-repository");
  do version <-
    (if py_truthy fix_shallow
     then query_with_shallow_fix vcs pattern config
     else _get_version_from_dunamai vcs pattern config None);
  do _ <- print_warnings (concerns version);
  slift (serialize config version).

(** [_get_version(config, name)] under the environment [env]. *)
Definition _get_version (config : dict) (name : option string)
    (env : gmap string string) : logged string :=
  match _get_override_version name env with
  | Some override => sret override
  | None => resolve_from_vcs config
  end.

End VersionResolution.


Definition unshallow : event := EvRunCmd "git fetch --unshallow".

Definition is_warning (e : event) : bool :=
  match e with
  | EvWarning _ => true
  | _ => false
  end.


(** A stand-in for the collaborators, to run the functions above: the
    repository is a shallow git clone until an unshallow fetch has been
    run. *)
Definition fetched (log : list event) : bool :=
  existsb (fun e => match e with
                    | EvRunCmd c => String.eqb c "git fetch --unshallow"
                    | _ => false
                    end) log.

#[local] Instance sample_collaborators : Collaborators := {|
  Version := list Concern * Vcs;
  concerns := fst;
  version_vcs := snd;
  from_vcs := fun log _ => if fetched log then Ok ([], Git) else Ok ([ShallowRepository], Git);
  subprocess_run := fun _ _ => (0%Z, "");
  style_valid := fun _ => true;
  serialize := fun _ _ => Ok "0.1.0"
|}.

Definition sample_env : gmap string string :=
  <[_OVERRIDE_ENV := "foo=9.9.9"]> (<[_BYPASS_ENV := "1.0.0"]> ∅).


(** ** Regular expressions

    The part of Python's [re] the substitution needs: patterns over
    characters, classes and sets, [^] and [$] in MULTILINE mode, sequence,
    alternation, [?] on any item, [*] and [+] on one-character items (all
    three greedy or lazy) and numbered groups, matched by backtracking;
    and [re.sub] with a replacement template.  Text is a list of
    characters. *)

Definition chars := list ascii.

Inductive class_kind := KSpace | KDigit | KWord.

Inductive set_item :=
| SChar (c : ascii)
| SRange (lo hi : ascii)
| SClass (negated : bool) (k : class_kind).

(** An item that matches one character. *)
Inductive atom :=
| AChar (c : ascii)
| AAny
| ASet (negated : bool) (items : list set_item).

Inductive regex :=
| REmpty
| RAtom (a : atom)
| RBol
| REol
| RSeq (r1 r2 : regex)
| RAlt (r1 r2 : regex)
| ROpt (greedy : bool) (r : regex)
| RStar (greedy : bool) (a : atom)
| RGroup (n : nat) (r : regex).

Definition newline : ascii := "010".

Definition is_word (c : ascii) : bool :=
  let n := nat_of_ascii c in
  (((48 <=? n) && (n <=? 57)) || ((65 <=? n) && (n <=? 90))
   || ((97 <=? n) && (n <=? 122)) || (n =? 95))%nat.

Definition is_ascii_letter (c : ascii) : bool :=
  let n := nat_of_ascii c in
  (((65 <=? n) && (n <=? 90)) || ((97 <=? n) && (n <=? 122)))%nat.

Definition class_matches (k : class_kind) (c : ascii) : bool :=
  match k with
  | KSpace => Py.is_space c
  | KDigit => Py.is_digit c
  | KWord => is_word c
  end.

Definition set_item_matches (i : set_item) (c : ascii) : bool :=
  match i with
  | SChar x => Ascii.eqb x c
  | SRange lo hi =>
      ((nat_of_ascii lo <=? nat_of_ascii c) && (nat_of_ascii c <=? nat_of_ascii hi))%nat
  | SClass negated k => xorb negated (class_matches k c)
  end.

Definition atom_matches (a : atom) (c : ascii) : bool :=
  match a with
  | AChar x => Ascii.eqb x c
  | AAny => negb (Ascii.eqb c newline)
  | ASet negated items => xorb negated (existsb (fun i => set_item_matches i c) items)
  end.

(** *** Matching

    A position in the subject: the text before it, last character first;
    the text from it on; and the groups captured on the way to it.
    [rmatch r st] lists the positions at which a match of [r] started at
    [st] can end, in the order a backtracking matcher tries them. *)
Record mstate := {
  m_before : chars;
  m_rest : chars;
  m_groups : list (nat * chars)
}.

Definition at_line_start (st : mstate) : bool :=
  match m_before st with
  | [] => true
  | c :: _ => Ascii.eqb c newline
  end.

Definition at_line_end (st : mstate) : bool :=
  match m_rest st with
  | [] => true
  | c :: _ => Ascii.eqb c newline
  end.

Definition step (st : mstate) (c : ascii) (rest : chars) : mstate :=
  {| m_before := c :: m_before st; m_rest := rest; m_groups := m_groups st |}.

(** [a*] and [a*?]: recursion on the text. *)
Fixpoint star_states (greedy : bool) (a : atom) (before rest : chars)
    (groups : list (nat * chars)) : list mstate :=
  let here := {| m_before := before; m_rest := rest; m_groups := groups |} in
  match rest with
  | [] => [here]
  | c :: rest' =>
      if atom_matches a c then
        if greedy then star_states greedy a (c :: before) rest' groups ++ [here]
        else here :: star_states greedy a (c :: before) rest' groups
      else [here]
  end.

Fixpoint set_group (n : nat) (text : chars) (groups : list (nat * chars))
    : list (nat * chars) :=
  match groups with
  | [] => [(n, text)]
  | (k, t) :: rest =>
      if (k =? n)%nat then (n, text) :: rest else (k, t) :: set_group n text rest
  end.

Fixpoint get_group (n : nat) (groups : list (nat * chars)) : option chars :=
  match groups with
  | [] => None
  | (k, t) :: rest => if (k =? n)%nat then Some t else get_group n rest
  end.

(** The text between two positions of one subject, the second further
    on. *)
Definition consumed (from to : mstate) : chars :=
  rev (firstn (length (m_before to) - length (m_before from)) (m_before to)).

Fixpoint rmatch (r : regex) (st : mstate) : list mstate :=
  match r with
  | REmpty => [st]
  | RAtom a =>
      match m_rest st with
      | c :: rest => if atom_matches a c then [step st c rest] else []
      | [] => []
      end
  | RBol => if at_line_start st then [st] else []
  | REol => if at_line_end st then [st] else []
  | RSeq r1 r2 => flat_map (rmatch r2) (rmatch r1 st)
  | RAlt r1 r2 => rmatch r1 st ++ rmatch r2 st
  | ROpt greedy r1 => if greedy then rmatch r1 st ++ [st] else st :: rmatch r1 st
  | RStar greedy a => star_states greedy a (m_before st) (m_rest st) (m_groups st)
  | RGroup n r1 =>
      map (fun st' =>
             {| m_before := m_before st'; m_rest := m_rest st';
                m_groups := set_group n (consumed st st') (m_groups st') |})
          (rmatch r1 st)
  end.

(** The match the matcher settles on at one starting position: the first
    end position, or with [must_advance] the first one that is not the
    starting position itself. *)
Definition match_at (r : regex) (before rest : chars) (must_advance : bool)
    : option mstate :=
  let start := {| m_before := before; m_rest := rest; m_groups := [] |} in
  List.find (fun st' => negb must_advance
                        || negb (length (m_before st') =? length before)%nat)
            (rmatch r start).


(** *** Replacement templates

    A template is literal text and group references.  [parse_template]
    follows [re]'s template parser (as of Python 3.12): [\g<number>], a
    backslash and one or two digits, octal escapes, the escapes of
    [a b f n r t v] and of the backslash itself; a backslash before another
    ASCII letter, an unterminated or non-numeric group name and a reference
    to a group the pattern does not have are errors ([None]); a backslash
    before any other character stays as it is. *)
Inductive titem :=
| TLit (c : ascii)
| TGroup (n : nat).

Definition is_octal (c : ascii) : bool :=
  let n := nat_of_ascii c in ((48 <=? n) && (n <=? 55))%nat.

Definition digit_nat (c : ascii) : nat := nat_of_ascii c - 48.

(** A group name: the characters up to the closing [>] and the text after
    it. *)
Fixpoint until_gt (s : chars) : option (chars * chars) :=
  match s with
  | [] => None
  | c :: rest =>
      if Ascii.eqb c ">" then Some ([], rest)
      else match until_gt rest with
           | Some (name, rest') => Some (c :: name, rest')
           | None => None
           end
  end.

Definition decimal_value (name : chars) : nat :=
  fold_left (fun acc c => 10 * acc + digit_nat c) name 0.

Definition template_escape (c : ascii) : option ascii :=
  if Ascii.eqb c "a" then Some "007"%char
  else if Ascii.eqb c "b" then Some "008"%char
  else if Ascii.eqb c "f" then Some "012"%char
  else if Ascii.eqb c "n" then Some "010"%char
  else if Ascii.eqb c "r" then Some "013"%char
  else if Ascii.eqb c "t" then Some "009"%char
  else if Ascii.eqb c "v" then Some "011"%char
  else if Ascii.eqb c "\" then Some "\"%char
  else None.

Definition group_ref (ngroups n : nat) (rest : option (list titem))
    : option (list titem) :=
  if (n <=? ngroups)%nat
  then match rest with Some items => Some (TGroup n :: items) | None => None end
  else None.

Definition lit (c : ascii) (rest : option (list titem)) : option (list titem) :=
  match rest with Some items => Some (TLit c :: items) | None => None end.

Fixpoint parse_template (fuel : nat) (ngroups : nat) (t : chars)
    : option (list titem) :=
  match fuel with
  | O => None
  | S fuel =>
      match t with
      | [] => Some []
      | c0 :: t1 =>
          if negb (Ascii.eqb c0 "\") then lit c0 (parse_template fuel ngroups t1)
          else
            match t1 with
            | [] => None
            | c :: rest =>
                if Ascii.eqb c "g" then
                  match rest with
                  | [] => None
                  | lt :: rest1 =>
                      if Ascii.eqb lt "<" then
                        match until_gt rest1 with
                        | Some (name, rest2) =>
                            match name with
                            | [] => None
                            | _ :: _ =>
                                if forallb Py.is_digit name
                                then group_ref ngroups (decimal_value name)
                                       (parse_template fuel ngroups rest2)
                                else None
                            end
                        | None => None
                        end
                      else None
                  end
                else if Ascii.eqb c "0" then
                  match rest with
                  | d1 :: d2 :: rest2 =>
                      if is_octal d1 && is_octal d2
                      then lit (ascii_of_nat ((8 * digit_nat d1 + digit_nat d2) mod 256))
                             (parse_template fuel ngroups rest2)
                      else if is_octal d1
                      then lit (ascii_of_nat (digit_nat d1))
                             (parse_template fuel ngroups (d2 :: rest2))
                      else lit zero (parse_template fuel ngroups rest)
                  | d1 :: [] =>
                      if is_octal d1
                      then lit (ascii_of_nat (digit_nat d1)) (parse_template fuel ngroups [])
                      else lit zero (parse_template fuel ngroups rest)
                  | [] => lit zero (parse_template fuel ngroups [])
                  end
                else if Py.is_digit c then
                  match rest with
                  | d2 :: rest2 =>
                      if Py.is_digit d2 then
                        match rest2 with
                        | d3 :: rest3 =>
                            if is_octal c && is_octal d2 && is_octal d3 then
                              let v := 64 * digit_nat c + 8 * digit_nat d2 + digit_nat d3 in
                              if (v <=? 255)%nat
                              then lit (ascii_of_nat v) (parse_template fuel ngroups rest3)
                              else None
                            else group_ref ngroups (10 * digit_nat c + digit_nat d2)
                                   (parse_template fuel ngroups rest2)
                        | [] => group_ref ngroups (10 * digit_nat c + digit_nat d2)
                                  (parse_template fuel ngroups rest2)
                        end
                      else group_ref ngroups (digit_nat c) (parse_template fuel ngroups rest)
                  | [] => group_ref ngroups (digit_nat c) (parse_template fuel ngroups rest)
                  end
                else
                  match template_escape c with
                  | Some x => lit x (parse_template fuel ngroups rest)
                  | None =>
                      if is_ascii_letter c then None
                      else lit "\"%char (lit c (parse_template fuel ngroups rest))
                  end
            end
      end
  end.

(** The text a template stands for at a match that went from [start] to
    [stop]; a group that took no part in the match gives the empty
    text. *)
Definition expand_item (start stop : mstate) (i : titem) : chars :=
  match i with
  | TLit c => [c]
  | TGroup 0 => consumed start stop
  | TGroup n =>
      match get_group n (m_groups stop) with
      | Some text => text
      | None => []
      end
  end.

Definition expand (template : list titem) (before rest : chars) (stop : mstate)
    : chars :=
  flat_map (expand_item {| m_before := before; m_rest := rest; m_groups := [] |} stop)
    template.

(** The text of a group at the end of a match, empty when the group took
    no part in it. *)
Definition group_text (n : nat) (stop : mstate) : chars :=
  match get_group n (m_groups stop) with
  | Some text => text
  | None => []
  end.

(** The template that keeps group 1, writes [insert] and keeps group 2. *)
Definition keep_and_insert (insert : chars) : list titem :=
  TGroup 1 :: map TLit insert ++ [TGroup 2].

Definition no_backslash (s : chars) : bool :=
  forallb (fun c => negb (Ascii.eqb c "\")) s.


(** *** [re.sub]

    The subject is read left to right.  [skip = Some k] says that the
    position lies inside the match just replaced, [k] characters before
    its end; otherwise a match is looked for at the position.  A match is
    replaced by the expanded template and the search goes on at its end,
    where an empty match is only accepted after advancing; where there is
    no match the character is copied. *)
Fixpoint sub_scan (r : regex) (template : list titem) (before rest : chars)
    (skip : option nat) {struct rest} : chars :=
  let copy :=
    match rest with
    | [] => []
    | c :: rest' => c :: sub_scan r template (c :: before) rest' None
    end in
  let search :=
    match match_at r before rest false with
    | None => copy
    | Some stop =>
        expand template before rest stop ++
        match length (m_before stop) - length before, rest with
        | _, [] => []
        | S k, c :: rest' => sub_scan r template (c :: before) rest' (Some k)
        | O, c :: rest' =>
            match match_at r before rest true with
            | None => copy
            | Some stop' =>
                expand template before rest stop' ++
                sub_scan r template (c :: before) rest'
                  (Some (length (m_before stop') - length before - 1))
            end
        end
    end in
  match skip with
  | Some (S k) =>
      match rest with
      | [] => []
      | c :: rest' => sub_scan r template (c :: before) rest' (Some k)
      end
  | Some O | None => search
  end.


(** *** Parsing a pattern

    [None] stands for [re.error] and for the constructs left out here:
    an opening brace, [*] and [+] on a group, [?] on an item that can
    match the empty text, back-references, look-around, named groups,
    inline flags, and the escapes [\A \b \B \Z \x \u \N]. *)

Fixpoint nullable (r : regex) : bool :=
  match r with
  | REmpty | RBol | REol | ROpt _ _ | RStar _ _ => true
  | RAtom _ => false
  | RSeq r1 r2 => nullable r1 && nullable r2
  | RAlt r1 r2 => nullable r1 || nullable r2
  | RGroup _ r1 => nullable r1
  end.

(** A backslash and a character, outside ([in_set = false]) or inside a
    set: a class, a character, or an error. *)
Definition parse_escape (in_set : bool) (c : ascii) : option set_item :=
  if Ascii.eqb c "s" then Some (SClass false KSpace)
  else if Ascii.eqb c "S" then Some (SClass true KSpace)
  else if Ascii.eqb c "d" then Some (SClass false KDigit)
  else if Ascii.eqb c "D" then Some (SClass true KDigit)
  else if Ascii.eqb c "w" then Some (SClass false KWord)
  else if Ascii.eqb c "W" then Some (SClass true KWord)
  else if Ascii.eqb c "b" then (if in_set then Some (SChar "008") else None)
  else match template_escape c with
       | Some x => Some (SChar x)
       | None =>
           if is_ascii_letter c || Py.is_digit c then None
           else Some (SChar c)
       end.

(** One member of a set and the text after it. *)
Definition parse_set_member (s : chars) : option (set_item * chars) :=
  match s with
  | [] => None
  | "\"%char :: [] => None
  | "\"%char :: c :: rest =>
      match parse_escape true c with
      | Some i => Some (i, rest)
      | None => None
      end
  | c :: rest => Some (SChar c, rest)
  end.

(** The members of a set up to its closing bracket; [first] says that no
    member has been read, where a closing bracket is a member. *)
Fixpoint parse_set_items (fuel : nat) (first : bool) (s : chars)
    : option (list set_item * chars) :=
  match fuel with
  | O => None
  | S fuel =>
      match s with
      | [] => None
      | c :: rest =>
          if Ascii.eqb c "]" && negb first then Some ([], rest)
          else
            match parse_set_member s with
            | None => None
            | Some (lo, rest1) =>
                match rest1 with
                | "-"%char :: "]"%char :: rest2 => Some ([lo; SChar "-"], rest2)
                | "-"%char :: rest2 =>
                    match lo, parse_set_member rest2 with
                    | SChar l, Some (SChar h, rest3) =>
                        if (nat_of_ascii l <=? nat_of_ascii h)%nat then
                          match parse_set_items fuel false rest3 with
                          | Some (items, rest4) => Some (SRange l h :: items, rest4)
                          | None => None
                          end
                        else None
                    | _, _ => None
                    end
                | _ =>
                    match parse_set_items fuel false rest1 with
                    | Some (items, rest2) => Some (lo :: items, rest2)
                    | None => None
                    end
                end
            end
      end
  end.

Definition is_repeat_char (c : ascii) : bool :=
  Ascii.eqb c "*" || Ascii.eqb c "+" || Ascii.eqb c "?" || Ascii.eqb c "{".

(** The repetition that follows an item, if any. *)
Definition parse_repeat (item : regex) (s : chars) : option (regex * chars) :=
  let finish (make : bool -> option regex) (s1 : chars) :=
    let '(greedy, s2) :=
      match s1 with
      | "?"%char :: s2 => (false, s2)
      | _ => (true, s1)
      end in
    match s2 with
    | c :: _ => if is_repeat_char c then None
                else match make greedy with Some r => Some (r, s2) | None => None end
    | [] => match make greedy with Some r => Some (r, s2) | None => None end
    end in
  match s with
  | "*"%char :: s1 =>
      finish (fun greedy => match item with
                            | RAtom a => Some (RStar greedy a)
                            | _ => None
                            end) s1
  | "+"%char :: s1 =>
      finish (fun greedy => match item with
                            | RAtom a => Some (RSeq (RAtom a) (RStar greedy a))
                            | _ => None
                            end) s1
  | "?"%char :: s1 =>
      finish (fun greedy => if nullable item then None else Some (ROpt greedy item)) s1
  | "{"%char :: _ => None
  | _ => Some (item, s)
  end.

(** Alternatives, sequences and items; [n] counts the groups opened so
    far, a group taking its number where it opens. *)
Fixpoint parse_alt (fuel : nat) (s : chars) (n : nat) : option (regex * chars * nat) :=
  match fuel with
  | O => None
  | S fuel =>
      match parse_seq fuel s n with
      | Some (r1, "|"%char :: s1, n1) =>
          match parse_alt fuel s1 n1 with
          | Some (r2, s2, n2) => Some (RAlt r1 r2, s2, n2)
          | None => None
          end
      | other => other
      end
  end
with parse_seq (fuel : nat) (s : chars) (n : nat) : option (regex * chars * nat) :=
  match fuel with
  | O => None
  | S fuel =>
      match s with
      | [] => Some (REmpty, s, n)
      | c :: _ =>
          if Ascii.eqb c "|" || Ascii.eqb c ")" then Some (REmpty, s, n)
          else
            match parse_item fuel s n with
            | Some (r1, s1, n1) =>
                match parse_seq fuel s1 n1 with
                | Some (r2, s2, n2) => Some (RSeq r1 r2, s2, n2)
                | None => None
                end
            | None => None
            end
      end
  end
with parse_item (fuel : nat) (s : chars) (n : nat) : option (regex * chars * nat) :=
  match fuel with
  | O => None
  | S fuel =>
      let repeated (item : regex) (s1 : chars) (n1 : nat) :=
        match parse_repeat item s1 with
        | Some (r, s2) => Some (r, s2, n1)
        | None => None
        end in
      match s with
      | [] => None
      | "("%char :: "?"%char :: ":"%char :: s1 =>
          match parse_alt fuel s1 n with
          | Some (r, ")"%char :: s2, n1) => repeated r s2 n1
          | _ => None
          end
      | "("%char :: "?"%char :: _ => None
      | "("%char :: s1 =>
          match parse_alt fuel s1 (S n) with
          | Some (r, ")"%char :: s2, n1) => repeated (RGroup (S n) r) s2 n1
          | _ => None
          end
      | "["%char :: "^"%char :: s1 =>
          match parse_set_items (S (length s1)) true s1 with
          | Some (items, s2) => repeated (RAtom (ASet true items)) s2 n
          | None => None
          end
      | "["%char :: s1 =>
          match parse_set_items (S (length s1)) true s1 with
          | Some (items, s2) => repeated (RAtom (ASet false items)) s2 n
          | None => None
          end
      | "."%char :: s1 => repeated (RAtom AAny) s1 n
      | "^"%char :: s1 => repeated RBol s1 n
      | "$"%char :: s1 => repeated REol s1 n
      | "\"%char :: [] => None
      | "\"%char :: c :: s1 =>
          match parse_escape false c with
          | Some (SChar x) => repeated (RAtom (AChar x)) s1 n
          | Some i => repeated (RAtom (ASet false [i])) s1 n
          | None => None
          end
      | c :: s1 =>
          if is_repeat_char c || Ascii.eqb c ")" || Ascii.eqb c "|" then None
          else repeated (RAtom (AChar c)) s1 n
      end
  end.

(** [re.compile(pattern)]: the pattern and the number of its groups. *)
Definition parse_regex (pattern : chars) : option (regex * nat) :=
  match parse_alt (4 * length pattern + 4) pattern 0 with
  | Some (r, [], n) => Some (r, n)
  | _ => None
  end.

(** [re.sub(pattern, repl, content, flags=re.MULTILINE)] *)
Definition re_sub (pattern repl content : string) : result string :=
  match parse_regex (list_ascii_of_string pattern) with
  | None => Raise ReError
  | Some (r, ngroups) =>
      let t := list_ascii_of_string repl in
      match parse_template (S (length t)) ngroups t with
      | None => Raise ReError
      | Some template =>
          Ok (string_of_list_ascii
                (sub_scan r template [] (list_ascii_of_string content) None))
      end
  end.


(** ** The substitution engine *)

Record _SubPattern := {
  sp_value : pyval;
  sp_mode : pyval
}.

Definition pyval_is_str (v : pyval) (s : string) : bool :=
  match v with
  | VStr x => String.eqb x s
  | _ => false
  end.

(** The replacement [r"\g<1>{}\g<2>".format(insert)] *)
Definition replacement (insert : string) : string :=
  ("\g<1>" ++ insert ++ "\g<2>")%string.

(** What one pattern puts between its two groups. *)
Definition insert_for (mode : pyval) (version : string) : result string :=
  if pyval_is_str mode "str" then Ok version
  else if pyval_is_str mode "tuple" then Ok (tuple_insert version)
  else Raise (InvalidMode mode).

Fixpoint _substitute_version_in_text (version content : string)
    (patterns : list _SubPattern) : result string :=
  match patterns with
  | [] => Ok content
  | pattern :: rest =>
      let* insert := insert_for (sp_mode pattern) version in
      let* new_content :=
        match sp_value pattern with
        | VStr value => re_sub value (replacement insert) content
        | _ => Raise TypeError
        end in
      _substitute_version_in_text version new_content rest
  end.

(** [_SubPattern.from_config] *)
Definition sub_pattern_of (x : pyval) : result _SubPattern :=
  match x with
  | VStr s => Ok {| sp_value := VStr s; sp_mode := VStr "str" |}
  | VDict d =>
      match dict_get "value" d with
      | Some value =>
          Ok {| sp_value := value;
                sp_mode := match dict_get "mode" d with
                           | Some mode => mode
                           | None => VStr "str"
                           end |}
      | None => Raise (KeyError "value")
      end
  | _ => Raise TypeError
  end.

Fixpoint result_map {A B} (f : A -> result B) (l : list A) : result (list B) :=
  match l with
  | [] => Ok []
  | x :: rest =>
      let* y := f x in
      let* ys := result_map f rest in
      Ok (y :: ys)
  end.

(** [for x in v]: the elements of a list, the characters of a string, the
    keys of a dict. *)
Definition py_iter (v : pyval) : result (list pyval) :=
  match v with
  | VList l => Ok l
  | VStr s => Ok (map (fun c => VStr (String c EmptyString)) (list_ascii_of_string s))
  | VDict d => Ok (map (fun kv => VStr (fst kv)) d)
  | _ => Raise TypeError
  end.

Definition SubPattern_from_config (config : pyval) : result (list _SubPattern) :=
  let* xs := py_iter config in
  result_map sub_pattern_of xs.

Definition default_patterns : list _SubPattern :=
  [ {| sp_value := VStr default_version_pattern; sp_mode := VStr "str" |};
    {| sp_value := VStr default_version_tuple_pattern; sp_mode := VStr "tuple" |} ].


(** ** Configuration *)

(** [_deep_merge_dicts(base, addition)]; the recursion is on the
    addition.  [base[key]] is read from [base], the result starts as a copy
    of it. *)
Fixpoint deep_merge_value (base : dict) (addition : pyval) {struct addition} : dict :=
  match addition with
  | VDict items =>
      (fix loop (items : dict) (result : dict) : dict :=
         match items with
         | [] => result
         | (key, value) :: rest =>
             loop rest
               (dict_set key
                  match value, dict_get key base with
                  | VDict _, Some (VDict b) => VDict (deep_merge_value b value)
                  | _, _ => value
                  end
                  result)
         end) items base
  | _ => base
  end.

Definition _deep_merge_dicts (base addition : dict) : dict :=
  deep_merge_value base (VDict addition).

(** [initialize(data, key)] of [_get_config] *)
Definition initialize (key : string) (data : pyval) : pyval :=
  match data with
  | VDict d => if dict_in key d then data else VDict (dict_set key VNone d)
  | _ => data
  end.

(** [for x in merged[...].values(): initialize(x, key)] *)
Definition initialize_values (keys : list string) (v : pyval) : result pyval :=
  match v with
  | VDict d =>
      Ok (VDict (map (fun kv => (fst kv, fold_left (fun x k => initialize k x) keys (snd kv)))
                   d))
  | _ => Raise AttributeError
  end.

(** [for x in merged[...]: initialize(x, key)]; iterating over a string
    or over the keys of a dict meets no dict. *)
Definition initialize_elements (keys : list string) (v : pyval) : result pyval :=
  match v with
  | VList l => Ok (VList (map (fun x => fold_left (fun x k => initialize k x) keys x) l))
  | VStr _ | VDict _ => Ok v
  | _ => Raise TypeError
  end.

(** [d[key] = f(d[key])] *)
Definition dict_update (key : string) (f : pyval -> result pyval) (d : pyval)
    : result pyval :=
  match d with
  | VDict items =>
      let* old := py_getitem d key in
      let* new := f old in
      Ok (VDict (dict_set key new items))
  | _ => Raise TypeError
  end.

(** [_get_config(local)] *)
Definition _get_config (local : pyval) : result dict :=
  match local, _default_config with
  | VDict addition, VDict base =>
      let merged := VDict (_deep_merge_dicts base addition) in
      let* tool := py_getitem merged "tool" in
      let* section := py_getitem tool "poetry-dynamic-versioning" in
      let* section :=
        dict_update "files"
          (initialize_values ["initial-content"; "persistent-substitution"]) section in
      let* section :=
        dict_update "format-jinja-imports" (initialize_elements ["item"]) section in
      let* section :=
        dict_update "substitution"
          (dict_update "folders" (initialize_elements ["files"; "patterns"])) section in
      let* section :=
        dict_update "substitution"
          (dict_update "patterns" (initialize_elements ["mode"])) section in
      match section with
      | VDict d => Ok d
      | _ => Raise TypeError
      end
  | _, _ => Raise AttributeError
  end.

(** ** Paths and the file store

    A path is the list of its components from the root.  The store holds
    the text of every file, as it is on disk, and the set of directories.
    Files are opened in text mode, as [Path.read_text] and
    [Path.write_text] do: reading turns every carriage return with its line
    feed, and every carriage return on its own, into a line feed; writing
    turns a line feed into [os.linesep], which is the line feed itself on
    the POSIX systems this store stands for, so that a text is written as
    it is given. *)

Definition Path := list string.

(** [path.parent] *)
Definition parent (p : Path) : Path := removelast p.

Definition path_parts (rel : string) : list string :=
  filter (fun part => negb (String.eqb part "") && negb (String.eqb part "."))
    (Py.split "/" rel).

(** [path.joinpath(rel)], [path / rel] *)
Definition joinpath (p : Path) (rel : string) : Path :=
  if Py.startswith "/" rel then path_parts rel else p ++ path_parts rel.

Record FS := {
  fs_files : gmap Path string;
  fs_dirs : gset Path
}.

Definition fs_exists (fs : FS) (p : Path) : bool :=
  bool_decide (p ∈ fs_dirs fs) || bool_decide (is_Some (fs_files fs !! p)).

(** What text mode makes of the content of a file when it is read. *)
Fixpoint universal_newlines (s : string) : string :=
  match s with
  | EmptyString => EmptyString
  | String c rest =>
      if Ascii.eqb c "013"
      then match rest with
           | String c' rest' =>
               if Ascii.eqb c' "010" then String "010" (universal_newlines rest')
               else String "010" (universal_newlines rest)
           | EmptyString => String "010" EmptyString
           end
      else String c (universal_newlines rest)
  end.

(** [path.read_text(encoding="utf-8")] *)
Definition fs_read_text (fs : FS) (p : Path) : result string :=
  if bool_decide (p ∈ fs_dirs fs) then Raise IsADirectoryError
  else match fs_files fs !! p with
       | Some text => Ok (universal_newlines text)
       | None => Raise FileNotFoundError
       end.

(** [path.write_text(text, encoding="utf-8")] *)

Definition fs_write_text (fs : FS) (p : Path) (text : string) : result FS :=
  if bool_decide (p ∈ fs_dirs fs) then Raise IsADirectoryError
  else if bool_decide (parent p ∈ fs_dirs fs)
  then Ok {| fs_files := <[p := text]> (fs_files fs); fs_dirs := fs_dirs fs |}
  else if fs_exists fs (parent p) then Raise NotADirectoryError
  else Raise FileNotFoundError.

(** [path.mkdir()]: one level, the parent has to be there. *)
Definition fs_mkdir (fs : FS) (p : Path) : result FS :=
  if fs_exists fs p then Raise FileExistsError
  else if bool_decide (parent p ∈ fs_dirs fs)
  then Ok {| fs_files := fs_files fs; fs_dirs := {[p]} ∪ fs_dirs fs |}
  else if fs_exists fs (parent p) then Raise NotADirectoryError
  else Raise FileNotFoundError.

(** What the code gets from [pathlib], [tomlkit] and [textwrap]. *)
Class Platform := {
  (** [folder.path.glob(str(file_glob))] *)
  glob : FS -> Path -> pyval -> result (list Path);
  (** [match.resolve()] *)
  resolve : FS -> Path -> Path;
  (** [tomlkit.parse] and [tomlkit.dumps] *)
  toml_parse : string -> result pyval;
  toml_dumps : pyval -> string;
  (** [textwrap.dedent] *)
  dedent : string -> string
}.

(** ** The registry of projects *)

Record _ProjectState := {
  ps_path : Path;
  ps_original_version : pyval;
  ps_version : string;
  ps_substitutions : list (Path * string)
}.

Record _State := {
  patched_core_poetry_create : bool;
  cli_mode : bool;
  projects : list (string * _ProjectState)
}.

(** Dicts with other keys, in insertion order as well. *)
Fixpoint assoc_get {K V} `{EqDecision K} (k : K) (l : list (K * V)) : option V :=
  match l with
  | [] => None
  | (k', v) :: rest => if decide (k' = k) then Some v else assoc_get k rest
  end.

Fixpoint assoc_set {K V} `{EqDecision K} (k : K) (v : V) (l : list (K * V))
    : list (K * V) :=
  match l with
  | [] => [(k, v)]
  | (k', v') :: rest =>
      if decide (k' = k) then (k', v) :: rest else (k', v') :: assoc_set k v rest
  end.

Definition assoc_in {K V} `{EqDecision K} (k : K) (l : list (K * V)) : bool :=
  match assoc_get k l with
  | Some _ => true
  | None => false
  end.

Record World := {
  w_fs : FS;
  w_state : _State
}.

Definition set_fs (fs : FS) (w : World) : World :=
  {| w_fs := fs; w_state := w_state w |}.

Definition set_projects (ps : list (string * _ProjectState)) (w : World) : World :=
  {| w_fs := w_fs w;
     w_state := {| patched_core_poetry_create := patched_core_poetry_create (w_state w);
                   cli_mode := cli_mode (w_state w);
                   projects := ps |} |}.

Definition read_text (p : Path) : stateful World string :=
  fun w => (fs_read_text (w_fs w) p, w).

Definition write_text (p : Path) (text : string) : stateful World unit :=
  fun w =>
    match fs_write_text (w_fs w) p text with
    | Ok fs => (Ok tt, set_fs fs w)
    | Raise e => (Raise e, w)
    end.

Definition mkdir (p : Path) : stateful World unit :=
  fun w =>
    match fs_mkdir (w_fs w) p with
    | Ok fs => (Ok tt, set_fs fs w)
    | Raise e => (Raise e, w)
    end.

(** [_state.projects[name]] *)
Definition get_project (name : string) : stateful World _ProjectState :=
  fun w =>
    match assoc_get name (projects (w_state w)) with
    | Some st => (Ok st, w)
    | None => (Raise (KeyError name), w)
    end.

(** [_state.projects[name].substitutions[file] = content] *)
Definition record_substitution (name : string) (file : Path) (content : string)
    : stateful World unit :=
  fun w =>
    match assoc_get name (projects (w_state w)) with
    | Some st =>
        (Ok tt,
         set_projects
           (assoc_set name
              {| ps_path := ps_path st;
                 ps_original_version := ps_original_version st;
                 ps_version := ps_version st;
                 ps_substitutions := assoc_set file content (ps_substitutions st) |}
              (projects (w_state w)))
           w)
    | None => (Raise (KeyError name), w)
    end.


(** ** Folders *)

Record _FolderConfig := {
  fc_path : Path;
  fc_files : pyval;
  fc_patterns : list _SubPattern
}.

(** One element of the list [extra] in [_FolderConfig.from_config] *)
Definition extra_folder (root : Path) (files : pyval) (patterns : list _SubPattern)
    (x : pyval) : result _FolderConfig :=
  let* rel := py_getitem x "path" in
  let* path :=
    match rel with
    | VStr rel => Ok (joinpath root rel)
    | _ => Raise TypeError
    end in
  let* x_files := py_getitem x "files" in
  let* x_patterns := py_getitem x "patterns" in
  let* own_patterns :=
    match x_patterns with
    | VNone => Ok patterns
    | _ => SubPattern_from_config x_patterns
    end in
  Ok {| fc_path := path;
        fc_files := match x_files with VNone => files | _ => x_files end;
        fc_patterns := own_patterns |}.

Definition FolderConfig_from_config (config : dict) (root : Path)
    : result (list _FolderConfig) :=
  let* substitution := py_getitem (VDict config) "substitution" in
  let* files := py_getitem substitution "files" in
  let* raw_patterns := py_getitem substitution "patterns" in
  let* patterns := SubPattern_from_config raw_patterns in
  let main := {| fc_path := root; fc_files := files; fc_patterns := patterns |} in
  let* folders := py_getitem substitution "folders" in
  let* xs := py_iter folders in
  let* extra := result_map (extra_folder root files patterns) xs in
  Ok (main :: extra).

Section Store.
Context `{Platform}.
Local Open Scope stateful_scope.

(** ** Substitution in the files of a project *)

(** The first loop of [_substitute_version]: the files the folders claim,
    a file going to the first folder that matches it. *)
Fixpoint claim_matches (fs : FS) (folder : _FolderConfig) (matches : list Path)
    (files : list (Path * _FolderConfig)) : list (Path * _FolderConfig) :=
  match matches with
  | [] => files
  | m :: rest =>
      let resolved := resolve fs m in
      claim_matches fs folder rest
        (if assoc_in resolved files then files else files ++ [(resolved, folder)])
  end.

Fixpoint claim_globs (fs : FS) (folder : _FolderConfig) (globs : list pyval)
    (files : list (Path * _FolderConfig)) : result (list (Path * _FolderConfig)) :=
  match globs with
  | [] => Ok files
  | file_glob :: rest =>
      let* matches := glob fs (fc_path folder) file_glob in
      claim_globs fs folder rest (claim_matches fs folder matches files)
  end.

Fixpoint claim_folders (fs : FS) (folders : list _FolderConfig)
    (files : list (Path * _FolderConfig)) : result (list (Path * _FolderConfig)) :=
  match folders with
  | [] => Ok files
  | folder :: rest =>
      let* globs := py_iter (fc_files folder) in
      let* files := claim_globs fs folder globs files in
      claim_folders fs rest files
  end.

(** The second loop: one file *)
Definition substitute_file (name version : string) (file : Path)
    (config : _FolderConfig) : stateful World unit :=
  do original_content <- read_text file;
  do new_content <-
    slift (_substitute_version_in_text version original_content (fc_patterns config));
  if String.eqb original_content new_content then sret tt
  else
    do _ <- record_substitution name file original_content;
    write_text file new_content.

Fixpoint substitute_files (name version : string)
    (files : list (Path * _FolderConfig)) : stateful World unit :=
  match files with
  | [] => sret tt
  | (file, config) :: rest =>
      do _ <- substitute_file name version file config;
      substitute_files name version rest
  end.

Definition _substitute_version (name version : string) (folders : list _FolderConfig)
    : stateful World unit :=
  do state <- get_project name;
  match ps_substitutions state with
  | _ :: _ => sret tt
  | [] =>
      do files <- (fun w => (claim_folders (w_fs w) folders [], w));
      substitute_files name version files
  end.

(** ** Apply *)

(** [pyproject["tool"][section][key] = value] *)
Definition set_tool_key (section key : string) (value : pyval) (pyproject : pyval)
    : result pyval :=
  dict_update "tool"
    (dict_update section
       (fun table =>
          match table with
          | VDict d => Ok (VDict (dict_set key value d))
          | _ => Raise TypeError
          end))
    pyproject.

(** The manifest with the version set and, unless retained or in CLI
    mode, the plugin switched to [enable]. *)
Definition stamp (version : pyval) (enable : bool) (retain : bool)
    (pyproject : pyval) : stateful World pyval :=
  do pyproject <- slift (set_tool_key "poetry" "version" version pyproject);
  do cli <- (fun w => (Ok (cli_mode (w_state w)), w));
  if negb retain && negb cli
  then slift (set_tool_key "poetry-dynamic-versioning" "enable" (VBool enable) pyproject)
  else sret pyproject.

(** The body of the loop over [config["files"]] in [_apply_version] *)
Definition create_file (root : Path) (file_name : string) (file_info : pyval)
    : stateful World unit :=
  let full_file := joinpath root file_name in
  do initial_content <- slift (py_getitem file_info "initial-content");
  match initial_content with
  | VNone => sret tt
  | VStr text =>
      do present <- (fun w => (Ok (fs_exists (w_fs w) (parent full_file)), w));
      do _ <- (if present then sret tt else mkdir (parent full_file));
      write_text full_file (dedent text)
  | _ =>
      do present <- (fun w => (Ok (fs_exists (w_fs w) (parent full_file)), w));
      do _ <- (if present then sret tt else mkdir (parent full_file));
      sraise TypeError
  end.

Fixpoint create_files (root : Path) (files : dict) : stateful World unit :=
  match files with
  | [] => sret tt
  | (file_name, file_info) :: rest =>
      do _ <- create_file root file_name file_info;
      create_files root rest
  end.

(** [_apply_version] up to the call of [_substitute_version]: the
    manifest is written, the extra files are created; the result is the
    project name. *)
Definition write_manifest_and_files (version : string) (config : dict)
    (pyproject_path : Path) (retain : bool) : stateful World string :=
  do text <- read_text pyproject_path;
  do pyproject <- slift (toml_parse text);
  do pyproject <- stamp (VStr version) false retain pyproject;
  do _ <- write_text pyproject_path (toml_dumps pyproject);
  do tool <- slift (py_getitem pyproject "tool");
  do poetry <- slift (py_getitem tool "poetry");
  do name <- slift (py_getitem poetry "name");
  do name <- slift (match name with VStr n => Ok n | _ => Raise TypeError end);
  do files <- slift (py_getitem (VDict config) "files");
  do files <- slift (match files with VDict d => Ok d | _ => Raise AttributeError end);
  do _ <- create_files (parent pyproject_path) files;
  sret name.

Definition _apply_version (version : string) (config : dict) (pyproject_path : Path)
    (retain : bool) : stateful World unit :=
  do name <- write_manifest_and_files version config pyproject_path retain;
  do folders <- slift (FolderConfig_from_config config (parent pyproject_path));
  _substitute_version name version folders.

(** ** Revert *)

(** The paths of the files marked persistent *)
Fixpoint persistent_files (root : Path) (files : dict) : result (list Path) :=
  match files with
  | [] => Ok []
  | (file, file_info) :: rest =>
      let* flag := py_getitem file_info "persistent-substitution" in
      let* others := persistent_files root rest in
      Ok (if py_truthy flag then joinpath root file :: others else others)
  end.

Fixpoint restore_files (persistent : list Path) (substitutions : list (Path * string))
    : stateful World unit :=
  match substitutions with
  | [] => sret tt
  | (file, content) :: rest =>
      if bool_decide (file ∈ persistent) then restore_files persistent rest
      else
        do _ <- write_text file content;
        restore_files persistent rest
  end.

(** The body of the loop of [_revert_version] *)
Definition revert_project (retain : bool) (state : _ProjectState)
    : stateful World unit :=
  do text <- read_text (ps_path state);
  do pyproject <- slift (toml_parse text);
  do pyproject <-
    match ps_substitutions state with
    | [] => sret pyproject
    | _ :: _ =>
        do config <- slift (_get_config pyproject);
        do files <- slift (py_getitem (VDict config) "files");
        do files <- slift (match files with VDict d => Ok d | _ => Raise AttributeError end);
        do persistent <- slift (persistent_files (parent (ps_path state)) files);
        do _ <- restore_files persistent (ps_substitutions state);
        do text <- read_text (ps_path state);
        slift (toml_parse text)
    end;
  do pyproject <- stamp (ps_original_version state) true retain pyproject;
  write_text (ps_path state) (toml_dumps pyproject).

Fixpoint revert_projects (retain : bool) (ps : list (string * _ProjectState))
    : stateful World unit :=
  match ps with
  | [] => sret tt
  | (_, state) :: rest =>
      do _ <- revert_project retain state;
      revert_projects retain rest
  end.

Definition _revert_version (retain : bool) : stateful World unit :=
  do ps <- (fun w => (Ok (projects (w_state w)), w));
  do _ <- revert_projects retain ps;
  fun w => (Ok tt, set_projects [] w).

End Store.


(** ** A stand-in platform

    To run apply and revert: paths resolve to themselves, a glob [*.py]
    gives the files of the folder whose name ends in [.py] and any other
    glob the file of that name, [dedent] leaves its text as it is (as
    [textwrap.dedent] does with text whose lines have no common
    indentation), and a manifest is a text of lines [a|b|c=value], one for
    each leaf, where [value] is [true], [false] or a string. *)

Fixpoint endswith_chars (suffix s : chars) : bool :=
  match s with
  | [] => match suffix with [] => true | _ => false end
  | _ :: s' =>
      if (length suffix =? length s)%nat
      then bool_decide (suffix = s)
      else endswith_chars suffix s'
  end.

Definition sample_glob (fs : FS) (folder : Path) (file_glob : pyval)
    : result (list Path) :=
  match file_glob with
  | VStr g =>
      Ok (filter
            (fun p =>
               bool_decide (parent p = folder)
               && (if String.eqb g "*.py"
                   then endswith_chars (list_ascii_of_string ".py")
                          (list_ascii_of_string (List.last p ""))
                   else String.eqb (List.last p "") g))
            (map fst (map_to_list (fs_files fs))))
  | _ => Raise TypeError
  end.

(** Setting a leaf at a path of keys in a nested dict. *)
Fixpoint set_at (keys : list string) (value : pyval) (d : dict) : dict :=
  match keys with
  | [] => d
  | [k] => dict_set k value d
  | k :: rest =>
      dict_set k
        (VDict (set_at rest value
                  match dict_get k d with
                  | Some (VDict sub) => sub
                  | _ => []
                  end))
        d
  end.

Definition sample_parse_line (d : dict) (line : string) : dict :=
  match Py.split_once "=" line with
  | (key, Some value) =>
      set_at (Py.split "|" key)
        (if String.eqb value "true" then VBool true
         else if String.eqb value "false" then VBool false
         else VStr value)
        d
  | (_, None) => d
  end.

Definition sample_toml_parse (text : string) : result pyval :=
  Ok (VDict (fold_left sample_parse_line (Py.split "010" text) [])).

Fixpoint sample_dump_value (prefix : string) (v : pyval) : list string :=
  match v with
  | VDict d =>
      (fix go (d : dict) : list string :=
         match d with
         | [] => []
         | (k, x) :: rest =>
             sample_dump_value
               (if String.eqb prefix "" then k else (prefix ++ "|" ++ k)%string) x
             ++ go rest
         end) d
  | VStr s => [(prefix ++ "=" ++ s)%string]
  | VBool true => [(prefix ++ "=true")%string]
  | VBool false => [(prefix ++ "=false")%string]
  | _ => []
  end.

Definition sample_toml_dumps (doc : pyval) : string :=
  Py.join (String "010" "") (sample_dump_value "" doc).

#[local] Instance sample_platform : Platform := {|
  glob := sample_glob;
  resolve := fun _ p => p;
  toml_parse := sample_toml_parse;
  toml_dumps := sample_toml_dumps;
  dedent := fun text => text
|}.

(** A project [demo] at [/proj]: a manifest, a module [pkg.py] and a
    version file [v.py]; the configuration gives [v.py] an initial
    content. *)
Definition demo_manifest : string :=
  Py.join (String "010" "")
    [ "tool|poetry|name=demo";
      "tool|poetry|version=0.0.0";
      "tool|poetry-dynamic-versioning|enable=true";
      ("tool|poetry-dynamic-versioning|files|v.py|initial-content=__version__ = "
         ++ String "034" "0.0.0" ++ String "034" "")%string ].

Definition demo_fs : FS := {|
  fs_files :=
    <[ ["proj"; "pyproject.toml"] := demo_manifest ]>
      (<[ ["proj"; "pkg.py"] := "__version__ = '0.0.0'" ]>
         (<[ ["proj"; "v.py"] := "# written by hand" ]> ∅));
  fs_dirs := {[ []; ["proj"] ]}
|}.

Definition demo_world : World := {|
  w_fs := demo_fs;
  w_state := {|
    patched_core_poetry_create := false;
    cli_mode := false;
    projects := [ ("demo", {| ps_path := ["proj"; "pyproject.toml"];
                              ps_original_version := VStr "0.0.0";
                              ps_version := "1.2.3";
                              ps_substitutions := [] |}) ]
  |}
|}.

Definition demo_config : dict :=
  match _get_config (VDict (fold_left sample_parse_line (Py.split "010" demo_manifest) []))
  with
  | Ok config => config
  | Raise _ => []
  end.


(** A computation leaves the registry as it is. *)
Definition keeps_state {A} (m : stateful World A) : Prop :=
  forall w, w_state (snd (m w)) = w_state w.

Definition demo_path : Path := ["proj"; "pyproject.toml"].

(** The demo project after a first apply of version 1.2.3. *)
Definition demo_applied : World :=
  snd (_apply_version "1.2.3" demo_config demo_path false demo_world).

(** The files marked persistent, as the revert of a project whose manifest
    is at [pyproject_path] finds them. *)
Definition persistent_paths `{Platform} (fs : FS) (pyproject_path : Path)
    : result (list Path) :=
  let* text := fs_read_text fs pyproject_path in
  let* pyproject := toml_parse text in
  let* config := _get_config pyproject in
  let* files := py_getitem (VDict config) "files" in
  let* files := match files with VDict d => Ok d | _ => Raise AttributeError end in
  persistent_files (parent pyproject_path) files.

(** [pyproject["tool"]["poetry"]["version"]] *)
Definition manifest_version (pyproject : pyval) : result pyval :=
  let* tool := py_getitem pyproject "tool" in
  let* poetry := py_getitem tool "poetry" in
  py_getitem poetry "version".

(** The paths of the extra files of a configuration. *)
Definition extra_paths (root : Path) (config : dict) : list Path :=
  match dict_get "files" config with
  | Some (VDict d) => map (fun kv => joinpath root (fst kv)) d
  | _ => []
  end.

(** A computation writes no file outside [allowed]. *)
Definition only_writes {A} (allowed : Path -> Prop) (m : stateful World A) : Prop :=
  forall w f, ~ allowed f -> fs_files (w_fs (snd (m w))) !! f = fs_files (w_fs w) !! f.


(** *** Patterns of the shape [(literal)[^...]*([...])]

    A literal text, after [^] or not, as group 1; then the characters that
    are not delimiters; then one delimiter as group 2.  [head_match] says
    in plain terms what such a pattern matches at a position. *)

Fixpoint literal (l : chars) : regex :=
  match l with
  | [] => REmpty
  | c :: l' => RSeq (RAtom (AChar c)) (literal l')
  end.

(** The item for the closing delimiter: a set, or the character itself
    when the set has that one member. *)
Definition closing (single : bool) (q : list set_item) : atom :=
  match single, q with
  | true, [SChar c] => AChar c
  | _, _ => ASet false q
  end.

Definition delimited_pattern (bol : bool) (l : chars) (q : list set_item)
    (single : bool) : regex :=
  RSeq (RGroup 1 (if bol then RSeq RBol (literal l) else literal l))
    (RSeq (RStar true (ASet true q))
       (RSeq (RGroup 2 (RSeq (RAtom (closing single q)) REmpty)) REmpty)).

Definition is_delimiter (q : list set_item) (c : ascii) : bool :=
  existsb (fun i => set_item_matches i c) q.

Definition plain (q : list set_item) (s : chars) : bool :=
  forallb (fun c => negb (is_delimiter q c)) s.

Fixpoint strip_prefix (l rest : chars) : option chars :=
  match l, rest with
  | [], _ => Some rest
  | c :: l', x :: rest' => if Ascii.eqb c x then strip_prefix l' rest' else None
  | _ :: _, [] => None
  end.

(** The longest run of characters that are not delimiters, and the
    rest. *)
Fixpoint span_plain (q : list set_item) (y : chars) : chars * chars :=
  match y with
  | [] => ([], [])
  | c :: y' =>
      if is_delimiter q c then ([], y)
      else let '(mid, rest) := span_plain q y' in (c :: mid, rest)
  end.

Definition line_start (before : chars) : bool :=
  match before with
  | [] => true
  | c :: _ => Ascii.eqb c newline
  end.

(** The middle, the closing delimiter and the text after the match, when
    there is a match at the position. *)
Definition head_match (bol : bool) (l : chars) (q : list set_item)
    (at_start : bool) (rest : chars) : option (chars * ascii * chars) :=
  if negb bol || at_start then
    match strip_prefix l rest with
    | Some y =>
        match span_plain q y with
        | (mid, d :: rest') => Some (mid, d, rest')
        | (_, []) => None
        end
    | None => None
    end
  else None.

(** [re.sub] with such a pattern and the template that keeps the two
    groups around [insert], from a position on. *)
Definition scan (bol : bool) (l : chars) (q : list set_item) (single : bool)
    (insert : chars)
    (before rest : chars) : chars :=
  sub_scan (delimited_pattern bol l q single) (keep_and_insert insert) before rest None.

(** [s.startswith(l)] on characters *)
Definition starts (l z : chars) : bool :=
  match strip_prefix l z with
  | Some _ => true
  | None => false
  end.

(** A pattern of that shape, for a version between double quotes. *)
Definition simple_version_pattern : _SubPattern :=
  {| sp_value := VStr ("(^__version__ = " ++ String "034" ")[^" ++ String "034" "]*("
                         ++ String "034" ")");
     sp_mode := VStr "str" |}.


(** ** Further definitions for the properties below *)

(** The value [_deep_merge_dicts] stores under [key]. *)
Definition merged_value (base : dict) (key : string) (value : pyval) : pyval :=
  match value, dict_get key base with
  | VDict _, Some (VDict b) => VDict (deep_merge_value b value)
  | _, _ => value
  end.

(** The loop of [_deep_merge_dicts] on its own. *)
Fixpoint merge_items (base : dict) (items result : dict) : dict :=
  match items with
  | [] => result
  | (key, value) :: rest =>
      merge_items base rest (dict_set key (merged_value base key value) result)
  end.


(** A table has every one of [keys]; what is no table has no keys to
    miss. *)
Definition has_keys (keys : list string) (v : pyval) : bool :=
  match v with
  | VDict d => forallb (fun k => dict_in k d) keys
  | _ => true
  end.

(** A manifest that sets some of the plugin's keys, as [tomlkit.parse]
    gives it, and the configuration [_get_config] makes of it. *)
Definition sample_section : dict :=
  [ ("enable", VBool true);
    ("vcs", VStr "git");
    ("files", VDict [("v.py", VDict [])]);
    ("format-jinja-imports", VList [VDict [("module", VStr "os")]]);
    ("substitution",
      VDict
        [ ("patterns", VList [VDict [("value", VStr "(v = )\d+()")]]);
          ("folders", VList [VDict [("path", VStr "sub")]]) ]) ].

Definition sample_tool : dict :=
  [ ("poetry", VDict [("name", VStr "demo"); ("version", VStr "0.0.0")]);
    ("poetry-dynamic-versioning", VDict sample_section) ].

Definition sample_document : pyval := VDict [("tool", VDict sample_tool)].

Definition sample_settings : dict :=
  match _get_config sample_document with
  | Ok config => config
  | Raise _ => []
  end.

(** The folders of that configuration, for a project at [/proj]. *)
Definition sample_folders : list _FolderConfig :=
  match FolderConfig_from_config sample_settings ["proj"] with
  | Ok folders => folders
  | Raise _ => []
  end.

(** Collaborators whose repository stays shallow: the unshallow fetch
    fails with code 128. *)
Definition offline_collaborators : Collaborators := {|
  Version := list Concern * Vcs;
  concerns := fst;
  version_vcs := snd;
  from_vcs := fun _ _ => Ok ([ShallowRepository], Git);
  subprocess_run := fun _ _ => (128%Z, "fatal: unable to access the remote");
  style_valid := fun _ => true;
  serialize := fun _ _ => Ok "0.1.0"
|}.

(** [_escape_branch(value)].  The pattern has no [^] and no [$], so the
    MULTILINE flag of [re_sub] makes no difference to it. *)
Definition _escape_branch (value : option string) : result (option string) :=
  match value with
  | None => Ok None
  | Some value =>
      let* escaped := re_sub "[^a-zA-Z0-9]" "" value in
      Ok (Some escaped)
  end.

(** An ASCII letter or digit. *)
Definition is_alphanumeric (c : ascii) : bool :=
  let n := nat_of_ascii c in
  (((97 <=? n) && (n <=? 122)) || ((65 <=? n) && (n <=? 90))
   || ((48 <=? n) && (n <=? 57)))%nat.

(** ** Finding the manifest *)

(** [path.is_file()] *)
Definition is_file (fs : FS) (p : Path) : bool :=
  negb (bool_decide (p ∈ fs_dirs fs)) && bool_decide (is_Some (fs_files fs !! p)).

(** [path.parents]: the parent, its parent and so on up to the root. *)
Fixpoint ancestors (n : nat) (p : Path) : list Path :=
  match n with
  | O => []
  | S n' => parent p :: ancestors n' (parent p)
  end.

Definition parents (p : Path) : list Path := ancestors (length p) p.

(** The inner loop of [_find_higher_file] at one level *)
Fixpoint find_at_level (fs : FS) (level : Path) (names : list string) : option Path :=
  match names with
  | [] => None
  | name :: rest =>
      if is_file fs (joinpath level name) then Some (joinpath level name)
      else find_at_level fs level rest
  end.

Fixpoint find_in_levels (fs : FS) (names : list string) (levels : list Path)
    : option Path :=
  match levels with
  | [] => None
  | level :: rest =>
      match find_at_level fs level names with
      | Some found => Some found
      | None => find_in_levels fs names rest
      end
  end.

(** [_find_higher_file] for the names [names], in the working directory
    [cwd]. *)
Definition _find_higher_file (fs : FS) (cwd : Path) (names : list string)
    (start : option Path) : option Path :=
  let start := match start with
               | None => cwd
               | Some start => start
               end in
  find_in_levels fs names (start :: parents start).

(** ** The files a folder matches *)

Section Matches.
Context `{Platform}.

(** The resolved matches of a list of globs of one folder *)
Fixpoint glob_matches (fs : FS) (folder : _FolderConfig) (globs : list pyval)
    : list Path :=
  match globs with
  | [] => []
  | file_glob :: rest =>
      match glob fs (fc_path folder) file_glob with
      | Ok matches => map (resolve fs) matches ++ glob_matches fs folder rest
      | Raise _ => []
      end
  end.

Definition folder_matches (fs : FS) (folder : _FolderConfig) : list Path :=
  match py_iter (fc_files folder) with
  | Ok globs => glob_matches fs folder globs
  | Raise _ => []
  end.

End Matches.

(** Two folders over the demo project that both match [pkg.py], and the
    files they claim. *)
Definition demo_folders : list _FolderConfig :=
  [ {| fc_path := ["proj"]; fc_files := VList [VStr "pkg.py"];
       fc_patterns := default_patterns |};
    {| fc_path := ["proj"]; fc_files := VList [VStr "*.py"]; fc_patterns := [] |} ].

Definition demo_claims : list (Path * _FolderConfig) :=
  match claim_folders demo_fs demo_folders [] with
  | Ok files => files
  | Raise _ => []
  end.

(** The demo project with a module whose lines end in a carriage return
    and a line feed. *)
Definition crlf_world : World := {|
  w_fs := {|
    fs_files :=
      <[ ["proj"; "pkg.py"] :=
           ("# demo" ++ String "013" (String "010" "__version__ = '0.0.0'")
              ++ String "013" (String "010" ""))%string ]>
        (fs_files demo_fs);
    fs_dirs := fs_dirs demo_fs
  |};
  w_state := w_state demo_world
|}.

(** A computation removes no file and leaves the set of directories as it
    is. *)
Definition keeps_files {A} (m : stateful World A) : Prop :=
  forall w,
    fs_dirs (w_fs (snd (m w))) = fs_dirs (w_fs w)
    /\ forall f, is_Some (fs_files (w_fs w) !! f) ->
                 is_Some (fs_files (w_fs (snd (m w))) !! f).

(** A computation leaves the names of the registered projects as they
    are. *)
Definition keeps_names {A} (m : stateful World A) : Prop :=
  forall w,
    map fst (projects (w_state (snd (m w)))) = map fst (projects (w_state w)).

(** What a document holds at a path of keys, if it has the path. *)
Fixpoint lookup_path (keys : list string) (doc : pyval) : option pyval :=
  match keys with
  | [] => Some doc
  | key :: rest =>
      match doc with
      | VDict d =>
          match dict_get key d with
          | Some v => lookup_path rest v
          | None => None
          end
      | _ => None
      end
  end.

(** [pyproject["tool"]["poetry-dynamic-versioning"]["enable"]] *)
Definition manifest_enable (pyproject : pyval) : result pyval :=
  let* tool := py_getitem pyproject "tool" in
  let* section := py_getitem tool "poetry-dynamic-versioning" in
  py_getitem section "enable".

(** A project whose manifest has no table for the plugin. *)
Definition bare_world : World := {|
  w_fs := {|
    fs_files :=
      <[ ["proj"; "pyproject.toml"] :=
           Py.join (String "010" "")
             ["tool|poetry|name=demo"; "tool|poetry|version=0.0.0"] ]> ∅;
    fs_dirs := {[ []; ["proj"] ]}
  |};
  w_state := {|
    patched_core_poetry_create := false;
    cli_mode := false;
    projects := [ ("demo", {| ps_path := ["proj"; "pyproject.toml"];
                              ps_original_version := VStr "0.0.0";
                              ps_version := "1.2.3";
                              ps_substitutions := [] |}) ]
  |}
|}.

(** The state of the demo project after the apply. *)
Definition demo_state : _ProjectState :=
  match assoc_get "demo" (projects (w_state demo_applied)) with
  | Some state => state
  | None => {| ps_path := []; ps_original_version := VNone; ps_version := "";
               ps_substitutions := [] |}
  end.

(** ** The entry point

    [_get_and_apply_version] works on the files and the registry, asks the
    collaborators, and changes the working directory.  A session holds
    the three. *)

Record Session := {
  s_world : World;
  s_log : list event;
  s_cwd : Path
}.

Definition in_world {A} (m : stateful World A) : stateful Session A :=
  fun s =>
    let '(r, w) := m (s_world s) in
    (r, {| s_world := w; s_log := s_log s; s_cwd := s_cwd s |}).

Definition in_log {A} (m : logged A) : stateful Session A :=
  fun s =>
    let '(r, log) := m (s_log s) in
    (r, {| s_world := s_world s; s_log := log; s_cwd := s_cwd s |}).

(** [os.chdir(str(p))] *)
Definition chdir (p : Path) : stateful Session unit :=
  fun s =>
    if bool_decide (p ∈ fs_dirs (w_fs (s_world s)))
    then (Ok tt, {| s_world := s_world s; s_log := s_log s; s_cwd := p |})
    else if fs_exists (w_fs (s_world s)) p then (Raise NotADirectoryError, s)
    else (Raise FileNotFoundError, s).

(** [try: body finally: final]: an exception of [final] replaces the
    outcome of [body]. *)
Definition try_finally {S A} (body : stateful S A) (final : stateful S unit)
    : stateful S A :=
  fun s =>
    let '(r, s1) := body s in
    match final s1 with
    | (Ok _, s2) => (r, s2)
    | (Raise e, s2) => (Raise e, s2)
    end.

(** [name in _state.projects] *)
Definition registered (name : string) : stateful Session bool :=
  fun s => (Ok (assoc_in name (projects (w_state (s_world s)))), s).

(** [_state.projects[name] = _ProjectState(path, original, version)] *)
Definition register (name : string) (path : Path) (original : pyval) (version : string)
    : stateful World unit :=
  fun w =>
    (Ok tt,
     set_projects
       (assoc_set name
          {| ps_path := path; ps_original_version := original; ps_version := version;
             ps_substitutions := [] |}
          (projects (w_state w)))
       w).

Section EntryPoint.
Context `{Collaborators} `{Platform}.
Local Open Scope stateful_scope.

(** The version, resolved in the directory of the manifest: the working
    directory is changed for the query and changed back whatever the query
    does. *)
Definition query_version (name : string) (config : dict) (pyproject_path : Path)
    (env : gmap string string) : stateful Session string :=
  do initial_dir <- (fun s => (Ok (s_cwd s), s));
  do _ <- chdir (parent pyproject_path);
  try_finally (in_log (_get_version config (Some name) env)) (chdir initial_dir).

(** The part of [_get_and_apply_version] after the configuration is
    read, for the project [name]. *)
Definition resolve_and_apply (name : string) (original : pyval) (config : dict)
    (pyproject_path : Path) (retain io : bool) (env : gmap string string)
    : stateful Session (option string) :=
  do version <- query_version name config pyproject_path env;
  do _ <-
    match original with
    | VNone => sret tt
    | _ =>
        do _ <- in_world (register name pyproject_path original version);
        if io then in_world (_apply_version version config pyproject_path retain)
        else sret tt
    end;
  sret (Some name).

(** [pyproject["tool"]["poetry"]["name"]] and [["version"]]; the name of
    a project is a string, as Poetry requires. *)
Definition manifest_identity (pyproject : pyval) : result (string * pyval) :=
  let* tool := py_getitem pyproject "tool" in
  let* poetry := py_getitem tool "poetry" in
  let* name := py_getitem poetry "name" in
  let* original := py_getitem poetry "version" in
  let* name := match name with VStr n => Ok n | _ => Raise TypeError end in
  Ok (name, original).

(** [_get_and_apply_version]; [None] for [original] is [VNone], and [env]
    is [os.environ]. *)
Definition _get_and_apply_version (name : option string) (original : pyval)
    (pyproject : option pyval) (pyproject_path : option Path)
    (retain force io : bool) (env : gmap string string)
    : stateful Session (option string) :=
  do known <- match name with
              | Some n => registered n
              | None => sret false
              end;
  if known then sret name
  else
    do pyproject_path <-
      match pyproject_path with
      | Some path => sret path
      | None =>
          fun s =>
            match _find_higher_file (w_fs (s_world s)) (s_cwd s) ["pyproject.toml"] None
            with
            | Some path => (Ok path, s)
            | None => (Raise (RuntimeError "Unable to find pyproject.toml"), s)
            end
      end;
    do pyproject <-
      match pyproject with
      | Some document => sret document
      | None =>
          do text <- in_world (read_text pyproject_path);
          slift (toml_parse text)
      end;
    do identity <-
      match name, original with
      | None, _ | Some _, VNone =>
          do identity <- slift (manifest_identity pyproject);
          do known <- registered (fst identity);
          sret (identity, known)
      | Some n, _ => sret ((n, original), false)
      end;
    let '((name, original), known) := identity in
    if known then sret (Some name)
    else
      do config <- slift (_get_config pyproject);
      do enable <- slift (py_getitem (VDict config) "enable");
      if negb (py_truthy enable) && negb force
      then
        do known <- registered name;
        sret (if known then Some name else None)
      else resolve_and_apply name original config pyproject_path retain io env.

End EntryPoint.

(** Sessions in the folder of the demo project: one with the project
    registered, one over the manifest without the plugin's table and with
    an empty registry. *)
Definition demo_session : Session :=
  {| s_world := demo_world; s_log := []; s_cwd := ["proj"] |}.

Definition bare_session : Session :=
  {| s_world := set_projects [] bare_world; s_log := []; s_cwd := ["proj"] |}.

(** ** Content without a match *)

(** The pattern matches at no position from [before | rest] on. *)
Fixpoint no_match_from (r : regex) (before rest : chars) : bool :=
  match match_at r before rest false with
  | Some _ => false
  | None =>
      match rest with
      | [] => true
      | c :: rest' => no_match_from r (c :: before) rest'
      end
  end.

(** A pattern of a known mode, with at least two groups and a text to
    insert that has no backslash, that matches nowhere in [content]. *)
Definition pattern_misses (version content : string) (p : _SubPattern) : bool :=
  match sp_value p, insert_for (sp_mode p) version with
  | VStr value, Ok insert =>
      match parse_regex (list_ascii_of_string value) with
      | Some (r, ngroups) =>
          (2 <=? ngroups)%nat
          && no_backslash (list_ascii_of_string insert)
          && no_match_from r [] (list_ascii_of_string content)
      | None => false
      end
  | _, _ => false
  end.


(** * Properties *)

(** ** Validation: unfolding lemmas *)

Lemma validate_value_dict items default path :
  validate_value (VDict items) default path =
  if negb (py_truthy default) then Ok [] else validate_items default path items.
Proof.
  simpl. destruct (negb (py_truthy default)); [reflexivity|].
  induction items as [|[key value] rest IH]; [reflexivity|].
  simpl. rewrite IH. reflexivity.
Qed.

Lemma reported_dict items default path :
  reported (VDict items) default path =
  match default with [] => [] | _ :: _ => reported_items default path items end.
Proof.
  simpl. destruct default as [|e default]; [reflexivity|].
  induction items as [|[key value] rest IH]; [reflexivity|].
  simpl. simpl in IH. rewrite IH. reflexivity.
Qed.

Lemma mappings_agree_dict items default :
  mappings_agree (VDict items) default = mappings_agree_items default items.
Proof.
  simpl. induction items as [|[key value] rest IH]; [reflexivity|].
  simpl. rewrite IH. reflexivity.
Qed.

(** ** Validation against the default schema *)

Lemma validate_value_reported (config : pyval) :
  forall (default : dict) (path : list string),
    is_dict config = true ->
    mappings_agree config default = true ->
    validate_value config (VDict default) path = Ok (reported config default path).
Proof.
  induction config as [| | | | |items IH] using pyval_nested_ind;
    intros default path Hd Hagree; try discriminate.
  rewrite validate_value_dict, reported_dict.
  rewrite mappings_agree_dict in Hagree.
  destruct default as [|e default]; [reflexivity|].
  change (negb (py_truthy (VDict (e :: default)))) with false. cbv iota.
  set (dflt := e :: default) in *. clearbody dflt. clear Hd.
  induction items as [|[key value] rest IHrest]; [reflexivity|].
  apply Forall_cons in IH as [IHv IHr].
  simpl in Hagree. apply andb_true_iff in Hagree as [Hv Hr].
  simpl. unfold dict_in.
  rewrite (IHrest IHr Hr). clear IHrest IHr Hr.
  destruct (dict_get key dflt) as [dv|] eqn:Hget; simpl; [|reflexivity].
  destruct (is_dict value) eqn:Hvd; simpl.
  - destruct dv; try (simpl in Hv; discriminate).
    simpl in IHv. rewrite (IHv d (path ++ [key]) Hvd Hv). reflexivity.
  - destruct dv; reflexivity.
Qed.

(** C8 (amended).  Against a default section, validation reports every
    key of the user section that the default lacks as one
    [Unknown key: <dotted.path>] string, descends into the keys whose value
    is a mapping on both sides, reports nothing for a leaf the default
    knows, and reports nothing at all under an empty default section;
    this for a user section whose mapping-valued keys have mapping-valued
    defaults. *)
Theorem validate_reports_unknown_keys (config default : dict) (path : list string) :
  mappings_agree (VDict config) default = true ->
  _validate_config_section config (VDict default) path
  = Ok (reported (VDict config) default path).
Proof.
  intros Hagree. unfold _validate_config_section.
  apply validate_value_reported; [reflexivity | exact Hagree].
Qed.

Lemma validate_reports_unknown_keys_witness :
  _validate_config_section
    [("enable", VBool true); ("vsc", VStr "git");
     ("substitution", VDict [("file", VList []); ("folders", VList [])]);
     ("files", VDict [("pkg/_version.py", VDict [("persistent", VBool true)])]);
     ("tag.dir", VStr "t")]
    (VDict default_section) ["tool"; "poetry-dynamic-versioning"]
  = Ok ["Unknown key: tool.poetry-dynamic-versioning.vsc";
        "Unknown key: tool.poetry-dynamic-versioning.substitution.file";
        ("Unknown key: tool.poetry-dynamic-versioning." ++ String "034" "tag.dir"
          ++ String "034" "")%string].
Proof.
  rewrite validate_reports_unknown_keys; reflexivity.
Defined.

(** C8 as stated fails: a key under [files] is absent from the default
    at its level (the default for [files] is the empty mapping), so the
    statement asks for one error, and validation returns none. *)
Lemma validate_unknown_keys_counterexample :
  unknown_keys_as_stated (VDict [("files", VDict [("a.py", VDict [])])])
    default_section ["tool"; "poetry-dynamic-versioning"]
    = [("Unknown key: tool.poetry-dynamic-versioning.files." ++ String "034" "a.py"
          ++ String "034" "")%string]
  /\ _validate_config_section [("files", VDict [("a.py", VDict [])])]
       (VDict default_section) ["tool"; "poetry-dynamic-versioning"] = Ok []
  /\ _validate_config_section [("files", VDict [("a.py", VDict [])])]
       (VDict default_section) ["tool"; "poetry-dynamic-versioning"]
     <> Ok (unknown_keys_as_stated (VDict [("files", VDict [("a.py", VDict [])])])
              default_section ["tool"; "poetry-dynamic-versioning"]).
Proof.
  split; [reflexivity|]. split; [reflexivity|]. discriminate.
Qed.

Lemma validate_items_files_entry (files_section : dict) (path : list string)
    (post : dict) :
  validate_items (VDict default_section) path (("files", VDict files_section) :: post)
  = validate_items (VDict default_section) path post.
Proof.
  cbn [validate_items].
  change (py_contains (VDict default_section) "files") with (Ok (A:=bool) true).
  change (py_getitem (VDict default_section) "files") with (Ok (VDict [])).
  cbn [rbind negb is_dict andb].
  rewrite validate_value_dict. cbn [py_truthy negb rbind].
  destruct (validate_items (VDict default_section) path post); reflexivity.
Qed.

(** C10.  Under an empty default section validation returns no error,
    whatever the user section holds; the default for [files] is the empty
    mapping, so a [files] entry of the user section, with any keys and
    anything below them, adds nothing to the result. *)
Theorem validate_empty_default_exempt :
  (forall (config : dict) (path : list string),
      _validate_config_section config (VDict []) path = Ok [])
  /\ dict_get "files" default_section = Some (VDict [])
  /\ (forall (files_section pre post : dict) (path : list string),
        _validate_config_section (pre ++ ("files", VDict files_section) :: post)
          (VDict default_section) path
        = _validate_config_section (pre ++ post) (VDict default_section) path).
Proof.
  split; [|split].
  - intros config path. unfold _validate_config_section.
    rewrite validate_value_dict. reflexivity.
  - reflexivity.
  - intros files_section pre post path. unfold _validate_config_section.
    rewrite !validate_value_dict.
    change (negb (py_truthy (VDict default_section))) with false. cbv iota.
    induction pre as [|[key value] pre IH].
    + apply validate_items_files_entry.
    + cbn [app validate_items]. rewrite IH. reflexivity.
Qed.

(** The code descends into a user mapping whatever the default at that
    key is: a string default is then searched for the key as a substring
    and subscripted by it. *)
Example validate_descends_into_string_default :
  _validate_config_section [("vcs", VDict [("b", VInt 1)])]
    (VDict default_section) ["tool"; "poetry-dynamic-versioning"]
  = Ok ["Unknown key: tool.poetry-dynamic-versioning.vcs.b"]
  /\ _validate_config_section [("vcs", VDict [("a", VInt 1)])]
       (VDict default_section) ["tool"; "poetry-dynamic-versioning"]
     = Ok []
  /\ _validate_config_section [("vcs", VDict [("a", VDict [])])]
       (VDict default_section) ["tool"; "poetry-dynamic-versioning"]
     = Raise TypeError.
Proof. repeat split. Qed.

(** ** The tuple encoding *)

Lemma string_app_nil_r (s : string) : (s ++ "")%string = s.
Proof.
  induction s as [|c s IH]; [reflexivity|].
  change (String c (s ++ "")%string = String c s). f_equal. exact IH.
Qed.

Lemma split_once_absent (sep : ascii) (s : string) :
  Py.char_in sep s = false -> Py.split_once sep s = (s, None).
Proof.
  induction s as [|c s IH]; simpl; [reflexivity|].
  destruct (Ascii.eqb c sep); [discriminate|].
  intros Hs. rewrite (IH Hs). reflexivity.
Qed.

Lemma split_once_first (sep : ascii) (head tail : string) :
  Py.char_in sep head = false ->
  Py.split_once sep (head ++ String sep tail) = (head, Some tail).
Proof.
  induction head as [|c head IH]; simpl.
  - rewrite Ascii.eqb_refl. reflexivity.
  - destruct (Ascii.eqb c sep); [discriminate|].
    intros Hs. rewrite (IH Hs). reflexivity.
Qed.

(** C3 (amended).  The tuple encoding splits the metadata off at the
    first [+], splits what precedes it at every [-] and [.], skips empty
    tokens, writes a token [int] accepts as that integer and any other
    token between double quotes, keeps the metadata as one last token of
    the same treatment, joins the elements with a comma and a space, and
    ends with a comma exactly when there is one element.  So [1.2.3] gives
    [1, 2, 3], [1.2.3-rc.1+abc] gives [1, 2, 3, "rc", 1, "abc"] and [1]
    gives [1,]. *)
Theorem tuple_mode_encoding (head metadata : string) :
  Py.char_in "+" head = false ->
  tuple_parts (head ++ String "+" metadata)
    = flat_map tuple_part (Py.split_by is_dash_or_dot head) ++ tuple_part metadata
  /\ tuple_parts head = flat_map tuple_part (Py.split_by is_dash_or_dot head)
  /\ tuple_part "" = []
  /\ (forall (part : string) (z : Z),
        part <> "" -> Py.int part = Some z -> tuple_part part = [Py.str_of_int z])
  /\ (forall part : string,
        part <> "" -> Py.int part = None -> tuple_part part = [quoted part])
  /\ (forall version : string,
        tuple_insert version
        = (Py.join ", " (tuple_parts version)
           ++ if (length (tuple_parts version) =? 1)%nat then "," else "")%string)
  /\ tuple_insert "1.2.3" = "1, 2, 3"
  /\ tuple_insert "1.2.3-rc.1+abc"
     = Py.join ", " ["1"; "2"; "3"; quoted "rc"; "1"; quoted "abc"]
  /\ tuple_insert "1" = "1,".
Proof.
  intros Hplus. repeat split.
  - unfold tuple_parts, tuple_split. rewrite (split_once_first _ _ _ Hplus).
    rewrite flat_map_app. simpl. rewrite app_nil_r. reflexivity.
  - unfold tuple_parts, tuple_split. rewrite (split_once_absent _ _ Hplus).
    rewrite app_nil_r. reflexivity.
  - intros part z Hne Hint. unfold tuple_part.
    destruct (String.eqb_spec part ""); [contradiction|]. rewrite Hint. reflexivity.
  - intros part Hne Hint. unfold tuple_part.
    destruct (String.eqb_spec part ""); [contradiction|]. rewrite Hint. reflexivity.
  - intros version. unfold tuple_insert.
    destruct (length (tuple_parts version) =? 1)%nat; [reflexivity|].
    symmetry. apply string_app_nil_r.
Qed.

Lemma tuple_mode_encoding_witness :
  tuple_parts "1.2.3-rc.1+abc" = ["1"; "2"; "3"; quoted "rc"; "1"; quoted "abc"].
Proof.
  exact (proj1 (tuple_mode_encoding "1.2.3-rc.1" "abc" eq_refl)).
Defined.

(** C3 as stated fails at its second example: the token [1] after [rc]
    is numeric and is written bare, not between quotes. *)
Lemma tuple_mode_encoding_counterexample :
  tuple_insert "1.2.3-rc.1+abc"
  <> Py.join ", " ["1"; "2"; "3"; quoted "rc"; quoted "1"; quoted "abc"].
Proof. discriminate. Qed.

(** ** Overrides *)

Lemma split_once_present (sep : ascii) (s : string) :
  Py.char_in sep s = true -> exists v, snd (Py.split_once sep s) = Some v.
Proof.
  induction s as [|c s IH]; simpl; [discriminate|].
  destruct (Ascii.eqb c sep); [eauto|].
  intros Hs. destruct (IH Hs) as [v Hv].
  destruct (Py.split_once sep s) as [a b]. simpl in *. eauto.
Qed.

Lemma override_in_pairs_none (name : string) (pairs : list string) :
  Forall (fun q => pair_matches name q = false) pairs ->
  override_in_pairs name pairs = None.
Proof.
  induction 1 as [|q pairs Hq _ IH]; [reflexivity|].
  simpl. unfold pair_matches in Hq.
  destruct (Py.char_in "=" q); simpl in *; [|exact IH].
  destruct (Py.split_once "=" q) as [k [v|]]; simpl in *; [|exact IH].
  rewrite Hq. exact IH.
Qed.

Lemma override_in_pairs_first (name : string) (pre : list string) (p : string)
    (post : list string) :
  Forall (fun q => pair_matches name q = false) pre ->
  pair_matches name p = true ->
  override_in_pairs name (pre ++ p :: post) = Some (pair_value p).
Proof.
  intros Hpre Hp. induction Hpre as [|q pre Hq _ IH].
  - simpl. unfold pair_matches in Hp. unfold pair_value.
    apply andb_true_iff in Hp as [Heq Hk]. rewrite Heq. simpl.
    destruct (split_once_present _ _ Heq) as [v Hv].
    destruct (Py.split_once "=" p) as [k b]. simpl in *. subst b.
    rewrite Hk. reflexivity.
  - simpl. unfold pair_matches in Hq.
    destruct (Py.char_in "=" q); simpl in *; [|exact IH].
    destruct (Py.split_once "=" q) as [k [v|]]; simpl in *; [|exact IH].
    rewrite Hq. exact IH.
Qed.

Section OverridePrecedence.
Context `{Collaborators}.

(** C4.  A pair of the per-project override variable that names the
    project decides the result: the value of the first such pair is
    returned whatever the bypass variable holds, pairs without [=] and
    pairs for other names being passed over.  When no pair names the
    project (or the override variable is unset, or there is no project
    name) the bypass variable, if set, is returned as it is.  When neither
    applies there is no override and the version is resolved from the
    VCS. *)
Theorem override_precedence (config : dict) (name : option string)
    (env : gmap string string) (log : list event) :
  (forall (n raw : string) (pre : list string) (p : string) (post : list string),
      name = Some n ->
      env !! _OVERRIDE_ENV = Some raw ->
      Py.split "," raw = pre ++ p :: post ->
      Forall (fun q => pair_matches n q = false) pre ->
      pair_matches n p = true ->
      _get_override_version name env = Some (pair_value p)
      /\ _get_version config name env log = (Ok (pair_value p), log))
  /\ ((name = None
       \/ env !! _OVERRIDE_ENV = None
       \/ exists n raw : string,
            name = Some n /\ env !! _OVERRIDE_ENV = Some raw
            /\ Forall (fun q => pair_matches n q = false) (Py.split "," raw)) ->
      _get_override_version name env = env !! _BYPASS_ENV
      /\ (forall bypass : string,
             env !! _BYPASS_ENV = Some bypass ->
             _get_version config name env log = (Ok bypass, log))
      /\ (env !! _BYPASS_ENV = None ->
          _get_override_version name env = None
          /\ _get_version config name env log = resolve_from_vcs config log)).
Proof.
  split.
  - intros n raw pre p post -> Hraw Hsplit Hpre Hp.
    assert (Hov : _get_override_version (Some n) env = Some (pair_value p)).
    { unfold _get_override_version. rewrite Hraw, Hsplit.
      rewrite (override_in_pairs_first _ _ _ _ Hpre Hp). reflexivity. }
    split; [exact Hov|]. unfold _get_version. rewrite Hov. reflexivity.
  - intros Hno.
    assert (Hov : _get_override_version name env = env !! _BYPASS_ENV).
    { destruct Hno as [-> | [Hunset | (n & raw & -> & Hraw & Hall)]].
      - reflexivity.
      - unfold _get_override_version. rewrite Hunset. destruct name; reflexivity.
      - unfold _get_override_version. rewrite Hraw.
        rewrite (override_in_pairs_none _ _ Hall). reflexivity. }
    split; [exact Hov|]. split.
    + intros bypass Hb. unfold _get_version. rewrite Hov, Hb. reflexivity.
    + intros Hb. rewrite Hov. split; [exact Hb|].
      unfold _get_version. rewrite Hov, Hb. reflexivity.
Qed.

End OverridePrecedence.

Lemma override_precedence_witness :
  (_get_override_version (Some "foo") sample_env = Some "9.9.9"
   /\ _get_version default_section (Some "foo") sample_env [] = (Ok "9.9.9", []))
  /\ _get_override_version (Some "bar") sample_env = Some "1.0.0"
  /\ _get_override_version (Some "bar") (delete _BYPASS_ENV sample_env) = None.
Proof.
  split; [|split].
  - apply (proj1 (override_precedence default_section (Some "foo") sample_env [])
             "foo" "foo=9.9.9" [] "foo=9.9.9" []); try reflexivity.
    constructor.
  - apply (proj2 (override_precedence default_section (Some "bar") sample_env [])).
    right. right. exists "bar", "foo=9.9.9". repeat split.
    repeat constructor.
  - apply (proj2 (override_precedence default_section (Some "bar")
                    (delete _BYPASS_ENV sample_env) [])).
    + right. right. exists "bar", "foo=9.9.9". repeat split.
      repeat constructor.
    + reflexivity.
Defined.

(** ** The shallow-repository retry *)

Section ShallowRetry.
Context `{Collaborators}.

Lemma print_warnings_log (cs : list Concern) (log : list event) :
  print_warnings cs log = (Ok tt, log ++ map EvWarning cs).
Proof.
  revert log. induction cs as [|c cs IH]; intros log; simpl.
  - rewrite app_nil_r. reflexivity.
  - rewrite IH, <- app_assoc. reflexivity.
Qed.

Lemma query_with_shallow_fix_trace (config : dict) (vcs : Vcs) (pattern : pattern_arg)
    (latest_tag tag_dir tag_branch full_commit strict : pyval) (log : list event) :
  dict_get "latest-tag" config = Some latest_tag ->
  dict_get "tag-dir" config = Some tag_dir ->
  dict_get "tag-branch" config = Some tag_branch ->
  dict_get "full-commit" config = Some full_commit ->
  dict_get "strict" config = Some strict ->
  let first := {| fv_vcs := vcs; fv_pattern := pattern; fv_latest_tag := latest_tag;
                  fv_tag_dir := tag_dir; fv_tag_branch := tag_branch;
                  fv_full_commit := full_commit; fv_strict := VBool false |} in
  let again := {| fv_vcs := vcs; fv_pattern := pattern; fv_latest_tag := latest_tag;
                  fv_tag_dir := tag_dir; fv_tag_branch := tag_branch;
                  fv_full_commit := full_commit; fv_strict := strict |} in
  exists rest : list event,
    snd (query_with_shallow_fix vcs pattern config log) = log ++ EvFromVcs first :: rest
    /\ (rest = [] \/ rest = [EvFromVcs again] \/ rest = [unshallow]
        \/ rest = [unshallow; EvFromVcs again])
    /\ (In unshallow rest <->
        exists v, from_vcs log first = Ok v /\ shallow_git v = true).
Proof.
  intros Hlt Htd Htb Hfc Hst first again.
  unfold query_with_shallow_fix, _get_version_from_dunamai, sbind, slift, sret,
    py_getitem.
  rewrite Hlt, Htd, Htb, Hfc, Hst. fold first. fold again.
  destruct (from_vcs log first) as [v|e] eqn:Hq.
  2:{ exists []. split; [reflexivity|]. split; [auto|].
      split; [intros []|]. intros (v & Hv & _). discriminate. }
  destruct (shallow_git v) eqn:Hsh.
  - unfold _run_cmd.
    destruct (subprocess_run (log ++ [EvFromVcs first]) "git fetch --unshallow")
      as [code out].
    destruct (py_truthy (VList (map VInt [0%Z])) && negb (existsb (Z.eqb code) [0%Z])).
    + exists [unshallow]. cbn [snd]. rewrite <- app_assoc.
      split; [reflexivity|]. split; [auto|].
      split; [eauto|]. intros _. left. reflexivity.
    + exists [unshallow; EvFromVcs again]. cbn [snd py_truthy].
      rewrite <- !app_assoc.
      split; [reflexivity|]. split; [auto|].
      split; [eauto|]. intros _. left. reflexivity.
  - assert (Hnot : ~ exists v0, Ok v = Ok v0 /\ shallow_git v0 = true).
    { intros (v0 & Hv0 & Hs0). injection Hv0 as <-. congruence. }
    destruct (py_truthy strict).
    + exists [EvFromVcs again]. cbn [snd]. rewrite <- app_assoc.
      split; [reflexivity|]. split; [auto|].
      split; [|intros Hc; contradiction].
      intros [Hc|[]]. discriminate.
    + exists []. split; [reflexivity|]. split; [auto|].
      split; [intros []|]. intros Hc. contradiction.
Qed.

(** C9.  With [fix-shallow-repository] set and no override, version
    resolution first queries the VCS with strict checking off.  What it
    does to the collaborators after that query is one of: nothing; one
    re-query; the unshallow fetch alone (when the fetch fails); the
    unshallow fetch and then one re-query.  The fetch is issued exactly
    when the first query returned a version whose concerns include the
    shallow-repository concern and whose VCS is git.  The re-query carries
    the configured [strict] value.  The remaining events are the warnings
    printed at the end. *)
Theorem shallow_retry_bounded (config : dict) (name : option string)
    (env : gmap string string) (log : list event)
    (vcs_name : string) (vcs : Vcs)
    (style pattern fix_shallow latest_tag tag_dir tag_branch full_commit strict : pyval) :
  _get_override_version name env = None ->
  dict_get "vcs" config = Some (VStr vcs_name) ->
  Vcs_of_string vcs_name = Some vcs ->
  dict_get "style" config = Some style ->
  style = VNone \/ style_valid style = true ->
  dict_get "pattern" config = Some pattern ->
  dict_get "fix-shallow-repository" config = Some fix_shallow ->
  py_truthy fix_shallow = true ->
  dict_get "latest-tag" config = Some latest_tag ->
  dict_get "tag-dir" config = Some tag_dir ->
  dict_get "tag-branch" config = Some tag_branch ->
  dict_get "full-commit" config = Some full_commit ->
  dict_get "strict" config = Some strict ->
  let pattern_given :=
    match pattern with VNone => PatternDefault | p => PatternValue p end in
  let first := {| fv_vcs := vcs; fv_pattern := pattern_given;
                  fv_latest_tag := latest_tag; fv_tag_dir := tag_dir;
                  fv_tag_branch := tag_branch; fv_full_commit := full_commit;
                  fv_strict := VBool false |} in
  let again := {| fv_vcs := vcs; fv_pattern := pattern_given;
                  fv_latest_tag := latest_tag; fv_tag_dir := tag_dir;
                  fv_tag_branch := tag_branch; fv_full_commit := full_commit;
                  fv_strict := strict |} in
  exists rest warnings : list event,
    snd (_get_version config name env log)
      = log ++ EvFromVcs first :: rest ++ warnings
    /\ forallb is_warning warnings = true
    /\ (rest = [] \/ rest = [EvFromVcs again] \/ rest = [unshallow]
        \/ rest = [unshallow; EvFromVcs again])
    /\ (In unshallow rest <->
        exists v, from_vcs log first = Ok v /\ shallow_git v = true).
Proof.
  intros Hov Hvcs Hvcs' Hstyle Hstyle' Hpat Hfix Hfix' Hlt Htd Htb Hfc Hst
    pattern_given first again.
  destruct (query_with_shallow_fix_trace config vcs pattern_given _ _ _ _ _ log
              Hlt Htd Htb Hfc Hst) as (rest & Hlog & Hshape & Hfetch).
  fold first in Hlog, Hfetch. fold again in Hshape.
  unfold _get_version. rewrite Hov.
  unfold resolve_from_vcs, sbind, slift, py_getitem.
  rewrite Hvcs, Hvcs', Hstyle.
  assert (Hs : match style with
               | VNone => Ok tt
               | _ => if style_valid style then Ok tt else Raise (ValueError "style")
               end = Ok tt).
  { destruct Hstyle' as [-> | Hv]; [reflexivity|]. rewrite Hv. destruct style; reflexivity. }
  rewrite Hs, Hpat, Hfix, Hfix'. fold pattern_given.
  destruct (query_with_shallow_fix vcs pattern_given config log) as [[v|e] log'].
  - cbn [snd] in Hlog. subst log'. rewrite print_warnings_log.
    exists rest, (map EvWarning (concerns v)).
    cbn [snd]. rewrite <- app_assoc.
    split; [reflexivity|]. split; [|auto].
    induction (concerns v); [reflexivity | assumption].
  - cbn [snd] in Hlog. subst log'. exists rest, [].
    cbn [snd]. rewrite app_nil_r. auto.
Qed.

End ShallowRetry.

Lemma shallow_retry_bounded_witness :
  let first := {| fv_vcs := Any; fv_pattern := PatternDefault;
                  fv_latest_tag := VBool false; fv_tag_dir := VStr "tags";
                  fv_tag_branch := VNone; fv_full_commit := VBool false;
                  fv_strict := VBool false |} in
  exists rest warnings : list event,
    snd (_get_version (dict_set "fix-shallow-repository" (VBool true) default_section)
           (Some "foo") ∅ [])
      = [] ++ EvFromVcs first :: rest ++ warnings
    /\ forallb is_warning warnings = true
    /\ (rest = [] \/ rest = [EvFromVcs first] \/ rest = [unshallow]
        \/ rest = [unshallow; EvFromVcs first])
    /\ (In unshallow rest <->
        exists v, from_vcs [] first = Ok v /\ shallow_git v = true).
Proof.
  apply (shallow_retry_bounded
           (dict_set "fix-shallow-repository" (VBool true) default_section)
           (Some "foo") ∅ [] "any" Any VNone VNone (VBool true) (VBool false)
           (VStr "tags") VNone (VBool false) (VBool false));
    try reflexivity.
  left. reflexivity.
Defined.

(** ** Replacement templates *)

Lemma parse_template_literal (ngroups : nat) (text tail : chars) (fuel : nat) :
  no_backslash text = true ->
  parse_template (length text + fuel) ngroups (text ++ tail)
  = match parse_template fuel ngroups tail with
    | Some items => Some (map TLit text ++ items)
    | None => None
    end.
Proof.
  induction text as [|c text IH]; intros Hnb.
  - simpl. destruct (parse_template fuel ngroups tail); reflexivity.
  - simpl in Hnb. apply andb_true_iff in Hnb as [Hc Hnb].
    cbn [length Nat.add app parse_template]. rewrite Hc.
    rewrite (IH Hnb). unfold lit.
    destruct (parse_template fuel ngroups tail); reflexivity.
Qed.

Lemma list_ascii_of_string_app (s1 s2 : string) :
  list_ascii_of_string (s1 ++ s2)%string
  = list_ascii_of_string s1 ++ list_ascii_of_string s2.
Proof.
  induction s1 as [|c s1 IH]; [reflexivity|].
  change (c :: list_ascii_of_string (s1 ++ s2)%string
          = c :: (list_ascii_of_string s1 ++ list_ascii_of_string s2)).
  f_equal. exact IH.
Qed.

Lemma parse_replacement (ngroups : nat) (insert : string) :
  no_backslash (list_ascii_of_string insert) = true ->
  2 <= ngroups ->
  parse_template (S (length (list_ascii_of_string (replacement insert)))) ngroups
    (list_ascii_of_string (replacement insert))
  = Some (keep_and_insert (list_ascii_of_string insert)).
Proof.
  intros Hnb Hn. unfold replacement. rewrite !list_ascii_of_string_app.
  set (ins := list_ascii_of_string insert) in *.
  rewrite !length_app.
  change (list_ascii_of_string "\g<1>") with ["\"; "g"; "<"; "1"; ">"]%char.
  change (list_ascii_of_string "\g<2>") with ["\"; "g"; "<"; "2"; ">"]%char.
  cbn [length].
  replace (S (5 + (length ins + 5))) with (S (length ins + 10)) by lia.
  cbn [app parse_template negb Ascii.eqb Bool.eqb until_gt forallb Py.is_digit
       decimal_value fold_left].
  rewrite (parse_template_literal ngroups ins _ 10 Hnb).
  cbn. unfold group_ref.
  destruct ngroups as [|[|n]]; [lia | lia |]. reflexivity.
Qed.

Lemma expand_keep_and_insert (insert before rest : chars) (stop : mstate) :
  expand (keep_and_insert insert) before rest stop
  = group_text 1 stop ++ insert ++ group_text 2 stop.
Proof.
  unfold expand, keep_and_insert. cbn [flat_map expand_item].
  rewrite flat_map_app. cbn [flat_map expand_item]. rewrite app_nil_r.
  fold (group_text 1 stop). fold (group_text 2 stop). f_equal. f_equal.
  induction insert as [|c insert IH]; [reflexivity|]. simpl. rewrite IH. reflexivity.
Qed.

(** ** The substitution engine *)

Lemma substitute_app (version content : string) (l1 l2 : list _SubPattern) :
  _substitute_version_in_text version content (l1 ++ l2)
  = (let* mid := _substitute_version_in_text version content l1 in
     _substitute_version_in_text version mid l2).
Proof.
  revert content. induction l1 as [|p l1 IH]; intros content; [reflexivity|].
  cbn [app _substitute_version_in_text].
  destruct (insert_for (sp_mode p) version) as [insert|e]; [|reflexivity].
  cbn [rbind].
  destruct (match sp_value p with
            | VStr value => re_sub value (replacement insert) content
            | _ => Raise TypeError
            end) as [new_content|e]; [|reflexivity].
  cbn [rbind]. apply IH.
Qed.

(** C5 (amended).  The mode tags the engine accepts are [str] and
    [tuple].  Reached after the patterns before it have been applied, a
    pattern of mode [str] is substituted with the version in the
    replacement and a pattern of mode [tuple] with the tuple encoding; a
    pattern of any other mode, [string] included, makes the engine raise
    the invalid-mode [ValueError].  For an insert without a backslash and a
    pattern of two groups or more the replacement keeps group 1, writes the
    insert as it is and keeps group 2. *)
Theorem substitution_mode_dispatch (version content mid : string)
    (pre : list _SubPattern) (p : _SubPattern) (post : list _SubPattern) :
  _substitute_version_in_text version content pre = Ok mid ->
  (forall value : string,
      sp_value p = VStr value ->
      (sp_mode p = VStr "str" ->
       _substitute_version_in_text version content (pre ++ [p])
       = re_sub value (replacement version) mid)
      /\ (sp_mode p = VStr "tuple" ->
          _substitute_version_in_text version content (pre ++ [p])
          = re_sub value (replacement (tuple_insert version)) mid))
  /\ (sp_mode p <> VStr "str" -> sp_mode p <> VStr "tuple" ->
      _substitute_version_in_text version content (pre ++ p :: post)
      = Raise (InvalidMode (sp_mode p)))
  /\ (forall (insert : string) (ngroups : nat),
        no_backslash (list_ascii_of_string insert) = true ->
        2 <= ngroups ->
        parse_template (S (length (list_ascii_of_string (replacement insert)))) ngroups
          (list_ascii_of_string (replacement insert))
        = Some (keep_and_insert (list_ascii_of_string insert)))
  /\ (forall (insert before rest : chars) (stop : mstate),
        expand (keep_and_insert insert) before rest stop
        = group_text 1 stop ++ insert ++ group_text 2 stop).
Proof.
  intros Hpre. split; [|split; [|split]].
  - intros value Hvalue. split; intros Hmode;
      rewrite substitute_app, Hpre; cbn [rbind _substitute_version_in_text];
      rewrite Hmode, Hvalue.
    + change (insert_for (VStr "str") version) with (Ok version). cbn [rbind].
      destruct (re_sub value (replacement version) mid); reflexivity.
    + change (insert_for (VStr "tuple") version) with (Ok (tuple_insert version)).
      cbn [rbind].
      destruct (re_sub value (replacement (tuple_insert version)) mid); reflexivity.
  - intros Hstr Htuple. rewrite substitute_app, Hpre.
    cbn [rbind _substitute_version_in_text]. unfold insert_for.
    assert (H1 : pyval_is_str (sp_mode p) "str" = false).
    { destruct (sp_mode p) as [| | |s| |]; try reflexivity.
      cbn [pyval_is_str]. apply String.eqb_neq. congruence. }
    assert (H2 : pyval_is_str (sp_mode p) "tuple" = false).
    { destruct (sp_mode p) as [| | |s| |]; try reflexivity.
      cbn [pyval_is_str]. apply String.eqb_neq. congruence. }
    rewrite H1, H2. reflexivity.
  - intros insert ngroups. apply parse_replacement.
  - intros insert before rest stop. apply expand_keep_and_insert.
Qed.

Lemma substitution_mode_dispatch_witness :
  _substitute_version_in_text "1.2.3" "__version__ = '0.0.0'"
    ([] ++ [ {| sp_value := VStr default_version_pattern; sp_mode := VStr "str" |} ])
  = Ok "__version__ = '1.2.3'"
  /\ _substitute_version_in_text "1.2.3" "__version_tuple__ = (0, 0, 0)"
       ([] ++ [ {| sp_value := VStr default_version_tuple_pattern;
                   sp_mode := VStr "tuple" |} ])
     = Ok "__version_tuple__ = (1, 2, 3)"
  /\ _substitute_version_in_text "1.2.3" "__version__ = '0.0.0'"
       ([] ++ {| sp_value := VStr default_version_pattern; sp_mode := VNone |}
           :: default_patterns)
     = Raise (InvalidMode VNone).
Proof.
  split; [|split].
  - rewrite (proj1 (proj1 (substitution_mode_dispatch "1.2.3" "__version__ = '0.0.0'"
                             "__version__ = '0.0.0'" []
                             {| sp_value := VStr default_version_pattern;
                                sp_mode := VStr "str" |} [] eq_refl)
                      default_version_pattern eq_refl) eq_refl).
    vm_compute. reflexivity.
  - rewrite (proj2 (proj1 (substitution_mode_dispatch "1.2.3"
                             "__version_tuple__ = (0, 0, 0)"
                             "__version_tuple__ = (0, 0, 0)" []
                             {| sp_value := VStr default_version_tuple_pattern;
                                sp_mode := VStr "tuple" |} [] eq_refl)
                      default_version_tuple_pattern eq_refl) eq_refl).
    vm_compute. reflexivity.
  - apply (proj1 (proj2 (substitution_mode_dispatch "1.2.3" "__version__ = '0.0.0'"
                           "__version__ = '0.0.0'" []
                           {| sp_value := VStr default_version_pattern;
                              sp_mode := VNone |} default_patterns eq_refl)));
      discriminate.
Defined.

(** C5 as stated fails: the tag [string] is not one the engine accepts. *)
Lemma substitution_mode_counterexample :
  _substitute_version_in_text "1.2.3" "__version__ = '0.0.0'"
    [ {| sp_value := VStr default_version_pattern; sp_mode := VStr "string" |} ]
  = Raise (InvalidMode (VStr "string")).
Proof. reflexivity. Qed.

(** A backslash in the version is read as an escape of the replacement
    template: the two characters [\n] come out as a line feed. *)
Example version_backslash_is_escape :
  _substitute_version_in_text "1\n2" "v='0'"
    [ {| sp_value := VStr "(')[^']*(')"; sp_mode := VStr "str" |} ]
  = Ok ("v='1" ++ String "010" "2'")%string.
Proof. vm_compute. reflexivity. Qed.


(** ** The file store: what leaves the registry alone *)

Section StoreProperties.
Context `{Platform}.
Local Open Scope stateful_scope.

Lemma keeps_state_sret {A} (a : A) : keeps_state (sret a).
Proof. intros w. reflexivity. Qed.

Lemma keeps_state_sraise {A} (e : exn) : keeps_state (sraise (A:=A) e).
Proof. intros w. reflexivity. Qed.

Lemma keeps_state_slift {A} (r : result A) : keeps_state (slift r).
Proof. intros w. reflexivity. Qed.

Lemma keeps_state_sbind {A B} (m : stateful World A) (k : A -> stateful World B) :
  keeps_state m -> (forall a, keeps_state (k a)) -> keeps_state (sbind m k).
Proof.
  intros Hm Hk w. unfold sbind. specialize (Hm w).
  destruct (m w) as [[a|e] w']; simpl in *.
  - rewrite Hk. exact Hm.
  - exact Hm.
Qed.

Lemma keeps_state_read_text (p : Path) : keeps_state (read_text p).
Proof. intros w. reflexivity. Qed.

Lemma keeps_state_write_text (p : Path) (text : string) : keeps_state (write_text p text).
Proof.
  intros w. unfold write_text. destruct (fs_write_text (w_fs w) p text); reflexivity.
Qed.

Lemma keeps_state_mkdir (p : Path) : keeps_state (mkdir p).
Proof. intros w. unfold mkdir. destruct (fs_mkdir (w_fs w) p); reflexivity. Qed.

Lemma keeps_state_peek {A} (f : World -> A) :
  keeps_state (fun w => (Ok (f w), w)).
Proof. intros w. reflexivity. Qed.

Ltac keeps_state :=
  repeat first
    [ apply keeps_state_sret | apply keeps_state_sraise | apply keeps_state_slift
    | apply keeps_state_read_text | apply keeps_state_write_text
    | apply keeps_state_mkdir | apply keeps_state_peek
    | apply keeps_state_sbind; [|intros ?]
    | match goal with
      | |- keeps_state (if ?b then _ else _) => destruct b
      | |- keeps_state (match ?x with _ => _ end) => destruct x
      end ].

Lemma keeps_state_stamp (version : pyval) (enable retain : bool) (pyproject : pyval) :
  keeps_state (stamp version enable retain pyproject).
Proof. unfold stamp. keeps_state. Qed.

Lemma keeps_state_create_file (root : Path) (file_name : string) (file_info : pyval) :
  keeps_state (create_file root file_name file_info).
Proof. unfold create_file. keeps_state. Qed.

Lemma keeps_state_create_files (root : Path) (files : dict) :
  keeps_state (create_files root files).
Proof.
  induction files as [|[file_name file_info] rest IH]; simpl.
  - apply keeps_state_sret.
  - apply keeps_state_sbind; [apply keeps_state_create_file | intros _; exact IH].
Qed.

Lemma keeps_state_write_manifest_and_files (version : string) (config : dict)
    (pyproject_path : Path) (retain : bool) :
  keeps_state (write_manifest_and_files version config pyproject_path retain).
Proof.
  unfold write_manifest_and_files.
  repeat first
    [ apply keeps_state_stamp | apply keeps_state_create_files
    | apply keeps_state_sret | apply keeps_state_slift
    | apply keeps_state_read_text | apply keeps_state_write_text
    | apply keeps_state_sbind; [|intros ?] ].
Qed.

(** C7.  When the project already has recorded substitutions, the
    substitution step returns at once: the files and the registry are as it
    found them.  A second apply therefore ends in the world the manifest
    write and the creation of the extra files leave, and these two leave
    the registry as it was. *)
Theorem apply_without_repeat (version : string) (config : dict) (pyproject_path : Path)
    (retain : bool) (folders : list _FolderConfig) (name : string)
    (state : _ProjectState) (w w1 : World) :
  write_manifest_and_files version config pyproject_path retain w = (Ok name, w1) ->
  FolderConfig_from_config config (parent pyproject_path) = Ok folders ->
  assoc_get name (projects (w_state w)) = Some state ->
  ps_substitutions state <> [] ->
  _substitute_version name version folders w1 = (Ok tt, w1)
  /\ _apply_version version config pyproject_path retain w = (Ok tt, w1)
  /\ w_state w1 = w_state w.
Proof.
  intros Hwrite Hfolders Hget Hsubs.
  assert (Hstate : w_state w1 = w_state w).
  { pose proof (keeps_state_write_manifest_and_files version config pyproject_path
                  retain w) as Hk.
    rewrite Hwrite in Hk. exact Hk. }
  assert (Hskip : _substitute_version name version folders w1 = (Ok tt, w1)).
  { unfold _substitute_version, sbind, get_project. rewrite Hstate, Hget.
    destruct (ps_substitutions state); [contradiction | reflexivity]. }
  split; [exact Hskip|]. split; [|exact Hstate].
  unfold _apply_version, sbind. rewrite Hwrite.
  unfold slift. rewrite Hfolders. exact Hskip.
Qed.

End StoreProperties.

Lemma apply_without_repeat_witness :
  exists w1 : World,
    _apply_version "2.0.0" demo_config demo_path false demo_applied = (Ok tt, w1)
    /\ w_state w1 = w_state demo_applied
    /\ fs_files (w_fs w1) !! ["proj"; "pkg.py"] = Some "__version__ = '1.2.3'"
    /\ fs_files (w_fs demo_applied) !! ["proj"; "pkg.py"] = Some "__version__ = '1.2.3'".
Proof.
  exists (snd (write_manifest_and_files "2.0.0" demo_config demo_path false demo_applied)).
  destruct (apply_without_repeat "2.0.0" demo_config demo_path false
              [ {| fc_path := ["proj"];
                   fc_files := VList [VStr "*.py"; VStr "*/__init__.py";
                                      VStr "*/__version__.py"; VStr "*/_version.py"];
                   fc_patterns := default_patterns |} ]
              "demo"
              {| ps_path := demo_path; ps_original_version := VStr "0.0.0";
                 ps_version := "1.2.3";
                 ps_substitutions :=
                   [ (["proj"; "v.py"],
                      ("__version__ = " ++ String "034" "0.0.0" ++ String "034" "")%string);
                     (["proj"; "pkg.py"], "__version__ = '0.0.0'") ] |}
              demo_applied
              (snd (write_manifest_and_files "2.0.0" demo_config demo_path false
                      demo_applied)))
    as (_ & Happly & Hstate).
  - vm_compute. reflexivity.
  - vm_compute. reflexivity.
  - vm_compute. reflexivity.
  - discriminate.
  - split; [exact Happly|]. split; [exact Hstate|].
    split; vm_compute; reflexivity.
Defined.

(** ** The initial content of an extra file *)

Lemma parent_fixed (p : Path) : parent p = p -> p = [].
Proof.
  unfold parent. intros Hp.
  assert (Hlen : forall l : Path, l <> [] -> length (removelast l) < length l).
  { induction l as [|x l IH]; [congruence|]. intros _.
    destruct l as [|y l]; [simpl; lia|].
    change (removelast (x :: y :: l)) with (x :: removelast (y :: l)).
    simpl. apply -> Nat.succ_lt_mono. apply IH. discriminate. }
  destruct p as [|x p]; [reflexivity|].
  specialize (Hlen (x :: p) ltac:(discriminate)). rewrite Hp in Hlen. lia.
Qed.

Section InitialContent.
Context `{Platform}.

(** C6 (amended).  For an extra file whose configuration has an initial
    content, the step writes the dedented initial content whether the file
    is there or not, whatever it held; it creates the parent directory when
    that is missing (one level: its own parent has to be there).  With no
    initial content the step does nothing.  Other files and the registry
    are as before. *)
Theorem initial_content_step (root : Path) (file_name : string) (file_info : pyval)
    (w : World) :
  (forall text : string,
      py_getitem file_info "initial-content" = Ok (VStr text) ->
      joinpath root file_name ∉ fs_dirs (w_fs w) ->
      parent (joinpath root file_name) ∈ fs_dirs (w_fs w)
      \/ (fs_exists (w_fs w) (parent (joinpath root file_name)) = false
          /\ parent (parent (joinpath root file_name)) ∈ fs_dirs (w_fs w)) ->
      exists w' : World,
        create_file root file_name file_info w = (Ok tt, w')
        /\ fs_files (w_fs w')
           = <[joinpath root file_name := dedent text]> (fs_files (w_fs w))
        /\ fs_dirs (w_fs w') = {[parent (joinpath root file_name)]} ∪ fs_dirs (w_fs w)
        /\ w_state w' = w_state w)
  /\ (py_getitem file_info "initial-content" = Ok VNone ->
      create_file root file_name file_info w = (Ok tt, w)).
Proof.
  split.
  - intros text Hinit Hfile Hparent.
    set (full := joinpath root file_name) in *.
    unfold create_file, sbind, slift. rewrite Hinit. fold full.
    destruct Hparent as [Hdir | [Hmissing Hgrand]].
    + assert (Hex : fs_exists (w_fs w) (parent full) = true).
      { unfold fs_exists. rewrite (bool_decide_eq_true_2 _ Hdir). reflexivity. }
      rewrite Hex. unfold sret, write_text, fs_write_text.
      rewrite (bool_decide_eq_false_2 _ Hfile), (bool_decide_eq_true_2 _ Hdir).
      eexists. split; [reflexivity|]. cbn [w_fs set_fs fs_files fs_dirs w_state].
      split; [reflexivity|]. split; [|reflexivity].
      apply set_eq. intros x. rewrite elem_of_union, elem_of_singleton.
      split; [auto | intros [-> | Hx]; auto].
    + rewrite Hmissing. unfold mkdir, fs_mkdir. rewrite Hmissing.
      rewrite (bool_decide_eq_true_2 _ Hgrand).
      assert (Hne : full <> parent full).
      { intros Heq. symmetry in Heq. apply parent_fixed in Heq.
        rewrite Heq in Hmissing, Hgrand. unfold fs_exists in Hmissing.
        change (parent (parent [])) with (@nil string) in Hgrand.
        change (parent []) with (@nil string) in Hmissing.
        rewrite (bool_decide_eq_true_2 _ Hgrand) in Hmissing. discriminate. }
      unfold write_text, fs_write_text. cbn [w_fs set_fs fs_files fs_dirs].
      rewrite bool_decide_eq_false_2
        by (rewrite elem_of_union, elem_of_singleton; intros [Hf | Hf]; auto).
      rewrite bool_decide_eq_true_2
        by (rewrite elem_of_union, elem_of_singleton; auto).
      eexists. split; [reflexivity|]. cbn [w_fs set_fs fs_files fs_dirs w_state].
      repeat split.
  - intros Hinit. unfold create_file, sbind, slift. rewrite Hinit. reflexivity.
Qed.

End InitialContent.

Lemma initial_content_step_witness :
  exists w' : World,
    create_file ["proj"] "v.py"
      (VDict [("initial-content", VStr "__version__ = '0'")]) demo_world = (Ok tt, w')
    /\ fs_files (w_fs w')
       = <[ ["proj"; "v.py"] := "__version__ = '0'" ]> (fs_files (w_fs demo_world))
    /\ w_state w' = w_state demo_world.
Proof.
  destruct (proj1 (initial_content_step ["proj"] "v.py"
                     (VDict [("initial-content", VStr "__version__ = '0'")]) demo_world)
              "__version__ = '0'" eq_refl)
    as (w' & Hrun & Hfiles & _ & Hstate).
  - apply (bool_decide_eq_false_1 (joinpath ["proj"] "v.py" ∈ fs_dirs (w_fs demo_world))).
    vm_compute. reflexivity.
  - left.
    apply (bool_decide_eq_true_1
             (parent (joinpath ["proj"] "v.py") ∈ fs_dirs (w_fs demo_world))).
    vm_compute. reflexivity.
  - exists w'. split; [exact Hrun|]. split; [|exact Hstate].
    rewrite Hfiles. vm_compute. reflexivity.
Defined.

(** C6 as stated fails: [v.py] is there with a content of its own before
    apply, its configuration has an initial content, and after the manifest
    write and the creation of the extra files it holds the initial
    content. *)
Lemma initial_content_counterexample :
  fs_files (w_fs demo_world) !! ["proj"; "v.py"] = Some "# written by hand"
  /\ dict_get "files" demo_config
     = Some (VDict [("v.py",
                     VDict [("initial-content",
                             VStr ("__version__ = " ++ String "034" "0.0.0"
                                     ++ String "034" "")%string);
                            ("persistent-substitution", VNone)])])
  /\ exists w' : World,
       write_manifest_and_files "1.2.3" demo_config demo_path false demo_world
       = (Ok "demo", w')
       /\ fs_files (w_fs w') !! ["proj"; "v.py"]
          = Some ("__version__ = " ++ String "034" "0.0.0" ++ String "034" "")%string.
Proof.
  split; [vm_compute; reflexivity|]. split; [vm_compute; reflexivity|].
  eexists. split; vm_compute; reflexivity.
Qed.

(** ** Stateful computations that succeed *)

Lemma sbind_ok {S A B} (m : stateful S A) (k : A -> stateful S B) (s s' : S) (b : B) :
  sbind m k s = (Ok b, s') ->
  exists a s1, m s = (Ok a, s1) /\ k a s1 = (Ok b, s').
Proof.
  unfold sbind. destruct (m s) as [[a|e] s1]; [eauto | discriminate].
Qed.

Lemma slift_ok {S A} (r : result A) (s s' : S) (a : A) :
  slift r s = (Ok a, s') -> r = Ok a /\ s' = s.
Proof. unfold slift. intros [= -> ->]. auto. Qed.

Lemma sret_ok {S A} (x a : A) (s s' : S) :
  sret x s = (Ok a, s') -> a = x /\ s' = s.
Proof. unfold sret. intros [= -> ->]. auto. Qed.

Lemma rbind_ok {A B} (r : result A) (k : A -> result B) (b : B) :
  rbind r k = Ok b -> exists a, r = Ok a /\ k a = Ok b.
Proof. destruct r as [a|e]; [eauto | discriminate]. Qed.

(** ** Dicts *)

Lemma dict_get_set_eq (k : string) (v : pyval) (d : dict) :
  dict_get k (dict_set k v d) = Some v.
Proof.
  induction d as [|[k' v'] d IH]; simpl.
  - rewrite String.eqb_refl. reflexivity.
  - destruct (String.eqb k' k) eqn:Hk; simpl; rewrite Hk; [reflexivity | exact IH].
Qed.

Lemma dict_get_set_ne (k k' : string) (v : pyval) (d : dict) :
  k <> k' -> dict_get k (dict_set k' v d) = dict_get k d.
Proof.
  intros Hne. induction d as [|[k0 v0] d IH]; simpl.
  - destruct (String.eqb_spec k' k); [congruence | reflexivity].
  - destruct (String.eqb_spec k0 k') as [->|Hk0]; simpl.
    + destruct (String.eqb_spec k' k); [congruence | reflexivity].
    + destruct (String.eqb k0 k); [reflexivity | exact IH].
Qed.

Lemma assoc_in_spec {K V} `{EqDecision K} (k : K) (l : list (K * V)) :
  assoc_in k l = false <-> k ∉ map fst l.
Proof.
  unfold assoc_in. induction l as [|[k' v] l IH]; simpl.
  - split; [intros _; apply not_elem_of_nil | reflexivity].
  - destruct (decide (k' = k)) as [->|Hne].
    + split; [discriminate|]. intros Hn. exfalso. apply Hn. left.
    + rewrite IH. rewrite not_elem_of_cons. split; [auto | tauto].
Qed.

Lemma assoc_get_none {K V} `{EqDecision K} (k : K) (l : list (K * V)) :
  assoc_get k l = None <-> k ∉ map fst l.
Proof.
  rewrite <- assoc_in_spec. unfold assoc_in.
  destruct (assoc_get k l); split; congruence.
Qed.

Lemma assoc_get_set_eq {K V} `{EqDecision K} (k : K) (v : V) (l : list (K * V)) :
  assoc_get k (assoc_set k v l) = Some v.
Proof.
  induction l as [|[k' v'] l IH]; simpl.
  - destruct (decide (k = k)); [reflexivity | contradiction].
  - destruct (decide (k' = k)) as [->|Hne]; simpl.
    + destruct (decide (k = k)); [reflexivity | contradiction].
    + destruct (decide (k' = k)); [contradiction | exact IH].
Qed.

Lemma assoc_get_set_ne {K V} `{EqDecision K} (k k' : K) (v : V) (l : list (K * V)) :
  k <> k' -> assoc_get k (assoc_set k' v l) = assoc_get k l.
Proof.
  intros Hne. induction l as [|[k0 v0] l IH]; simpl.
  - destruct (decide (k' = k)); [congruence | reflexivity].
  - destruct (decide (k0 = k')) as [->|Hk0]; simpl.
    + destruct (decide (k' = k)); [congruence | reflexivity].
    + destruct (decide (k0 = k)); [reflexivity | exact IH].
Qed.

Lemma assoc_set_keys {K V} `{EqDecision K} (k : K) (v : V) (l : list (K * V)) :
  map fst (assoc_set k v l)
  = if assoc_in k l then map fst l else map fst l ++ [k].
Proof.
  unfold assoc_in. induction l as [|[k' v'] l IH]; simpl; [reflexivity|].
  destruct (decide (k' = k)) as [->|Hne]; simpl; [reflexivity|].
  rewrite IH. destruct (assoc_get k l); reflexivity.
Qed.

Lemma assoc_set_NoDup {K V} `{EqDecision K} (k : K) (v : V) (l : list (K * V)) :
  NoDup (map fst l) -> NoDup (map fst (assoc_set k v l)).
Proof.
  intros Hnd. rewrite assoc_set_keys.
  destruct (assoc_in k l) eqn:Hin; [exact Hnd|].
  apply assoc_in_spec in Hin.
  apply NoDup_app. split; [exact Hnd|]. split.
  - intros x Hx Hx'. apply list_elem_of_singleton in Hx'. subst. contradiction.
  - apply NoDup_singleton.
Qed.

(** ** The file store: what is written where *)

Section Frames.
Context `{Platform}.
Local Open Scope stateful_scope.

Lemma only_writes_weaken {A} (P Q : Path -> Prop) (m : stateful World A) :
  (forall f, P f -> Q f) -> only_writes P m -> only_writes Q m.
Proof. intros HPQ Hm w f Hf. apply Hm. auto. Qed.

Lemma only_writes_sret {A} P (a : A) : only_writes P (sret a).
Proof. intros w f _. reflexivity. Qed.

Lemma only_writes_sraise {A} P (e : exn) : only_writes P (sraise (A:=A) e).
Proof. intros w f _. reflexivity. Qed.

Lemma only_writes_slift {A} P (r : result A) : only_writes P (slift r).
Proof. intros w f _. reflexivity. Qed.

Lemma only_writes_peek {A} P (g : World -> result A) :
  only_writes P (fun w => (g w, w)).
Proof. intros w f _. reflexivity. Qed.

Lemma only_writes_sbind {A B} P (m : stateful World A) (k : A -> stateful World B) :
  only_writes P m -> (forall a, only_writes P (k a)) -> only_writes P (sbind m k).
Proof.
  intros Hm Hk w f Hf. unfold sbind. specialize (Hm w f Hf).
  destruct (m w) as [[a|e] w']; simpl in *.
  - rewrite (Hk a w' f Hf). exact Hm.
  - exact Hm.
Qed.

Lemma only_writes_read_text P (p : Path) : only_writes P (read_text p).
Proof. intros w f _. reflexivity. Qed.

Lemma only_writes_write_text (P : Path -> Prop) (p : Path) (text : string) :
  P p -> only_writes P (write_text p text).
Proof.
  intros Hp w f Hf. unfold write_text, fs_write_text.
  destruct (bool_decide (p ∈ fs_dirs (w_fs w))); [reflexivity|].
  destruct (bool_decide (parent p ∈ fs_dirs (w_fs w))).
  - cbn [snd set_fs w_fs fs_files]. apply lookup_insert_ne. intros ->. contradiction.
  - destruct (fs_exists (w_fs w) (parent p)); reflexivity.
Qed.

Lemma only_writes_mkdir P (p : Path) : only_writes P (mkdir p).
Proof.
  intros w f _. unfold mkdir, fs_mkdir.
  destruct (fs_exists (w_fs w) p); [reflexivity|].
  destruct (bool_decide (parent p ∈ fs_dirs (w_fs w))); [reflexivity|].
  destruct (fs_exists (w_fs w) (parent p)); reflexivity.
Qed.

Lemma only_writes_stamp P (version : pyval) (enable retain : bool) (pyproject : pyval) :
  only_writes P (stamp version enable retain pyproject).
Proof.
  unfold stamp.
  apply only_writes_sbind; [apply only_writes_slift | intros doc].
  apply only_writes_sbind; [apply (only_writes_peek P (fun w => Ok (cli_mode (w_state w)))) |].
  intros cli. destruct (negb retain && negb cli);
    [apply only_writes_slift | apply only_writes_sret].
Qed.

Lemma only_writes_create_file (root : Path) (file_name : string) (file_info : pyval) :
  only_writes (fun f => f = joinpath root file_name) (create_file root file_name file_info).
Proof.
  unfold create_file.
  apply only_writes_sbind; [apply only_writes_slift | intros initial].
  destruct initial;
    repeat first
      [ apply only_writes_sret | apply only_writes_sraise
      | apply only_writes_mkdir
      | apply only_writes_write_text; reflexivity
      | apply (only_writes_peek _ (fun w => Ok (fs_exists (w_fs w)
                                                  (parent (joinpath root file_name)))))
      | apply only_writes_sbind; [|intros ?]
      | match goal with |- only_writes _ (if ?b then _ else _) => destruct b end ].
Qed.

Lemma only_writes_create_files (root : Path) (files : dict) :
  only_writes (fun f => f ∈ map (fun kv => joinpath root (fst kv)) files)
    (create_files root files).
Proof.
  induction files as [|[file_name file_info] rest IH]; simpl.
  - apply only_writes_sret.
  - apply only_writes_sbind.
    + eapply only_writes_weaken; [|apply only_writes_create_file].
      intros f ->. left.
    + intros _. eapply only_writes_weaken; [|exact IH].
      intros f Hf. right. exact Hf.
Qed.

Lemma only_writes_sbind_slift {A B} P (r : result A) (k : A -> stateful World B) :
  (forall a, r = Ok a -> only_writes P (k a)) -> only_writes P (sbind (slift r) k).
Proof.
  intros Hk w f Hf. unfold sbind, slift. destruct r as [a|e]; [|reflexivity].
  apply (Hk a eq_refl w f Hf).
Qed.

Lemma only_writes_write_manifest_and_files (version : string) (config : dict)
    (pyproject_path : Path) (retain : bool) :
  only_writes
    (fun f => f = pyproject_path \/ f ∈ extra_paths (parent pyproject_path) config)
    (write_manifest_and_files version config pyproject_path retain).
Proof.
  unfold write_manifest_and_files.
  apply only_writes_sbind; [apply only_writes_read_text | intros text].
  apply only_writes_sbind; [apply only_writes_slift | intros doc].
  apply only_writes_sbind; [apply only_writes_stamp | intros doc'].
  apply only_writes_sbind; [apply only_writes_write_text; left; reflexivity | intros _].
  apply only_writes_sbind; [apply only_writes_slift | intros tool].
  apply only_writes_sbind; [apply only_writes_slift | intros poetry].
  apply only_writes_sbind; [apply only_writes_slift | intros name].
  apply only_writes_sbind; [apply only_writes_slift | intros name'].
  apply only_writes_sbind_slift. intros files Hfiles.
  apply only_writes_sbind_slift. intros d Hd.
  apply only_writes_sbind; [|intros _; apply only_writes_sret].
  eapply only_writes_weaken; [|apply only_writes_create_files].
  intros f Hf. right. unfold extra_paths.
  unfold py_getitem in Hfiles. destruct (dict_get "files" config) as [v|]; [|discriminate].
  injection Hfiles as ->. destruct files; try discriminate.
  injection Hd as ->. exact Hf.
Qed.

End Frames.

(** ** The manifest *)

Lemma dict_update_ok (key : string) (f : pyval -> result pyval) (d d' : pyval) :
  dict_update key f d = Ok d' ->
  exists items old new,
    d = VDict items /\ dict_get key items = Some old /\ f old = Ok new
    /\ d' = VDict (dict_set key new items).
Proof.
  unfold dict_update. destruct d as [| | | | |items]; try discriminate.
  intros Hu. apply rbind_ok in Hu as (old & Hold & Hu).
  apply rbind_ok in Hu as (new & Hnew & Hu). injection Hu as <-.
  unfold py_getitem in Hold. destruct (dict_get key items) as [v|] eqn:Hget; [|discriminate].
  injection Hold as ->. eauto 10.
Qed.

Lemma set_tool_key_version (version pyproject pyproject' : pyval) :
  set_tool_key "poetry" "version" version pyproject = Ok pyproject' ->
  manifest_version pyproject' = Ok version.
Proof.
  unfold set_tool_key. intros Hs.
  apply dict_update_ok in Hs as (items & tool & tool' & -> & _ & Htool & ->).
  apply dict_update_ok in Htool as (titems & poetry & poetry' & -> & _ & Hp & ->).
  destruct poetry as [| | | | |pd]; try discriminate. injection Hp as <-.
  unfold manifest_version, py_getitem. rewrite dict_get_set_eq. cbn [rbind].
  rewrite dict_get_set_eq. cbn [rbind]. rewrite dict_get_set_eq. reflexivity.
Qed.

Lemma set_tool_key_enable (value pyproject pyproject' : pyval) :
  set_tool_key "poetry-dynamic-versioning" "enable" value pyproject = Ok pyproject' ->
  manifest_version pyproject' = manifest_version pyproject.
Proof.
  unfold set_tool_key. intros Hs.
  apply dict_update_ok in Hs as (items & tool & tool' & -> & Hget & Htool & ->).
  apply dict_update_ok in Htool as (titems & section & section' & -> & _ & _ & ->).
  unfold manifest_version, py_getitem. rewrite dict_get_set_eq, Hget. cbn [rbind].
  rewrite dict_get_set_ne by discriminate. reflexivity.
Qed.

Section RoundTrip.
Context `{Platform}.
Local Open Scope stateful_scope.

Lemma stamp_ok (version : pyval) (enable retain : bool) (pyproject pyproject' : pyval)
    (w w' : World) :
  stamp version enable retain pyproject w = (Ok pyproject', w') ->
  w' = w /\ manifest_version pyproject' = Ok version.
Proof.
  unfold stamp. intros Hs.
  apply sbind_ok in Hs as (d1 & w1 & H1 & Hs). apply slift_ok in H1 as [H1 ->].
  apply sbind_ok in Hs as (cli & w2 & H2 & Hs). injection H2 as <- <-.
  apply set_tool_key_version in H1.
  destruct (negb retain && negb (cli_mode (w_state w))).
  - apply slift_ok in Hs as [Hs ->]. split; [reflexivity|].
    rewrite (set_tool_key_enable _ _ _ Hs). exact H1.
  - apply sret_ok in Hs as [-> ->]. auto.
Qed.

Lemma read_text_ok (p : Path) (text : string) (w w' : World) :
  read_text p w = (Ok text, w') ->
  w' = w
  /\ (exists raw : string,
         fs_files (w_fs w) !! p = Some raw /\ text = universal_newlines raw)
  /\ fs_read_text (w_fs w) p = Ok text.
Proof.
  unfold read_text. intros [= Hr <-]. split; [reflexivity|]. split; [|exact Hr].
  unfold fs_read_text in Hr.
  destruct (bool_decide (p ∈ fs_dirs (w_fs w))); [discriminate|].
  destruct (fs_files (w_fs w) !! p) as [raw|]; [|discriminate].
  exists raw. split; [reflexivity | congruence].
Qed.

Lemma write_text_ok (p : Path) (text : string) (w w' : World) :
  write_text p text w = (Ok tt, w') ->
  fs_files (w_fs w') = <[p := text]> (fs_files (w_fs w))
  /\ w_state w' = w_state w.
Proof.
  unfold write_text. destruct (fs_write_text (w_fs w) p text) as [fs|e] eqn:Hw;
    [|discriminate].
  intros [= <-]. split; [|reflexivity]. cbn [set_fs w_fs].
  unfold fs_write_text in Hw.
  destruct (bool_decide (p ∈ fs_dirs (w_fs w))); [discriminate|].
  destruct (bool_decide (parent p ∈ fs_dirs (w_fs w))).
  - injection Hw as <-. reflexivity.
  - destruct (fs_exists (w_fs w) (parent p)); discriminate.
Qed.

(** *** Revert *)

Lemma restore_files_ok (persistent : list Path) (substitutions : list (Path * string)) :
  forall w w' : World,
    NoDup (map fst substitutions) ->
    restore_files persistent substitutions w = (Ok tt, w') ->
    w_state w' = w_state w
    /\ forall f : Path,
         fs_files (w_fs w') !! f
         = match assoc_get f substitutions with
           | Some content =>
               if bool_decide (f ∈ persistent) then fs_files (w_fs w) !! f
               else Some content
           | None => fs_files (w_fs w) !! f
           end.
Proof.
  induction substitutions as [|[file content] rest IH]; intros w w' Hnd Hr.
  - apply sret_ok in Hr as [_ ->]. auto.
  - cbn [map fst] in Hnd. apply NoDup_cons in Hnd as [Hfresh Hnd].
    apply assoc_get_none in Hfresh.
    cbn [restore_files] in Hr. cbn [assoc_get].
    destruct (bool_decide (file ∈ persistent)) eqn:Hp.
    + destruct (IH w w' Hnd Hr) as [Hst Hfiles]. split; [exact Hst|].
      intros f. rewrite Hfiles. destruct (decide (file = f)) as [<-|Hne]; [|reflexivity].
      rewrite Hfresh, Hp. reflexivity.
    + apply sbind_ok in Hr as ([] & w1 & Hw & Hr).
      apply write_text_ok in Hw as [Hw Hst1].
      destruct (IH w1 w' Hnd Hr) as [Hst Hfiles]. split; [congruence|].
      intros f. rewrite Hfiles, Hw. destruct (decide (file = f)) as [<-|Hne].
      * rewrite Hfresh, Hp. apply lookup_insert_eq.
      * rewrite lookup_insert_ne by exact Hne. reflexivity.
Qed.

Lemma revert_project_ok (retain : bool) (state : _ProjectState) (w w' : World) :
  NoDup (map fst (ps_substitutions state)) ->
  revert_project retain state w = (Ok tt, w') ->
  w_state w' = w_state w
  /\ (exists pyproject : pyval,
         fs_files (w_fs w') !! ps_path state = Some (toml_dumps pyproject)
         /\ manifest_version pyproject = Ok (ps_original_version state))
  /\ forall (f : Path) (content : string),
       assoc_get f (ps_substitutions state) = Some content ->
       exists persistent : list Path,
         persistent_paths (w_fs w) (ps_path state) = Ok persistent
         /\ (f <> ps_path state -> f ∉ persistent ->
             fs_files (w_fs w') !! f = Some content)
         /\ (f <> ps_path state -> f ∈ persistent ->
             fs_files (w_fs w') !! f = fs_files (w_fs w) !! f).
Proof.
  intros Hnd Hr. unfold revert_project in Hr.
  apply sbind_ok in Hr as (text & w1 & Hread & Hr).
  apply read_text_ok in Hread as (-> & _ & Hread).
  apply sbind_ok in Hr as (doc & w1 & Hparse & Hr).
  apply slift_ok in Hparse as [Hparse ->].
  apply sbind_ok in Hr as (doc' & w2 & Hmid & Hr).
  apply sbind_ok in Hr as (doc'' & w3 & Hstamp & Hr).
  apply stamp_ok in Hstamp as [-> Hversion].
  apply write_text_ok in Hr as [Hfinal Hst].
  destruct (ps_substitutions state) as [|s0 subs] eqn:Hsubs.
  - apply sret_ok in Hmid as [-> ->]. split; [exact Hst|]. split.
    + exists doc''. rewrite Hfinal, lookup_insert_eq. auto.
    + intros f content Hget. discriminate.
  - rewrite <- Hsubs in *. clear Hsubs s0 subs.
    apply sbind_ok in Hmid as (config & w4 & Hconfig & Hmid).
    apply slift_ok in Hconfig as [Hconfig ->].
    apply sbind_ok in Hmid as (files & w4 & Hfiles & Hmid).
    apply slift_ok in Hfiles as [Hfiles ->].
    apply sbind_ok in Hmid as (files' & w4 & Hfiles' & Hmid).
    apply slift_ok in Hfiles' as [Hfiles' ->].
    apply sbind_ok in Hmid as (persistent & w4 & Hpers & Hmid).
    apply slift_ok in Hpers as [Hpers ->].
    apply sbind_ok in Hmid as ([] & w4 & Hrestore & Hmid).
    apply sbind_ok in Hmid as (text' & w5 & Hread' & Hmid).
    apply read_text_ok in Hread' as (-> & _ & _).
    apply slift_ok in Hmid as [_ ->].
    destruct (restore_files_ok _ _ _ _ Hnd Hrestore) as [Hst4 Hrest].
    split; [congruence|]. split.
    + exists doc''. rewrite Hfinal, lookup_insert_eq. auto.
    + intros f content Hget. exists persistent. split.
      * unfold persistent_paths. rewrite Hread. cbn [rbind]. rewrite Hparse. cbn [rbind].
        rewrite Hconfig. cbn [rbind]. rewrite Hfiles. cbn [rbind].
        rewrite Hfiles'. cbn [rbind]. exact Hpers.
      * split; intros Hne Hp; rewrite Hfinal, lookup_insert_ne by congruence;
          rewrite Hrest, Hget.
        -- rewrite bool_decide_eq_false_2 by exact Hp. reflexivity.
        -- rewrite bool_decide_eq_true_2 by exact Hp. reflexivity.
Qed.

(** *** Apply *)

Lemma claim_matches_NoDup (fs : FS) (folder : _FolderConfig) (matches : list Path) :
  forall files, NoDup (map fst files) ->
                NoDup (map fst (claim_matches fs folder matches files)).
Proof.
  induction matches as [|m rest IH]; intros files Hnd; [exact Hnd|].
  cbn [claim_matches]. apply IH.
  destruct (assoc_in (resolve fs m) files) eqn:Hin; [exact Hnd|].
  apply assoc_in_spec in Hin. rewrite map_app. cbn [map fst].
  apply NoDup_app. split; [exact Hnd|]. split; [|apply NoDup_singleton].
  intros x Hx Hx'. apply list_elem_of_singleton in Hx'. subst. contradiction.
Qed.

Lemma claim_globs_NoDup (fs : FS) (folder : _FolderConfig) (globs : list pyval) :
  forall files files',
    NoDup (map fst files) ->
    claim_globs fs folder globs files = Ok files' -> NoDup (map fst files').
Proof.
  induction globs as [|g rest IH]; intros files files' Hnd Hc.
  - injection Hc as <-. exact Hnd.
  - cbn [claim_globs] in Hc. apply rbind_ok in Hc as (matches & _ & Hc).
    eapply IH; [|exact Hc]. apply claim_matches_NoDup. exact Hnd.
Qed.

Lemma claim_folders_NoDup (fs : FS) (folders : list _FolderConfig) :
  forall files files',
    NoDup (map fst files) ->
    claim_folders fs folders files = Ok files' -> NoDup (map fst files').
Proof.
  induction folders as [|folder rest IH]; intros files files' Hnd Hc.
  - injection Hc as <-. exact Hnd.
  - cbn [claim_folders] in Hc. apply rbind_ok in Hc as (globs & _ & Hc).
    apply rbind_ok in Hc as (files1 & H1 & Hc).
    eapply IH; [|exact Hc]. eapply claim_globs_NoDup; [exact Hnd | exact H1].
Qed.

Lemma record_substitution_ok (name : string) (file : Path) (content : string)
    (state : _ProjectState) (w w' : World) :
  projects (w_state w) = [(name, state)] ->
  record_substitution name file content w = (Ok tt, w') ->
  projects (w_state w')
  = [(name, {| ps_path := ps_path state;
               ps_original_version := ps_original_version state;
               ps_version := ps_version state;
               ps_substitutions := assoc_set file content (ps_substitutions state) |})]
  /\ w_fs w' = w_fs w.
Proof.
  intros Hp. unfold record_substitution. rewrite Hp. cbn [assoc_get].
  destruct (decide (name = name)); [|contradiction].
  intros [= <-]. cbn [set_projects w_state projects w_fs assoc_set].
  destruct (decide (name = name)); [|contradiction]. auto.
Qed.

Lemma substitute_file_ok (name version : string) (file : Path) (config : _FolderConfig)
    (state : _ProjectState) (w w' : World) :
  projects (w_state w) = [(name, state)] ->
  substitute_file name version file config w = (Ok tt, w') ->
  exists state' : _ProjectState,
    projects (w_state w') = [(name, state')]
    /\ ps_path state' = ps_path state
    /\ ps_original_version state' = ps_original_version state
    /\ (ps_substitutions state' = ps_substitutions state
        \/ exists raw,
             fs_files (w_fs w) !! file = Some raw
             /\ ps_substitutions state'
                = assoc_set file (universal_newlines raw) (ps_substitutions state))
    /\ forall f, f <> file -> fs_files (w_fs w') !! f = fs_files (w_fs w) !! f.
Proof.
  intros Hp Hs. unfold substitute_file in Hs.
  apply sbind_ok in Hs as (original & w1 & Hread & Hs).
  apply read_text_ok in Hread as (-> & (raw & Hfile & Horiginal) & _).
  apply sbind_ok in Hs as (new & w1 & Hnew & Hs).
  apply slift_ok in Hnew as [_ ->].
  destruct (String.eqb original new); subst original.
  - apply sret_ok in Hs as [_ ->]. exists state. auto 10.
  - apply sbind_ok in Hs as ([] & w1 & Hrec & Hs).
    destruct (record_substitution_ok _ _ _ _ _ _ Hp Hrec) as [Hp1 Hfs1].
    apply write_text_ok in Hs as [Hfiles Hst].
    eexists. rewrite Hst. split; [exact Hp1|]. cbn [ps_path ps_original_version
                                                      ps_substitutions].
    split; [reflexivity|]. split; [reflexivity|]. split.
    + right. exists raw. auto.
    + intros f Hne. rewrite Hfiles, Hfs1. apply lookup_insert_ne. congruence.
Qed.

Lemma substitute_files_ok (name version : string) (files : list (Path * _FolderConfig)) :
  forall (state : _ProjectState) (w w' : World),
    NoDup (map fst files) ->
    NoDup (map fst (ps_substitutions state)) ->
    projects (w_state w) = [(name, state)] ->
    substitute_files name version files w = (Ok tt, w') ->
    exists state' : _ProjectState,
      projects (w_state w') = [(name, state')]
      /\ ps_path state' = ps_path state
      /\ ps_original_version state' = ps_original_version state
      /\ NoDup (map fst (ps_substitutions state'))
      /\ forall f content,
           assoc_get f (ps_substitutions state') = Some content ->
           assoc_get f (ps_substitutions state) = Some content
           \/ (f ∈ map fst files
               /\ exists raw, fs_files (w_fs w) !! f = Some raw
                              /\ content = universal_newlines raw).
Proof.
  induction files as [|[file config] rest IH]; intros state w w' Hnd Hnds Hp Hs.
  - apply sret_ok in Hs as [_ ->]. exists state. auto 10.
  - cbn [map fst] in Hnd. apply NoDup_cons in Hnd as [Hfresh Hnd].
    cbn [substitute_files] in Hs. apply sbind_ok in Hs as ([] & w1 & H1 & Hs).
    destruct (substitute_file_ok _ _ _ _ _ _ _ Hp H1)
      as (state1 & Hp1 & Hpath1 & Horig1 & Hsubs1 & Hframe1).
    assert (Hnd1 : NoDup (map fst (ps_substitutions state1))).
    { destruct Hsubs1 as [-> | (c & _ & ->)]; [exact Hnds|].
      apply assoc_set_NoDup. exact Hnds. }
    destruct (IH state1 w1 w' Hnd Hnd1 Hp1 Hs)
      as (state' & Hp' & Hpath' & Horig' & Hnd' & Hrec').
    exists state'. split; [exact Hp'|]. split; [congruence|]. split; [congruence|].
    split; [exact Hnd'|]. intros f content Hget.
    destruct (Hrec' f content Hget) as [Hold | [Hin (raw & Hfile & Hraw)]].
    + destruct Hsubs1 as [Heq | (c & Hc & Heq)]; rewrite Heq in Hold; [auto|].
      destruct (decide (f = file)) as [->|Hne].
      * rewrite assoc_get_set_eq in Hold. injection Hold as <-.
        right. split; [left | exists c; auto].
      * rewrite assoc_get_set_ne in Hold by exact Hne. auto.
    + right. split; [right; exact Hin|]. exists raw. split; [|exact Hraw].
      rewrite <- Hfile. symmetry. apply Hframe1. intros ->. contradiction.
Qed.

End RoundTrip.

(** ** Apply, then revert *)

Section ApplyRevert.
Context `{Platform}.
Local Open Scope stateful_scope.


End ApplyRevert.



(** ** Matching a delimited pattern *)

Lemma rmatch_literal (l : chars) :
  forall st : mstate,
    rmatch (literal l) st
    = match strip_prefix l (m_rest st) with
      | Some y => [{| m_before := rev l ++ m_before st; m_rest := y;
                      m_groups := m_groups st |}]
      | None => []
      end.
Proof.
  induction l as [|c l IH]; intros st.
  - destruct st. reflexivity.
  - cbn [literal rmatch strip_prefix atom_matches].
    destruct (m_rest st) as [|x rest] eqn:Hrest; [reflexivity|].
    destruct (Ascii.eqb_spec c x) as [<-|Hne]; [|reflexivity].
    cbn [flat_map]. rewrite app_nil_r, IH. cbn [step m_rest m_before m_groups].
    destruct (strip_prefix l rest); [|reflexivity].
    cbn [rev]. rewrite <- app_assoc. reflexivity.
Qed.

Lemma consumed_app (x before rest rest' : chars) (g g' : list (nat * chars)) :
  consumed {| m_before := before; m_rest := rest; m_groups := g |}
    {| m_before := rev x ++ before; m_rest := rest'; m_groups := g' |} = x.
Proof.
  unfold consumed. cbn [m_before]. rewrite length_app.
  replace (length (rev x) + length before - length before) with (length (rev x)) by lia.
  rewrite firstn_app, Nat.sub_diag, firstn_all. cbn [firstn]. rewrite app_nil_r.
  apply rev_involutive.
Qed.

Lemma closing_matches (single : bool) (q : list set_item) (c : ascii) :
  atom_matches (closing single q) c = is_delimiter q c.
Proof.
  unfold closing, is_delimiter.
  destruct single; [|reflexivity].
  destruct q as [|[x|lo hi|neg k] [|i q]]; try reflexivity.
  cbn [atom_matches existsb set_item_matches]. rewrite orb_false_r. reflexivity.
Qed.

Lemma rmatch_closing (q : list set_item) (single : bool) (st : mstate) :
  rmatch (RSeq (RGroup 2 (RSeq (RAtom (closing single q)) REmpty)) REmpty) st
  = match m_rest st with
    | d :: rest' =>
        if is_delimiter q d
        then [{| m_before := d :: m_before st; m_rest := rest';
                 m_groups := set_group 2 [d] (m_groups st) |}]
        else []
    | [] => []
    end.
Proof.
  destruct st as [before rest groups].
  cbn [rmatch m_rest m_before m_groups].
  destruct rest as [|d rest']; [reflexivity|].
  rewrite closing_matches.
  destruct (is_delimiter q d); [|reflexivity].
  cbn [flat_map map app step m_before m_rest m_groups].
  unfold step. cbn [m_before m_groups].
  pose proof (consumed_app [d] before (d :: rest') rest' groups groups) as Hc.
  cbn [rev app] in Hc. rewrite Hc. reflexivity.
Qed.

Lemma star_then_closing (q : list set_item) (single : bool) (y : chars) :
  forall (before : chars) (groups : list (nat * chars)),
    flat_map (rmatch (RSeq (RGroup 2 (RSeq (RAtom (closing single q)) REmpty)) REmpty))
      (star_states true (ASet true q) before y groups)
    = match span_plain q y with
      | (mid, d :: rest') =>
          [{| m_before := d :: rev mid ++ before; m_rest := rest';
              m_groups := set_group 2 [d] groups |}]
      | (_, []) => []
      end.
Proof.
  induction y as [|c y IH]; intros before groups.
  - cbn [star_states flat_map span_plain]. rewrite rmatch_closing. reflexivity.
  - cbn [star_states span_plain atom_matches]. fold (is_delimiter q c).
    destruct (is_delimiter q c) eqn:Hc; cbn [xorb negb].
    + cbn [flat_map]. rewrite rmatch_closing. cbn [m_rest m_before m_groups].
      rewrite Hc, app_nil_r. reflexivity.
    + rewrite flat_map_app. cbn [flat_map]. rewrite rmatch_closing.
      cbn [m_rest]. rewrite Hc, !app_nil_r, IH.
      destruct (span_plain q y) as [mid [|d rest']]; [reflexivity|].
      cbn [rev]. rewrite <- app_assoc. reflexivity.
Qed.

Lemma rmatch_delimited (bol : bool) (l : chars) (q : list set_item) (single : bool)
    (before rest : chars) :
  rmatch (delimited_pattern bol l q single)
    {| m_before := before; m_rest := rest; m_groups := [] |}
  = match head_match bol l q (line_start before) rest with
    | Some (mid, d, rest') =>
        [{| m_before := d :: rev mid ++ rev l ++ before; m_rest := rest';
            m_groups := [(1, l); (2, [d])] |}]
    | None => []
    end.
Proof.
  unfold delimited_pattern, head_match.
  set (st0 := {| m_before := before; m_rest := rest; m_groups := [] |}).
  assert (Hg1 : rmatch (if bol then RSeq RBol (literal l) else literal l) st0
                = if negb bol || line_start before
                  then match strip_prefix l rest with
                       | Some y => [{| m_before := rev l ++ before; m_rest := y;
                                       m_groups := [] |}]
                       | None => []
                       end
                  else []).
  { destruct bol; cbn [negb orb].
    - cbn [rmatch]. unfold at_line_start. cbn [m_before st0]. fold (line_start before).
      destruct (line_start before); [|reflexivity].
      cbn [flat_map]. rewrite app_nil_r. apply rmatch_literal.
    - apply rmatch_literal. }
  change (rmatch (RSeq ?a ?b) st0) with (flat_map (rmatch b) (rmatch a st0)).
  change (rmatch (RGroup 1 ?a) st0)
    with (map (fun st' => {| m_before := m_before st'; m_rest := m_rest st';
                             m_groups := set_group 1 (consumed st0 st') (m_groups st') |})
            (rmatch a st0)).
  rewrite Hg1. destruct (negb bol || line_start before); [|reflexivity].
  destruct (strip_prefix l rest) as [y|]; [|reflexivity].
  cbn [map flat_map m_before m_rest m_groups]. rewrite app_nil_r.
  unfold st0. rewrite consumed_app. cbn [set_group].
  change (rmatch (RSeq (RStar true (ASet true q)) ?k) ?st)
    with (flat_map (rmatch k) (star_states true (ASet true q) (m_before st) (m_rest st)
                                 (m_groups st))).
  cbn [m_before m_rest m_groups]. rewrite star_then_closing.
  destruct (span_plain q y) as [mid [|d rest']]; reflexivity.
Qed.

Lemma match_at_delimited (bol : bool) (l : chars) (q : list set_item) (single : bool)
    (before rest : chars) (must_advance : bool) :
  match_at (delimited_pattern bol l q single) before rest must_advance
  = match head_match bol l q (line_start before) rest with
    | Some (mid, d, rest') =>
        Some {| m_before := d :: rev mid ++ rev l ++ before; m_rest := rest';
                m_groups := [(1, l); (2, [d])] |}
    | None => None
    end.
Proof.
  unfold match_at. rewrite rmatch_delimited.
  destruct (head_match bol l q (line_start before) rest) as [[[mid d] rest']|];
    [|reflexivity].
  cbn [List.find m_before].
  replace (length (d :: rev mid ++ rev l ++ before) =? length before)%nat with false.
  - rewrite orb_true_r. reflexivity.
  - symmetry. apply Nat.eqb_neq. cbn [length]. rewrite !length_app. lia.
Qed.

(** ** The scan *)

Lemma sub_scan_zero (r : regex) (t : list titem) (before rest : chars) :
  sub_scan r t before rest (Some 0) = sub_scan r t before rest None.
Proof. destruct rest; reflexivity. Qed.

Lemma sub_scan_skip (r : regex) (t : list titem) (x : chars) :
  forall before y,
    sub_scan r t before (x ++ y) (Some (length x))
    = sub_scan r t (rev x ++ before) y None.
Proof.
  induction x as [|c x IH]; intros before y.
  - apply sub_scan_zero.
  - change (sub_scan r t before ((c :: x) ++ y) (Some (length (c :: x))))
      with (sub_scan r t (c :: before) (x ++ y) (Some (length x))).
    rewrite IH. cbn [rev]. rewrite <- app_assoc. reflexivity.
Qed.

Lemma sub_scan_no_match (r : regex) (t : list titem) (before rest : chars) :
  match_at r before rest false = None ->
  sub_scan r t before rest None
  = match rest with
    | [] => []
    | c :: rest' => c :: sub_scan r t (c :: before) rest' None
    end.
Proof.
  intros Hm. destruct rest as [|c rest']; cbn [sub_scan]; rewrite Hm; reflexivity.
Qed.

Lemma sub_scan_match (r : regex) (t : list titem) (before x rest' : chars)
    (stop : mstate) :
  x <> [] ->
  match_at r before (x ++ rest') false = Some stop ->
  length (m_before stop) - length before = length x ->
  sub_scan r t before (x ++ rest') None
  = expand t before (x ++ rest') stop ++ sub_scan r t (rev x ++ before) rest' None.
Proof.
  intros Hx Hm Hlen. destruct x as [|c x]; [contradiction|].
  cbn [app] in *. cbn [sub_scan]. rewrite Hm, Hlen. cbn [length].
  f_equal. rewrite sub_scan_skip. cbn [rev]. rewrite <- app_assoc. reflexivity.
Qed.

(** ** What a delimited pattern matches at a position *)

Lemma strip_prefix_some (l rest y : chars) :
  strip_prefix l rest = Some y <-> rest = l ++ y.
Proof.
  revert rest. induction l as [|c l IH]; intros rest; cbn [strip_prefix app].
  - split; [intros [= ->]; reflexivity | intros ->; reflexivity].
  - destruct rest as [|x rest]; [split; discriminate|].
    destruct (Ascii.eqb_spec c x) as [<-|Hne].
    + rewrite IH. split; [intros ->; reflexivity | intros [= ->]; reflexivity].
    + split; [discriminate | intros [= Hc _]; congruence].
Qed.

Lemma span_plain_spec (q : list set_item) (y mid z : chars) :
  span_plain q y = (mid, z) ->
  y = mid ++ z /\ plain q mid = true
  /\ match z with
     | d :: _ => is_delimiter q d = true
     | [] => True
     end.
Proof.
  revert mid z. induction y as [|c y IH]; intros mid z; cbn [span_plain].
  - intros [= <- <-]. auto.
  - destruct (is_delimiter q c) eqn:Hc.
    + intros [= <- <-]. auto.
    + destruct (span_plain q y) as [mid' z'] eqn:Hs. intros [= <- <-].
      destruct (IH mid' z' eq_refl) as (-> & Hp & Hz).
      cbn [app plain forallb]. rewrite Hc. auto.
Qed.

Lemma span_plain_app (q : list set_item) (mid : chars) (d : ascii) (rest : chars) :
  plain q mid = true -> is_delimiter q d = true ->
  span_plain q (mid ++ d :: rest) = (mid, d :: rest).
Proof.
  intros Hm Hd. induction mid as [|c mid IH]; cbn [app span_plain].
  - rewrite Hd. reflexivity.
  - cbn [plain forallb] in Hm. apply andb_true_iff in Hm as [Hc Hm].
    apply negb_true_iff in Hc. rewrite Hc, (IH Hm). reflexivity.
Qed.

Lemma head_match_some (bol : bool) (l : chars) (q : list set_item) (at_start : bool)
    (rest mid : chars) (d : ascii) (rest' : chars) :
  head_match bol l q at_start rest = Some (mid, d, rest') ->
  negb bol || at_start = true /\ rest = l ++ mid ++ d :: rest'
  /\ plain q mid = true /\ is_delimiter q d = true.
Proof.
  unfold head_match. destruct (negb bol || at_start); [|discriminate].
  destruct (strip_prefix l rest) as [y|] eqn:Hl; [|discriminate].
  destruct (span_plain q y) as [mid' [|d' z]] eqn:Hs; [discriminate|].
  intros [= <- <- <-]. apply strip_prefix_some in Hl.
  destruct (span_plain_spec _ _ _ _ Hs) as (-> & Hp & Hd). auto.
Qed.

Lemma head_match_intro (bol : bool) (l : chars) (q : list set_item) (at_start : bool)
    (mid : chars) (d : ascii) (rest' : chars) :
  negb bol || at_start = true -> plain q mid = true -> is_delimiter q d = true ->
  head_match bol l q at_start (l ++ mid ++ d :: rest') = Some (mid, d, rest').
Proof.
  intros Hs Hm Hd. unfold head_match. rewrite Hs.
  rewrite (proj2 (strip_prefix_some l _ (mid ++ d :: rest')) eq_refl).
  rewrite (span_plain_app _ _ _ _ Hm Hd). reflexivity.
Qed.

Lemma head_match_none (bol : bool) (l : chars) (q : list set_item) (at_start : bool)
    (rest : chars) :
  head_match bol l q at_start rest = None ->
  negb bol || at_start = false
  \/ strip_prefix l rest = None
  \/ exists y, rest = l ++ y /\ plain q y = true.
Proof.
  unfold head_match. destruct (negb bol || at_start); [|intros _; left; reflexivity].
  destruct (strip_prefix l rest) as [y|] eqn:Hl; [|intros _; right; left; reflexivity].
  destruct (span_plain q y) as [mid [|d z]] eqn:Hs; [|discriminate].
  intros _. right. right. exists y. apply strip_prefix_some in Hl.
  destruct (span_plain_spec _ _ _ _ Hs) as (-> & Hp & _).
  rewrite app_nil_r in *. auto.
Qed.

Lemma scan_unfold (bol : bool) (l : chars) (q : list set_item) (single : bool)
    (insert : chars) (before rest : chars) :
  scan bol l q single insert before rest
  = match head_match bol l q (line_start before) rest with
    | Some (mid, d, rest') =>
        l ++ insert ++ d :: scan bol l q single insert (d :: rev mid ++ rev l ++ before) rest'
    | None =>
        match rest with
        | [] => []
        | c :: rest' => c :: scan bol l q single insert (c :: before) rest'
        end
    end.
Proof.
  unfold scan.
  pose proof (match_at_delimited bol l q single before rest false) as Hm.
  destruct (head_match bol l q (line_start before) rest) as [[[mid d] rest']|] eqn:Hh.
  - apply head_match_some in Hh as (_ & -> & _ & _).
    replace (l ++ mid ++ d :: rest') with ((l ++ mid ++ [d]) ++ rest') in *
      by (rewrite <- !app_assoc; reflexivity).
    assert (Hx : l ++ mid ++ [d] <> []).
    { intros Hx. apply (f_equal (@length ascii)) in Hx.
      rewrite !length_app in Hx. cbn [length] in Hx. lia. }
    rewrite (sub_scan_match _ _ _ _ _ _ Hx Hm).
    + rewrite expand_keep_and_insert. unfold group_text. cbn [m_groups get_group Nat.eqb].
      rewrite !rev_app_distr. cbn [rev app]. rewrite <- !app_assoc. reflexivity.
    + cbn [m_before length]. rewrite !length_app, !length_rev. cbn [length]. lia.
  - apply sub_scan_no_match. exact Hm.
Qed.

(** ** Running the scan on its own output *)

Lemma starts_app_short (k l x y : chars) :
  length k <= length l -> starts k (l ++ x) = starts k (l ++ y).
Proof.
  unfold starts. revert l. induction k as [|c k IH]; intros l Hlen; [reflexivity|].
  destruct l as [|a l]; [cbn [length] in Hlen; lia|].
  cbn [app strip_prefix]. destruct (Ascii.eqb c a); [|reflexivity].
  apply IH. cbn [length] in Hlen. lia.
Qed.

Lemma plain_skipn_S (q : list set_item) (z : chars) :
  forall n, plain q (skipn n z) = true -> plain q (skipn (S n) z) = true.
Proof.
  induction z as [|x z IH]; intros n Hp.
  - destruct n; reflexivity.
  - destruct n as [|n].
    + cbn [skipn plain forallb] in *. apply andb_true_iff in Hp as [_ Hp]. exact Hp.
    + change (skipn (S (S n)) (x :: z)) with (skipn (S n) z).
      change (skipn (S n) (x :: z)) with (skipn n z) in Hp. apply IH. exact Hp.
Qed.

Lemma plain_skipn_tail (q : list set_item) (c : ascii) (z : chars) (n : nat) :
  plain q (skipn n (c :: z)) = true -> plain q (skipn n z) = true.
Proof.
  destruct n as [|n].
  - cbn [skipn plain forallb]. intros Hp. apply andb_true_iff in Hp as [_ Hp]. exact Hp.
  - change (skipn (S n) (c :: z)) with (skipn n z). apply plain_skipn_S.
Qed.

Lemma strip_prefix_cons_none (l : chars) (c : ascii) (w w' : chars) :
  strip_prefix l (c :: w) = None ->
  (forall k, length k <= length l -> starts k w' = starts k w) ->
  strip_prefix l (c :: w') = None.
Proof.
  destruct l as [|l0 l']; [discriminate|]. cbn [strip_prefix].
  destruct (Ascii.eqb l0 c); [|reflexivity]. intros Hp Hst.
  specialize (Hst l' ltac:(cbn [length]; lia)). unfold starts in Hst. rewrite Hp in Hst.
  destruct (strip_prefix l' w'); [discriminate | reflexivity].
Qed.

Section Scan.
Variables (bol : bool) (l : chars) (q : list set_item) (single : bool) (insert : chars).
Hypothesis insert_plain : plain q insert = true.

Lemma scan_nil (before : chars) : scan bol l q single insert before [] = [].
Proof.
  rewrite scan_unfold.
  destruct (head_match bol l q (line_start before) []) as [[[mid d] rest']|] eqn:Hh;
    [|reflexivity].
  apply head_match_some in Hh as (_ & Hz & _).
  apply (f_equal (@length ascii)) in Hz. rewrite !length_app in Hz.
  cbn [length] in Hz. lia.
Qed.

Lemma scan_starts (z : chars) :
  forall (before k : chars),
    length k <= length l ->
    starts k (scan bol l q single insert before z) = starts k z.
Proof.
  induction z as [|c z IH]; intros before k Hk.
  - rewrite scan_nil. reflexivity.
  - rewrite scan_unfold.
    destruct (head_match bol l q (line_start before) (c :: z))
      as [[[mid d] rest']|] eqn:Hh.
    + apply head_match_some in Hh as (_ & -> & _ & _). apply starts_app_short. exact Hk.
    + destruct k as [|k0 k]; [reflexivity|].
      unfold starts. cbn [strip_prefix]. destruct (Ascii.eqb k0 c); [|reflexivity].
      apply (IH (c :: before) k). cbn [length] in Hk. lia.
Qed.

Lemma scan_plain_tail (z : chars) :
  forall before : chars,
    plain q (skipn (length l) z) = true -> scan bol l q single insert before z = z.
Proof.
  induction z as [|c z IH]; intros before Hp.
  - apply scan_nil.
  - rewrite scan_unfold.
    destruct (head_match bol l q (line_start before) (c :: z))
      as [[[mid d] rest']|] eqn:Hh.
    + exfalso. apply head_match_some in Hh as (_ & Hz & _ & Hd).
      rewrite Hz in Hp. rewrite skipn_app, Nat.sub_diag, skipn_all in Hp.
      rewrite skipn_O in Hp. cbn [app] in Hp. unfold plain in Hp.
      rewrite forallb_app in Hp.
      apply andb_true_iff in Hp as [_ Hp]. cbn [forallb] in Hp. rewrite Hd in Hp.
      discriminate.
    + f_equal. apply IH. eapply plain_skipn_tail. exact Hp.
Qed.

Lemma line_start_cons (c : ascii) (b b' : chars) :
  line_start (c :: b) = line_start (c :: b').
Proof. reflexivity. Qed.

Lemma scan_idempotent_upto (n : nat) :
  forall z : chars,
    length z <= n ->
    forall before before' : chars,
      line_start before = line_start before' ->
      scan bol l q single insert before' (scan bol l q single insert before z)
      = scan bol l q single insert before z.
Proof.
  induction n as [|n IH]; intros z Hlen before before' Hls.
  - destruct z; [|cbn [length] in Hlen; lia]. rewrite !scan_nil. reflexivity.
  - rewrite (scan_unfold bol l q single insert before z).
    destruct (head_match bol l q (line_start before) z) as [[[mid d] rest']|] eqn:Hh.
    + apply head_match_some in Hh as (Hs & -> & _ & Hd).
      rewrite (scan_unfold bol l q single insert before').
      rewrite <- Hls, (head_match_intro _ _ _ _ _ _ _ Hs insert_plain Hd).
      do 3 f_equal. apply IH; [|reflexivity].
      rewrite !length_app in Hlen. cbn [length] in Hlen. lia.
    + destruct z as [|c z]; [apply scan_nil|].
      assert (Hnone : head_match bol l q (line_start before')
                        (c :: scan bol l q single insert (c :: before) z) = None).
      { rewrite <- Hls.
        destruct (head_match_none _ _ _ _ _ Hh) as [Hs | [Hp | (y & Hy & Hp)]].
        - unfold head_match. rewrite Hs. reflexivity.
        - unfold head_match. destruct (negb bol || line_start before); [|reflexivity].
          replace (strip_prefix l (c :: scan bol l q single insert (c :: before) z))
            with (@None chars); [reflexivity|].
          symmetry. apply (strip_prefix_cons_none l c z _ Hp).
          intros k Hk. apply scan_starts. exact Hk.
        - pose proof (scan_plain_tail (c :: z) before) as Hid.
          rewrite Hy in Hid at 1. rewrite skipn_app, Nat.sub_diag, skipn_all in Hid.
          rewrite skipn_O in Hid. cbn [app] in Hid. specialize (Hid Hp).
          rewrite scan_unfold, Hh in Hid. injection Hid as ->. exact Hh. }
      rewrite (scan_unfold bol l q single insert before'), Hnone. f_equal.
      apply IH; [cbn [length] in Hlen; lia | apply line_start_cons].
Qed.

Lemma scan_idempotent (z : chars) :
  scan bol l q single insert [] (scan bol l q single insert [] z) = scan bol l q single insert [] z.
Proof. apply (scan_idempotent_upto (length z)); [lia | reflexivity]. Qed.

End Scan.

Lemma re_sub_delimited (value insert content : string) (bol : bool) (l : chars)
    (q : list set_item) (single : bool) :
  parse_regex (list_ascii_of_string value) = Some (delimited_pattern bol l q single, 2) ->
  no_backslash (list_ascii_of_string insert) = true ->
  re_sub value (replacement insert) content
  = Ok (string_of_list_ascii
          (scan bol l q single (list_ascii_of_string insert) [] (list_ascii_of_string content))).
Proof.
  intros Hparse Hnb. unfold re_sub. rewrite Hparse.
  rewrite (parse_replacement 2 insert Hnb (le_n 2)). reflexivity.
Qed.




(** * Further properties *)

(** ** Deep merge *)

Lemma deep_merge_value_dict (base items : dict) :
  deep_merge_value base (VDict items) = merge_items base items base.
Proof.
  cbn [deep_merge_value]. generalize base at 2 4. 
  induction items as [|[key value] rest IH]; intros result; [reflexivity|].
  cbn [merge_items]. rewrite <- IH. reflexivity.
Qed.

Lemma dict_get_none (k : string) (d : dict) :
  dict_get k d = None <-> k ∉ map fst d.
Proof.
  induction d as [|[k' v] d IH]; cbn [dict_get map fst].
  - split; [intros _; apply not_elem_of_nil | reflexivity].
  - destruct (String.eqb_spec k' k) as [->|Hne].
    + split; [discriminate|]. intros Hn. exfalso. apply Hn. left.
    + rewrite IH, not_elem_of_cons. split; [auto | tauto].
Qed.

Lemma merge_items_get (base : dict) (k : string) (items : dict) :
  forall result : dict,
    NoDup (map fst items) ->
    dict_get k (merge_items base items result)
    = match dict_get k items with
      | Some v => Some (merged_value base k v)
      | None => dict_get k result
      end.
Proof.
  induction items as [|[key value] rest IH]; intros result Hnd; [reflexivity|].
  cbn [map fst] in Hnd. apply NoDup_cons in Hnd as [Hfresh Hnd].
  cbn [merge_items dict_get]. rewrite (IH _ Hnd).
  destruct (String.eqb_spec key k) as [->|Hne].
  - apply dict_get_none in Hfresh. rewrite Hfresh. apply dict_get_set_eq.
  - rewrite dict_get_set_ne by congruence. reflexivity.
Qed.

Lemma merge_lookup (base addition : dict) (k : string) :
  NoDup (map fst addition) ->
  dict_get k (_deep_merge_dicts base addition)
  = match dict_get k addition with
    | Some v =>
        Some match v, dict_get k base with
             | VDict a, Some (VDict b) => VDict (_deep_merge_dicts b a)
             | _, _ => v
             end
    | None => dict_get k base
    end.
Proof.
  intros Hnd. unfold _deep_merge_dicts. rewrite deep_merge_value_dict.
  rewrite (merge_items_get _ _ _ _ Hnd).
  destruct (dict_get k addition) as [v|]; [|reflexivity].
  unfold merged_value. destruct v; reflexivity.
Qed.

(** X1.  Lookup in a deep merge.  A key the addition lacks keeps the
    value of the base.  A key the addition has takes the addition's value
    when that value is no mapping or the base has no mapping at the key.
    Where both have a mapping the result has the two merged in turn. *)
Theorem deep_merge_lookup (base addition : dict) (k : string) :
  NoDup (map fst addition) ->
  (dict_get k addition = None ->
   dict_get k (_deep_merge_dicts base addition) = dict_get k base)
  /\ (forall v : pyval,
         dict_get k addition = Some v ->
         is_dict v = false \/ (forall b, dict_get k base <> Some (VDict b)) ->
         dict_get k (_deep_merge_dicts base addition) = Some v)
  /\ (forall a b : dict,
         dict_get k addition = Some (VDict a) ->
         dict_get k base = Some (VDict b) ->
         dict_get k (_deep_merge_dicts base addition)
         = Some (VDict (_deep_merge_dicts b a))).
Proof.
  intros Hnd. rewrite (merge_lookup base addition k Hnd). split; [|split].
  - intros ->. reflexivity.
  - intros v -> Hplain. f_equal.
    destruct v as [| | | | |a]; try reflexivity.
    destruct Hplain as [Hd | Hb]; [discriminate|].
    destruct (dict_get k base) as [[| | | | |b]|]; try reflexivity.
    exfalso. exact (Hb b eq_refl).
  - intros a b -> ->. reflexivity.
Qed.

Lemma deep_merge_lookup_witness :
  dict_get "strict"
    (_deep_merge_dicts default_section
       [("vcs", VStr "git"); ("substitution", VDict [("folders", VList [VStr "x"])])])
  = dict_get "strict" default_section
  /\ dict_get "vcs"
       (_deep_merge_dicts default_section
          [("vcs", VStr "git"); ("substitution", VDict [("folders", VList [VStr "x"])])])
     = Some (VStr "git")
  /\ dict_get "substitution"
       (_deep_merge_dicts default_section
          [("vcs", VStr "git"); ("substitution", VDict [("folders", VList [VStr "x"])])])
     = Some (VDict (_deep_merge_dicts
                      [ ("files",
                          VList [VStr "*.py"; VStr "*/__init__.py"; VStr "*/__version__.py";
                                 VStr "*/_version.py"]);
                        ("patterns",
                          VList
                            [ VStr default_version_pattern;
                              VDict [ ("value", VStr default_version_tuple_pattern);
                                      ("mode", VStr "tuple") ] ]);
                        ("folders", VList []) ]
                      [("folders", VList [VStr "x"])])).
Proof.
  assert (Hnd : NoDup (map fst [("vcs", VStr "git");
                                ("substitution", VDict [("folders", VList [VStr "x"])])])).
  { apply (bool_decide_eq_true_1 (NoDup _)). vm_compute. reflexivity. }
  split; [|split].
  - apply (proj1 (deep_merge_lookup default_section _ "strict" Hnd)). reflexivity.
  - apply (proj1 (proj2 (deep_merge_lookup default_section _ "vcs" Hnd)));
      [reflexivity | left; reflexivity].
  - apply (proj2 (proj2 (deep_merge_lookup default_section _ "substitution" Hnd)));
      reflexivity.
Defined.

Lemma dict_set_keys (k : string) (v : pyval) (d : dict) :
  map fst (dict_set k v d) = if dict_in k d then map fst d else map fst d ++ [k].
Proof.
  unfold dict_in. induction d as [|[k' v'] d IH]; cbn [dict_set dict_get map fst app].
  - reflexivity.
  - destruct (String.eqb k' k); cbn [map fst]; [reflexivity|].
    rewrite IH. destruct (dict_get k d); reflexivity.
Qed.

Lemma dict_in_spec (k : string) (d : dict) : dict_in k d = true <-> k ∈ map fst d.
Proof.
  unfold dict_in. pose proof (dict_get_none k d) as Hn.
  destruct (dict_get k d).
  - split; [intros _|reflexivity].
    destruct (decide (k ∈ map fst d)) as [Hin|Hout]; [exact Hin|].
    apply Hn in Hout. discriminate.
  - split; [discriminate|]. intros Hin. exfalso. apply (proj1 Hn eq_refl Hin).
Qed.

Lemma merge_items_keys (base : dict) (items : dict) :
  forall result : dict,
    map fst result `prefix_of` map fst (merge_items base items result)
    /\ (forall k, k ∈ map fst (merge_items base items result)
                  <-> k ∈ map fst result \/ k ∈ map fst items)
    /\ (NoDup (map fst result) -> NoDup (map fst (merge_items base items result))).
Proof.
  induction items as [|[key value] rest IH]; intros result.
  - cbn [merge_items map]. split; [reflexivity|]. split; [|auto].
    intros k. rewrite elem_of_nil. tauto.
  - cbn [merge_items]. set (result' := dict_set key (merged_value base key value) result).
    destruct (IH result') as (Hpre & Hin & Hnd).
    assert (Hkeys : map fst result' = if dict_in key result then map fst result
                                      else map fst result ++ [key])
      by apply dict_set_keys.
    split; [|split].
    + etransitivity; [|exact Hpre]. rewrite Hkeys.
      destruct (dict_in key result); [reflexivity | apply prefix_app_r; reflexivity].
    + intros k. rewrite Hin, Hkeys. cbn [map fst]. rewrite elem_of_cons.
      destruct (dict_in key result) eqn:Hk.
      * apply dict_in_spec in Hk. split; [tauto|]. intros [H1 | [-> | H3]]; auto.
      * rewrite elem_of_app, list_elem_of_singleton. tauto.
    + intros Hr. apply Hnd. rewrite Hkeys.
      destruct (dict_in key result) eqn:Hk; [exact Hr|].
      apply NoDup_app. split; [exact Hr|]. split; [|apply NoDup_singleton].
      intros x Hx Hx'. apply list_elem_of_singleton in Hx'. subst.
      apply dict_in_spec in Hx. congruence.
Qed.

(** X2.  A deep merge keeps the keys of the base, in their order, at the
    front; its keys are those of the base and those of the addition; and it
    has one entry per key when the base has. *)
Theorem deep_merge_keys (base addition : dict) :
  map fst base `prefix_of` map fst (_deep_merge_dicts base addition)
  /\ (forall k, k ∈ map fst (_deep_merge_dicts base addition)
                <-> k ∈ map fst base \/ k ∈ map fst addition)
  /\ (NoDup (map fst base) -> NoDup (map fst (_deep_merge_dicts base addition))).
Proof.
  unfold _deep_merge_dicts. rewrite deep_merge_value_dict. apply merge_items_keys.
Qed.

Lemma deep_merge_keys_witness :
  NoDup (map fst (_deep_merge_dicts default_section [("vcs", VStr "git"); ("x", VNone)])).
Proof.
  apply (proj2 (proj2 (deep_merge_keys default_section
                         [("vcs", VStr "git"); ("x", VNone)]))).
  apply (bool_decide_eq_true_1 (NoDup _)). vm_compute. reflexivity.
Defined.

(** ** The configuration of a project *)

Lemma dict_in_set (k k' : string) (v : pyval) (d : dict) :
  dict_in k (dict_set k' v d) = dict_in k d || String.eqb k' k.
Proof.
  unfold dict_in. destruct (String.eqb_spec k' k) as [->|Hne].
  - rewrite dict_get_set_eq. destruct (dict_get k d); reflexivity.
  - rewrite dict_get_set_ne by congruence. rewrite orb_false_r. reflexivity.
Qed.

Lemma initialize_keys (keys : list string) :
  forall v : pyval,
    match v, fold_left (fun x k => initialize k x) keys v with
    | VDict d, VDict d' =>
        forall k, dict_in k d' = dict_in k d || existsb (fun k' => String.eqb k' k) keys
    | VDict _, _ => False
    | _, v' => v' = v
    end.
Proof.
  induction keys as [|key keys IH]; intros v; cbn [fold_left].
  - destruct v; try reflexivity. intros k. cbn [existsb]. rewrite orb_false_r. reflexivity.
  - destruct v as [| | | | |d]; cbn [initialize];
      try (match goal with |- context [fold_left _ _ ?x] => exact (IH x) end).
    destruct (dict_in key d) eqn:Hin.
    + specialize (IH (VDict d)). cbv beta iota in IH.
      destruct (fold_left _ keys (VDict d)) as [| | | | |d']; try exact IH.
      intros k. rewrite IH. cbn [existsb].
      destruct (String.eqb_spec key k) as [->|_]; [rewrite Hin|]; reflexivity.
    + specialize (IH (VDict (dict_set key VNone d))). cbv beta iota in IH.
      destruct (fold_left _ keys (VDict (dict_set key VNone d))) as [| | | | |d'];
        try exact IH.
      intros k. rewrite IH, dict_in_set. cbn [existsb]. rewrite orb_assoc. reflexivity.
Qed.

Lemma initialize_has_keys (keys : list string) (v : pyval) :
  has_keys keys (fold_left (fun x k => initialize k x) keys v) = true.
Proof.
  pose proof (initialize_keys keys v) as Hk.
  destruct v as [| | | | |d]; try (rewrite Hk; reflexivity).
  destruct (fold_left _ keys (VDict d)) as [| | | | |d']; try contradiction.
  cbn [has_keys]. apply forallb_forall. intros k Hin. rewrite Hk.
  apply orb_true_iff. right. apply existsb_exists. exists k.
  split; [exact Hin | apply String.eqb_refl].
Qed.

Lemma initialize_values_ok (keys : list string) (v v' : pyval) :
  initialize_values keys v = Ok v' ->
  exists d d', v = VDict d /\ v' = VDict d'
    /\ map fst d' = map fst d
    /\ Forall (fun kv => has_keys keys (snd kv) = true) d'.
Proof.
  destruct v as [| | | | |d]; try discriminate. cbn [initialize_values].
  intros [= <-]. eexists _, _. split; [reflexivity|]. split; [reflexivity|].
  split.
  - rewrite map_map. reflexivity.
  - apply List.Forall_forall. intros kv Hin. apply in_map_iff in Hin as (kv0 & <- & _).
    cbn [snd]. apply initialize_has_keys.
Qed.

Lemma initialize_elements_ok (keys : list string) (v : pyval) (l : list pyval) :
  initialize_elements keys v = Ok (VList l) ->
  Forall (fun x => has_keys keys x = true) l.
Proof.
  destruct v as [| | | |l0|d]; try discriminate; cbn [initialize_elements];
    intros [= <-].
  apply List.Forall_forall. intros x Hin. apply in_map_iff in Hin as (x0 & <- & _).
  apply initialize_has_keys.
Qed.

Lemma initialize_elements_kind (keys : list string) (v v' : pyval) :
  initialize_elements keys v = Ok v' ->
  match v' with
  | VList l => Forall (fun x => has_keys keys x = true) l
  | _ => v' = v
  end.
Proof.
  intros Hi. destruct v' as [| | | |l|d'].
  5: exact (initialize_elements_ok _ _ _ Hi).
  all: destruct v; try discriminate; cbn [initialize_elements] in Hi; congruence.
Qed.

(** X3.  A configuration that [_get_config] returns has its optional
    keys filled in: every table under [files] has [initial-content] and
    [persistent-substitution], every table in [format-jinja-imports] has
    [item], every table in [substitution.folders] has [files] and
    [patterns], and every table in [substitution.patterns] has [mode]. *)
Theorem get_config_initialised (local : pyval) (config : dict) :
  _get_config local = Ok config ->
  (exists files : dict,
      dict_get "files" config = Some (VDict files)
      /\ Forall (fun kv => has_keys ["initial-content"; "persistent-substitution"]
                             (snd kv) = true) files)
  /\ (forall imports : list pyval,
         dict_get "format-jinja-imports" config = Some (VList imports) ->
         Forall (fun x => has_keys ["item"] x = true) imports)
  /\ (exists substitution : dict,
         dict_get "substitution" config = Some (VDict substitution)
         /\ (forall folders : list pyval,
                dict_get "folders" substitution = Some (VList folders) ->
                Forall (fun x => has_keys ["files"; "patterns"] x = true) folders)
         /\ (forall patterns : list pyval,
                dict_get "patterns" substitution = Some (VList patterns) ->
                Forall (fun x => has_keys ["mode"] x = true) patterns)).
Proof.
  unfold _get_config, _default_config.
  destruct local as [| | | | |addition]; try discriminate.
  cbv zeta. intros Hc.
  apply rbind_ok in Hc as (tool & _ & Hc).
  apply rbind_ok in Hc as (s0 & _ & Hc).
  apply rbind_ok in Hc as (s1 & H1 & Hc).
  apply rbind_ok in Hc as (s2 & H2 & Hc).
  apply rbind_ok in Hc as (s3 & H3 & Hc).
  apply rbind_ok in Hc as (s4 & H4 & Hc).
  destruct s4 as [| | | | |d4]; try discriminate. injection Hc as ->.
  apply dict_update_ok in H1 as (i0 & old0 & new0 & -> & _ & Hf0 & ->).
  apply dict_update_ok in H2 as (i1 & old1 & new1 & [= <-] & _ & Hf1 & ->).
  apply dict_update_ok in H3 as (i2 & old2 & new2 & [= <-] & _ & Hf2 & ->).
  apply dict_update_ok in H4 as (i3 & old3 & new3 & [= <-] & Hg3 & Hf3 & [= ->]).
  rewrite dict_get_set_eq in Hg3. injection Hg3 as <-.
  apply dict_update_ok in Hf2 as (j & f & f' & -> & _ & Hf & ->).
  apply dict_update_ok in Hf3 as (j3 & p & p' & [= <-] & _ & Hp & ->).
  apply initialize_values_ok in Hf0 as (d & d' & -> & -> & _ & Hd').
  split; [|split].
  - exists d'. split; [|exact Hd'].
    rewrite !dict_get_set_ne by discriminate. apply dict_get_set_eq.
  - intros imports. rewrite !dict_get_set_ne by discriminate. rewrite dict_get_set_eq.
    intros [= ->]. exact (initialize_elements_ok _ _ _ Hf1).
  - eexists. split; [apply dict_get_set_eq|]. split.
    + intros folders. rewrite dict_get_set_ne by discriminate. rewrite dict_get_set_eq.
      intros [= ->]. exact (initialize_elements_ok _ _ _ Hf).
    + intros patterns. rewrite dict_get_set_eq.
      intros [= ->]. exact (initialize_elements_ok _ _ _ Hp).
Qed.

Lemma get_config_initialised_witness :
  (exists files : dict,
      dict_get "files" sample_settings = Some (VDict files)
      /\ Forall (fun kv => has_keys ["initial-content"; "persistent-substitution"]
                             (snd kv) = true) files)
  /\ (forall imports : list pyval,
         dict_get "format-jinja-imports" sample_settings = Some (VList imports) ->
         Forall (fun x => has_keys ["item"] x = true) imports)
  /\ (exists substitution : dict,
         dict_get "substitution" sample_settings = Some (VDict substitution)
         /\ (forall folders : list pyval,
                dict_get "folders" substitution = Some (VList folders) ->
                Forall (fun x => has_keys ["files"; "patterns"] x = true) folders)
         /\ (forall patterns : list pyval,
                dict_get "patterns" substitution = Some (VList patterns) ->
                Forall (fun x => has_keys ["mode"] x = true) patterns)).
Proof.
  apply (get_config_initialised sample_document sample_settings).
  vm_compute. reflexivity.
Defined.

Lemma default_tables (k : string) (b : dict) :
  dict_get k default_section = Some (VDict b) -> k = "substitution" \/ k = "files".
Proof.
  unfold default_section. cbn [dict_get].
  repeat match goal with
         | |- context [String.eqb ?a k] =>
             destruct (String.eqb_spec a k) as [<-|_]; [intros; auto; discriminate|]
         end.
  discriminate.
Qed.

(** X4.  A manifest that says nothing about the plugin (no [tool] table,
    or a [tool] table without the plugin's section) gets the default
    configuration as it stands, in which the plugin is not enabled. *)
Theorem get_config_defaults (addition : dict) :
  NoDup (map fst addition) ->
  (dict_get "tool" addition = None
   \/ exists tool : dict,
        dict_get "tool" addition = Some (VDict tool)
        /\ NoDup (map fst tool)
        /\ dict_get "poetry-dynamic-versioning" tool = None) ->
  _get_config (VDict addition) = Ok default_section
  /\ dict_get "enable" default_section = Some (VBool false).
Proof.
  intros Hnd Hno. split; [|reflexivity].
  unfold _get_config, _default_config. cbv zeta.
  cbn [py_getitem]. rewrite (merge_lookup _ _ _ Hnd).
  destruct Hno as [Hno | (tool & Htool & Hnd' & Hno)].
  - rewrite Hno. reflexivity.
  - rewrite Htool. cbn [dict_get String.eqb Ascii.eqb Bool.eqb rbind py_getitem].
    rewrite (merge_lookup _ _ _ Hnd'), Hno. reflexivity.
Qed.

Lemma get_config_defaults_witness :
  _get_config (VDict [("tool", VDict [("poetry", VDict [("name", VStr "demo")])])])
  = Ok default_section
  /\ dict_get "enable" default_section = Some (VBool false).
Proof.
  apply get_config_defaults.
  - apply (bool_decide_eq_true_1 (NoDup _)). vm_compute. reflexivity.
  - right. exists [("poetry", VDict [("name", VStr "demo")])].
    split; [reflexivity|]. split; [|reflexivity].
    apply (bool_decide_eq_true_1 (NoDup _)). vm_compute. reflexivity.
Defined.

(** X5.  A key of the plugin's section other than [files],
    [format-jinja-imports] and [substitution]: the configuration has the
    value the manifest gives it, whatever that value is, and the default
    where the manifest does not give the key. *)
Theorem get_config_setting (addition tool section config : dict) (k : string) :
  NoDup (map fst addition) ->
  NoDup (map fst tool) ->
  NoDup (map fst section) ->
  dict_get "tool" addition = Some (VDict tool) ->
  dict_get "poetry-dynamic-versioning" tool = Some (VDict section) ->
  _get_config (VDict addition) = Ok config ->
  k <> "files" -> k <> "format-jinja-imports" -> k <> "substitution" ->
  dict_get k config
  = match dict_get k section with
    | Some v => Some v
    | None => dict_get k default_section
    end.
Proof.
  intros Hnd Hnd1 Hnd2 Htool Hsection Hc Hk1 Hk2 Hk3.
  unfold _get_config, _default_config in Hc. cbv zeta in Hc.
  cbn [py_getitem] in Hc. rewrite (merge_lookup _ _ _ Hnd), Htool in Hc.
  cbn [dict_get String.eqb Ascii.eqb Bool.eqb rbind py_getitem] in Hc.
  rewrite (merge_lookup _ _ _ Hnd1), Hsection in Hc.
  cbn [dict_get String.eqb Ascii.eqb Bool.eqb rbind] in Hc.
  apply rbind_ok in Hc as (s1 & H1 & Hc).
  apply rbind_ok in Hc as (s2 & H2 & Hc).
  apply rbind_ok in Hc as (s3 & H3 & Hc).
  apply rbind_ok in Hc as (s4 & H4 & Hc).
  destruct s4 as [| | | | |d4]; try discriminate. injection Hc as ->.
  apply dict_update_ok in H1 as (i0 & old0 & new0 & [= <-] & _ & _ & ->).
  apply dict_update_ok in H2 as (i1 & old1 & new1 & [= <-] & _ & _ & ->).
  apply dict_update_ok in H3 as (i2 & old2 & new2 & [= <-] & _ & _ & ->).
  apply dict_update_ok in H4 as (i3 & old3 & new3 & [= <-] & _ & _ & [= ->]).
  rewrite !dict_get_set_ne by congruence.
  rewrite (merge_lookup _ _ _ Hnd2).
  destruct (dict_get k section) as [v|]; [|reflexivity].
  destruct v as [| | | | |a]; try reflexivity.
  destruct (dict_get k default_section) as [[| | | | |b]|] eqn:Hd; try reflexivity.
  apply default_tables in Hd as [-> | ->]; congruence.
Qed.

Lemma get_config_setting_witness :
  dict_get "vcs" sample_settings = Some (VStr "git")
  /\ dict_get "strict" sample_settings = Some (VBool false).
Proof.
  assert (Hnd : forall l : list string, bool_decide (NoDup l) = true -> NoDup l).
  { intros l. apply bool_decide_eq_true_1. }
  split.
  - refine (get_config_setting [("tool", VDict sample_tool)] sample_tool sample_section
              sample_settings "vcs" _ _ _ eq_refl eq_refl _ _ _ _);
      try (apply Hnd; vm_compute; reflexivity); try discriminate.
    vm_compute. reflexivity.
  - refine (get_config_setting [("tool", VDict sample_tool)] sample_tool sample_section
              sample_settings "strict" _ _ _ eq_refl eq_refl _ _ _ _);
      try (apply Hnd; vm_compute; reflexivity); try discriminate.
    vm_compute. reflexivity.
Defined.

(** ** Pattern tables *)

Lemma result_map_in {A B} (f : A -> result B) (l : list A) (ys : list B) (x : A) :
  result_map f l = Ok ys -> In x l -> exists y, f x = Ok y /\ In y ys.
Proof.
  revert ys. induction l as [|a l IH]; intros ys Hm Hin; [destruct Hin|].
  cbn [result_map] in Hm.
  apply rbind_ok in Hm as (y & Hy & Hm). apply rbind_ok in Hm as (ys' & Hys & Hm).
  injection Hm as <-. destruct Hin as [-> | Hin].
  - exists y. split; [exact Hy | left; reflexivity].
  - destruct (IH _ Hys Hin) as (y' & Hy' & Hin'). exists y'. split; [exact Hy' | right; exact Hin'].
Qed.

Lemma invalid_mode_raises (version : string) (patterns : list _SubPattern)
    (p : _SubPattern) :
  In p patterns ->
  pyval_is_str (sp_mode p) "str" = false ->
  pyval_is_str (sp_mode p) "tuple" = false ->
  forall content : string,
    exists e, _substitute_version_in_text version content patterns = Raise e.
Proof.
  intros Hin Hs Ht. induction patterns as [|q rest IH]; [destruct Hin|].
  intros content. cbn [_substitute_version_in_text].
  destruct Hin as [-> | Hin].
  - unfold insert_for. rewrite Hs, Ht. eexists. reflexivity.
  - destruct (insert_for (sp_mode q) version) as [insert|e]; [|eexists; reflexivity].
    cbn [rbind].
    destruct (match sp_value q with
              | VStr value => re_sub value (replacement insert) content
              | _ => Raise TypeError
              end) as [new_content|e]; [|eexists; reflexivity].
    cbn [rbind]. apply (IH Hin).
Qed.

Lemma get_config_patterns (addition tool section substitution config : dict)
    (ps : list pyval) :
  NoDup (map fst addition) ->
  NoDup (map fst tool) ->
  NoDup (map fst section) ->
  NoDup (map fst substitution) ->
  dict_get "tool" addition = Some (VDict tool) ->
  dict_get "poetry-dynamic-versioning" tool = Some (VDict section) ->
  dict_get "substitution" section = Some (VDict substitution) ->
  dict_get "patterns" substitution = Some (VList ps) ->
  _get_config (VDict addition) = Ok config ->
  exists substitution' : dict,
    dict_get "substitution" config = Some (VDict substitution')
    /\ dict_get "patterns" substitution' = Some (VList (map (initialize "mode") ps)).
Proof.
  intros Hnd Hnd1 Hnd2 Hnd3 Htool Hsection Hsub Hps Hc.
  unfold _get_config, _default_config in Hc. cbv zeta in Hc.
  cbn [py_getitem] in Hc. rewrite (merge_lookup _ _ _ Hnd), Htool in Hc.
  cbn [dict_get String.eqb Ascii.eqb Bool.eqb rbind py_getitem] in Hc.
  rewrite (merge_lookup _ _ _ Hnd1), Hsection in Hc.
  cbn [dict_get String.eqb Ascii.eqb Bool.eqb rbind] in Hc.
  apply rbind_ok in Hc as (s1 & H1 & Hc).
  apply rbind_ok in Hc as (s2 & H2 & Hc).
  apply rbind_ok in Hc as (s3 & H3 & Hc).
  apply rbind_ok in Hc as (s4 & H4 & Hc).
  destruct s4 as [| | | | |d4]; try discriminate. injection Hc as ->.
  apply dict_update_ok in H1 as (i0 & old0 & new0 & [= <-] & _ & _ & ->).
  apply dict_update_ok in H2 as (i1 & old1 & new1 & [= <-] & _ & _ & ->).
  apply dict_update_ok in H3 as (i2 & old2 & new2 & [= <-] & Hg2 & Hf2 & ->).
  apply dict_update_ok in H4 as (i3 & old3 & new3 & [= <-] & Hg3 & Hf3 & [= ->]).
  rewrite dict_get_set_eq in Hg3. injection Hg3 as <-.
  rewrite !dict_get_set_ne in Hg2 by discriminate.
  rewrite (merge_lookup _ _ _ Hnd2), Hsub in Hg2.
  cbn [default_section dict_get String.eqb Ascii.eqb Bool.eqb] in Hg2.
  injection Hg2 as <-.
  apply dict_update_ok in Hf2 as (j & f & f' & [= <-] & _ & _ & ->).
  apply dict_update_ok in Hf3 as (j3 & p & p' & [= <-] & Hgp & Hp & ->).
  rewrite dict_get_set_ne in Hgp by discriminate.
  rewrite (merge_lookup _ _ _ Hnd3), Hps in Hgp. injection Hgp as <-.
  cbn [initialize_elements fold_left] in Hp. injection Hp as <-.
  eexists. split; [apply dict_get_set_eq|]. apply dict_get_set_eq.
Qed.

(** X6.  A pattern table of the manifest that has a [value] and no [mode]:
    in the configuration [_get_config] returns the table has the mode
    [None], so the pattern built from it has that mode and not the mode
    [str], and substituting with the patterns of the configuration raises
    whatever the version and the content. *)
Theorem pattern_table_without_mode (addition tool section substitution config : dict)
    (ps : list pyval) (d : dict) (value : pyval) :
  NoDup (map fst addition) ->
  NoDup (map fst tool) ->
  NoDup (map fst section) ->
  NoDup (map fst substitution) ->
  dict_get "tool" addition = Some (VDict tool) ->
  dict_get "poetry-dynamic-versioning" tool = Some (VDict section) ->
  dict_get "substitution" section = Some (VDict substitution) ->
  dict_get "patterns" substitution = Some (VList ps) ->
  In (VDict d) ps ->
  dict_get "value" d = Some value ->
  dict_get "mode" d = None ->
  _get_config (VDict addition) = Ok config ->
  exists (substitution' : dict) (ps' : pyval),
    dict_get "substitution" config = Some (VDict substitution')
    /\ dict_get "patterns" substitution' = Some ps'
    /\ forall patterns : list _SubPattern,
         SubPattern_from_config ps' = Ok patterns ->
         In {| sp_value := value; sp_mode := VNone |} patterns
         /\ forall version content : string,
              exists e, _substitute_version_in_text version content patterns = Raise e.
Proof.
  intros Hnd Hnd1 Hnd2 Hnd3 Htool Hsection Hsub Hps Hin Hvalue Hmode Hc.
  destruct (get_config_patterns _ _ _ _ _ _ Hnd Hnd1 Hnd2 Hnd3 Htool Hsection Hsub Hps Hc)
    as (substitution' & Hs' & Hp').
  exists substitution', (VList (map (initialize "mode") ps)).
  split; [exact Hs'|]. split; [exact Hp'|].
  intros patterns Hfrom. unfold SubPattern_from_config in Hfrom. cbn [py_iter rbind] in Hfrom.
  destruct (result_map_in _ _ _ (initialize "mode" (VDict d)) Hfrom) as (p & Hp & Hinp).
  { apply in_map. exact Hin. }
  assert (p = {| sp_value := value; sp_mode := VNone |}) as ->.
  { cbn [initialize] in Hp. unfold dict_in in Hp. rewrite Hmode in Hp.
    cbn [sub_pattern_of] in Hp.
    rewrite dict_get_set_ne, Hvalue, dict_get_set_eq in Hp by discriminate.
    congruence. }
  split; [exact Hinp|].
  intros version content.
  apply (invalid_mode_raises version patterns _ Hinp); reflexivity.
Qed.

Lemma pattern_table_without_mode_witness :
  exists (substitution' : dict) (ps' : pyval),
    dict_get "substitution" sample_settings = Some (VDict substitution')
    /\ dict_get "patterns" substitution' = Some ps'
    /\ forall patterns : list _SubPattern,
         SubPattern_from_config ps' = Ok patterns ->
         In {| sp_value := VStr "(v = )\d+()"; sp_mode := VNone |} patterns
         /\ forall version content : string,
              exists e, _substitute_version_in_text version content patterns = Raise e.
Proof.
  assert (Hnd : forall l : list string, bool_decide (NoDup l) = true -> NoDup l).
  { intros l. apply bool_decide_eq_true_1. }
  refine (pattern_table_without_mode [("tool", VDict sample_tool)] sample_tool
            sample_section
            [ ("patterns", VList [VDict [("value", VStr "(v = )\d+()")]]);
              ("folders", VList [VDict [("path", VStr "sub")]]) ]
            sample_settings
            [VDict [("value", VStr "(v = )\d+()")]]
            [("value", VStr "(v = )\d+()")] (VStr "(v = )\d+()")
            _ _ _ _ eq_refl eq_refl eq_refl eq_refl _ eq_refl eq_refl _);
    try (apply Hnd; vm_compute; reflexivity).
  - left. reflexivity.
  - vm_compute. reflexivity.
Defined.

(** ** Version resolution *)

Section Resolution.
Context `{Collaborators}.

Lemma style_check (style : pyval) :
  style = VNone \/ style_valid style = true ->
  match style with
  | VNone => Ok tt
  | _ => if style_valid style then Ok tt else Raise (ValueError "style")
  end = Ok tt.
Proof.
  intros [-> | Hv]; [reflexivity|]. rewrite Hv. destruct style; reflexivity.
Qed.

(** X7.  Without [fix-shallow-repository] and without an override, version
    resolution asks the VCS once, with the configured [strict] value, and
    runs no command.  When the query fails its exception is the outcome
    and nothing is printed.  Otherwise a warning is printed for each
    concern of the version, none of which stops the resolution, and the
    outcome is that of the serialization. *)
Theorem resolve_without_shallow_fix (config : dict) (name : option string)
    (env : gmap string string) (log : list event)
    (vcs_name : string) (vcs : Vcs)
    (style pattern fix_shallow latest_tag tag_dir tag_branch full_commit strict : pyval) :
  _get_override_version name env = None ->
  dict_get "vcs" config = Some (VStr vcs_name) ->
  Vcs_of_string vcs_name = Some vcs ->
  dict_get "style" config = Some style ->
  style = VNone \/ style_valid style = true ->
  dict_get "pattern" config = Some pattern ->
  dict_get "fix-shallow-repository" config = Some fix_shallow ->
  py_truthy fix_shallow = false ->
  dict_get "latest-tag" config = Some latest_tag ->
  dict_get "tag-dir" config = Some tag_dir ->
  dict_get "tag-branch" config = Some tag_branch ->
  dict_get "full-commit" config = Some full_commit ->
  dict_get "strict" config = Some strict ->
  let args := {| fv_vcs := vcs;
                 fv_pattern := match pattern with
                               | VNone => PatternDefault
                               | p => PatternValue p
                               end;
                 fv_latest_tag := latest_tag; fv_tag_dir := tag_dir;
                 fv_tag_branch := tag_branch; fv_full_commit := full_commit;
                 fv_strict := strict |} in
  _get_version config name env log
  = match from_vcs log args with
    | Ok version =>
        (serialize config version,
         log ++ EvFromVcs args :: map EvWarning (concerns version))
    | Raise e => (Raise e, log ++ [EvFromVcs args])
    end.
Proof.
  intros Hov Hvcs Hvcs' Hstyle Hstyle' Hpat Hfix Hfix' Hlt Htd Htb Hfc Hst args.
  unfold _get_version. rewrite Hov.
  unfold resolve_from_vcs, sbind, slift, py_getitem.
  rewrite Hvcs, Hvcs', Hstyle, (style_check _ Hstyle'), Hpat, Hfix, Hfix'.
  unfold _get_version_from_dunamai, sbind, slift, py_getitem.
  rewrite Hlt, Htd, Htb, Hfc, Hst. fold args.
  destruct (from_vcs log args) as [version|e]; [|reflexivity].
  rewrite print_warnings_log, <- app_assoc. reflexivity.
Qed.

(** X8.  With [fix-shallow-repository] set, when the first query reports a
    shallow git repository and the unshallow fetch returns a code other
    than 0, version resolution raises the error of the failed command: the
    VCS is not asked again and no warning is printed. *)
Theorem failed_unshallow_stops (config : dict) (name : option string)
    (env : gmap string string) (log : list event)
    (vcs_name : string) (vcs : Vcs)
    (style pattern fix_shallow latest_tag tag_dir tag_branch full_commit strict : pyval)
    (version : Version) (code : Z) (output : string) :
  _get_override_version name env = None ->
  dict_get "vcs" config = Some (VStr vcs_name) ->
  Vcs_of_string vcs_name = Some vcs ->
  dict_get "style" config = Some style ->
  style = VNone \/ style_valid style = true ->
  dict_get "pattern" config = Some pattern ->
  dict_get "fix-shallow-repository" config = Some fix_shallow ->
  py_truthy fix_shallow = true ->
  dict_get "latest-tag" config = Some latest_tag ->
  dict_get "tag-dir" config = Some tag_dir ->
  dict_get "tag-branch" config = Some tag_branch ->
  dict_get "full-commit" config = Some full_commit ->
  dict_get "strict" config = Some strict ->
  let first := {| fv_vcs := vcs;
                  fv_pattern := match pattern with
                                | VNone => PatternDefault
                                | p => PatternValue p
                                end;
                  fv_latest_tag := latest_tag; fv_tag_dir := tag_dir;
                  fv_tag_branch := tag_branch; fv_full_commit := full_commit;
                  fv_strict := VBool false |} in
  from_vcs log first = Ok version ->
  shallow_git version = true ->
  subprocess_run (log ++ [EvFromVcs first]) "git fetch --unshallow" = (code, output) ->
  code <> 0%Z ->
  _get_version config name env log
  = (Raise (RuntimeError "git fetch --unshallow"), log ++ [EvFromVcs first; unshallow]).
Proof.
  intros Hov Hvcs Hvcs' Hstyle Hstyle' Hpat Hfix Hfix' Hlt Htd Htb Hfc Hst first
    Hq Hsh Hrun Hcode.
  unfold _get_version. rewrite Hov.
  unfold resolve_from_vcs, sbind, slift, py_getitem.
  rewrite Hvcs, Hvcs', Hstyle, (style_check _ Hstyle'), Hpat, Hfix, Hfix'.
  unfold query_with_shallow_fix, _get_version_from_dunamai, sbind, slift, sret, py_getitem.
  rewrite Hlt, Htd, Htb, Hfc, Hst. fold first. rewrite Hq, Hsh.
  unfold _run_cmd. rewrite Hrun. cbn [map py_truthy existsb andb orb].
  destruct (Z.eqb_spec code 0) as [->|_]; [contradiction|].
  cbn [negb]. rewrite <- app_assoc. reflexivity.
Qed.

(** X9.  A configuration whose [vcs] names no VCS, or whose [style] is
    given and names no style, makes version resolution raise a
    [ValueError] before the VCS is asked and before any command is run. *)
Theorem invalid_setting_before_query (config : dict) (name : option string)
    (env : gmap string string) (log : list event) (vcs_name : string) :
  _get_override_version name env = None ->
  dict_get "vcs" config = Some (VStr vcs_name) ->
  (Vcs_of_string vcs_name = None
   \/ exists style : pyval,
        dict_get "style" config = Some style
        /\ style <> VNone /\ style_valid style = false) ->
  exists message : string,
    _get_version config name env log = (Raise (ValueError message), log).
Proof.
  intros Hov Hvcs Hbad.
  unfold _get_version. rewrite Hov.
  unfold resolve_from_vcs, sbind, slift, py_getitem. rewrite Hvcs.
  destruct (Vcs_of_string vcs_name) as [vcs|] eqn:Hv.
  - destruct Hbad as [Hbad | (style & Hstyle & Hsome & Hinvalid)]; [discriminate|].
    rewrite Hstyle, Hinvalid. exists "style". destruct style; congruence.
  - exists vcs_name. reflexivity.
Qed.

End Resolution.

Lemma resolve_without_shallow_fix_witness :
  _get_version default_section (Some "demo") ∅ []
  = (Ok "0.1.0",
     [ EvFromVcs {| fv_vcs := Any; fv_pattern := PatternDefault;
                    fv_latest_tag := VBool false; fv_tag_dir := VStr "tags";
                    fv_tag_branch := VNone; fv_full_commit := VBool false;
                    fv_strict := VBool false |};
       EvWarning ShallowRepository ]).
Proof.
  rewrite (resolve_without_shallow_fix default_section (Some "demo") ∅ [] "any" Any
             VNone VNone (VBool false) (VBool false) (VStr "tags") VNone (VBool false)
             (VBool false));
    try reflexivity.
  left. reflexivity.
Defined.

Lemma failed_unshallow_stops_witness :
  @_get_version offline_collaborators
    (dict_set "fix-shallow-repository" (VBool true) default_section) (Some "demo") ∅ []
  = (Raise (RuntimeError "git fetch --unshallow"),
     [ EvFromVcs {| fv_vcs := Any; fv_pattern := PatternDefault;
                    fv_latest_tag := VBool false; fv_tag_dir := VStr "tags";
                    fv_tag_branch := VNone; fv_full_commit := VBool false;
                    fv_strict := VBool false |};
       unshallow ]).
Proof.
  rewrite (@failed_unshallow_stops offline_collaborators
             (dict_set "fix-shallow-repository" (VBool true) default_section)
             (Some "demo") ∅ [] "any" Any
             VNone VNone (VBool true) (VBool false) (VStr "tags") VNone (VBool false)
             (VBool false) ([ShallowRepository], Git) 128%Z
             "fatal: unable to access the remote");
    try reflexivity.
  - left. reflexivity.
  - discriminate.
Defined.

Lemma invalid_setting_before_query_witness :
  exists message : string,
    _get_version (dict_set "vcs" (VStr "cvs") default_section) (Some "demo") ∅ []
    = (Raise (ValueError message), []).
Proof.
  apply (invalid_setting_before_query (dict_set "vcs" (VStr "cvs") default_section)
           (Some "demo") ∅ [] "cvs");
    try reflexivity.
  left. reflexivity.
Defined.

(** ** Branch names *)

Lemma sub_scan_delete (a : atom) (rest : chars) :
  forall before : chars,
    sub_scan (RSeq (RAtom a) REmpty) [] before rest None
    = List.filter (fun c => negb (atom_matches a c)) rest.
Proof.
  induction rest as [|c rest IH]; intros before; [reflexivity|].
  cbn [List.filter].
  destruct (atom_matches a c) eqn:Hc; cbn [negb].
  - cbn [sub_scan]. unfold match_at.
    cbn [rmatch m_rest flat_map app]. rewrite Hc.
    cbn [flat_map rmatch app List.find step m_before length negb orb].
    replace (S (length before) =? length before)%nat with false
      by (symmetry; apply Nat.eqb_neq; lia).
    cbn [negb]. replace (S (length before) - length before) with 1 by lia.
    unfold expand. cbn [flat_map app]. rewrite sub_scan_zero. apply IH.
  - rewrite sub_scan_no_match.
    + f_equal. apply IH.
    + unfold match_at. cbn [rmatch m_rest flat_map]. rewrite Hc. reflexivity.
Qed.

Lemma filter_filter_same {A} (f : A -> bool) (l : list A) :
  List.filter f (List.filter f l) = List.filter f l.
Proof.
  induction l as [|x l IH]; [reflexivity|].
  cbn [List.filter]. destruct (f x) eqn:Hx; [|exact IH].
  cbn [List.filter]. rewrite Hx, IH. reflexivity.
Qed.

Lemma escape_branch_filter (value : string) :
  _escape_branch (Some value)
  = Ok (Some (string_of_list_ascii
                (List.filter is_alphanumeric (list_ascii_of_string value)))).
Proof.
  unfold _escape_branch, re_sub.
  change (parse_regex (list_ascii_of_string "[^a-zA-Z0-9]"))
    with (Some (RSeq (RAtom (ASet true [SRange "a" "z"; SRange "A" "Z"; SRange "0" "9"]))
                  REmpty, 0)).
  cbn [list_ascii_of_string length parse_template rbind].
  rewrite sub_scan_delete. do 3 f_equal.
  apply filter_ext. intros c. unfold is_alphanumeric.
  cbn [atom_matches].
  transitivity (existsb (fun i => set_item_matches i c)
                  [SRange "a" "z"; SRange "A" "Z"; SRange "0" "9"]).
  - destruct (existsb _ _); reflexivity.
  - cbn [existsb set_item_matches]. cbv zeta. rewrite orb_false_r.
    first [apply orb_assoc | symmetry; apply orb_assoc].
Qed.

(** X10.  Escaping a branch name keeps its ASCII letters and digits, in
    their order, and drops every other character; a name that is already
    escaped is left as it is. *)
Theorem escape_branch_keeps_alphanumerics (value : string) :
  _escape_branch (Some value)
  = Ok (Some (string_of_list_ascii
                (List.filter is_alphanumeric (list_ascii_of_string value))))
  /\ forall escaped : string,
       _escape_branch (Some value) = Ok (Some escaped) ->
       _escape_branch (Some escaped) = Ok (Some escaped).
Proof.
  split; [apply escape_branch_filter|].
  intros escaped. rewrite !escape_branch_filter. intros [= <-].
  rewrite list_ascii_of_string_of_list_ascii, filter_filter_same. reflexivity.
Qed.

(** ** Finding the manifest *)

Lemma parent_firstn (p : Path) : parent p = firstn (length p - 1) p.
Proof.
  unfold parent. induction p as [|c p IH]; [reflexivity|].
  cbn [removelast length]. destruct p as [|c' p]; [reflexivity|].
  rewrite IH. cbn [length]. replace (S (S (length p)) - 1) with (S (length p)) by lia.
  replace (S (length p) - 1) with (length p) by lia. reflexivity.
Qed.

Lemma ancestors_spec (p : Path) (n : nat) :
  forall k : nat,
    n <= k -> k <= length p ->
    ancestors n (firstn k p) = map (fun i => firstn (k - S i) p) (seq 0 n).
Proof.
  induction n as [|n IH]; intros k Hn Hk; [reflexivity|].
  cbn [ancestors seq map]. rewrite parent_firstn, length_firstn.
  rewrite firstn_firstn.
  replace (Init.Nat.min (Init.Nat.min k (length p) - 1) k) with (k - 1) by lia.
  f_equal.
  rewrite (IH (k - 1)) by lia. rewrite <- seq_shift, map_map.
  apply map_ext. intros i. f_equal. lia.
Qed.

Lemma levels_spec (start : Path) :
  start :: parents start
  = map (fun i => firstn (length start - i) start) (seq 0 (S (length start))).
Proof.
  cbn [seq map]. rewrite Nat.sub_0_r, firstn_all. f_equal.
  unfold parents. rewrite <- (firstn_all start) at 2.
  rewrite (ancestors_spec start (length start) (length start)) by lia.
  rewrite <- seq_shift, map_map. reflexivity.
Qed.

Lemma find_at_level_some (fs : FS) (level : Path) (names : list string) (p : Path) :
  find_at_level fs level names = Some p ->
  exists before name after,
    names = before ++ name :: after
    /\ p = joinpath level name
    /\ is_file fs p = true
    /\ forall n, In n before -> is_file fs (joinpath level n) = false.
Proof.
  induction names as [|name rest IH]; [discriminate|].
  cbn [find_at_level]. destruct (is_file fs (joinpath level name)) eqn:Hf.
  - intros [= <-]. exists [], name, rest. repeat split; [exact Hf|]. intros n [].
  - intros Hr. destruct (IH Hr) as (before & name' & after & -> & -> & Hp & Hb).
    exists (name :: before), name', after. repeat split; [exact Hp|].
    intros n [<- | Hin]; [exact Hf | exact (Hb n Hin)].
Qed.

Lemma find_at_level_none (fs : FS) (level : Path) (names : list string) :
  find_at_level fs level names = None <->
  forall n, In n names -> is_file fs (joinpath level n) = false.
Proof.
  induction names as [|name rest IH]; cbn [find_at_level].
  - split; [intros _ n [] | reflexivity].
  - destruct (is_file fs (joinpath level name)) eqn:Hf.
    + split; [discriminate|]. intros Hall. rewrite (Hall name) in Hf; [discriminate|].
      left. reflexivity.
    + rewrite IH. split.
      * intros Hall n [<- | Hin]; [exact Hf | exact (Hall n Hin)].
      * intros Hall n Hin. apply Hall. right. exact Hin.
Qed.

Lemma find_in_levels_some (fs : FS) (names : list string) (levels : list Path)
    (p : Path) :
  find_in_levels fs names levels = Some p ->
  exists nearer level farther,
    levels = nearer ++ level :: farther
    /\ find_at_level fs level names = Some p
    /\ forall l, In l nearer -> find_at_level fs l names = None.
Proof.
  induction levels as [|level rest IH]; [discriminate|].
  cbn [find_in_levels]. destruct (find_at_level fs level names) as [found|] eqn:Hl.
  - intros [= <-]. exists [], level, rest. repeat split; [exact Hl|]. intros l [].
  - intros Hr. destruct (IH Hr) as (nearer & level' & farther & -> & Hp & Hn).
    exists (level :: nearer), level', farther. repeat split; [exact Hp|].
    intros l [<- | Hin]; [exact Hl | exact (Hn l Hin)].
Qed.

Lemma find_in_levels_none (fs : FS) (names : list string) (levels : list Path) :
  find_in_levels fs names levels = None <->
  forall l, In l levels -> find_at_level fs l names = None.
Proof.
  induction levels as [|level rest IH]; cbn [find_in_levels].
  - split; [intros _ l [] | reflexivity].
  - destruct (find_at_level fs level names) as [found|] eqn:Hl.
    + split; [discriminate|]. intros Hall. rewrite (Hall level) in Hl; [discriminate|].
      left. reflexivity.
    + rewrite IH. split.
      * intros Hall l [<- | Hin]; [exact Hl | exact (Hall l Hin)].
      * intros Hall l Hin. apply Hall. right. exact Hin.
Qed.

Lemma map_seq_split {A} (f : nat -> A) (a : list A) (x : A) (b : list A) :
  forall s n : nat,
    map f (seq s n) = a ++ x :: b ->
    a = map f (seq s (length a)) /\ x = f (s + length a) /\ length a < n.
Proof.
  induction a as [|y a IH]; intros s n Hm.
  - destruct n as [|n]; [discriminate|].
    change (f s :: map f (seq (S s) n) = x :: b) in Hm.
    assert (Hx : f s = x) by congruence.
    cbn [length seq map]. rewrite Nat.add_0_r.
    repeat split; [congruence | lia].
  - destruct n as [|n]; [discriminate|].
    change (f s :: map f (seq (S s) n) = y :: (a ++ x :: b)) in Hm.
    assert (Hy : f s = y) by congruence.
    assert (Hm' : map f (seq (S s) n) = a ++ x :: b) by congruence.
    destruct (IH _ _ Hm') as (Ha & Hx & Hlen).
    cbn [length seq map]. rewrite <- Ha, Hy.
    repeat split; [rewrite Hx; f_equal; lia | lia].
Qed.

(** X11.  The file [_find_higher_file] returns: it is one of the names,
    joined to the start directory or to one of its ancestors, and it is a
    file; no name earlier in the list is a file at that level, and no
    name at all is a file at a level nearer to the start. *)
Theorem find_higher_file_nearest (fs : FS) (cwd : Path) (names : list string)
    (start : option Path) (p : Path) :
  _find_higher_file fs cwd names start = Some p ->
  let origin := match start with
                | None => cwd
                | Some start => start
                end in
  exists (k : nat) (before : list string) (name : string) (after : list string),
    k <= length origin
    /\ names = before ++ name :: after
    /\ p = joinpath (firstn k origin) name
    /\ is_file fs p = true
    /\ (forall n, In n before -> is_file fs (joinpath (firstn k origin) n) = false)
    /\ (forall j n,
           k < j <= length origin -> In n names ->
           is_file fs (joinpath (firstn j origin) n) = false).
Proof.
  intros Hf origin. unfold _find_higher_file in Hf. cbv zeta in Hf. fold origin in Hf.
  apply find_in_levels_some in Hf as (nearer & level & farther & Hlevels & Hl & Hnear).
  rewrite levels_spec in Hlevels.
  apply map_seq_split in Hlevels as (Hn & -> & Hlen). cbn [Nat.add] in Hl.
  apply find_at_level_some in Hl as (before & name & after & -> & -> & Hp & Hb).
  exists (length origin - length nearer), before, name, after.
  split; [lia|]. repeat split; [exact Hp | exact Hb |].
  intros j n Hj Hin.
  assert (Hnone : find_at_level fs (firstn j origin) (before ++ name :: after) = None).
  { apply Hnear. rewrite Hn. apply in_map_iff. exists (length origin - j).
    split; [f_equal; lia|]. apply in_seq. lia. }
  exact (proj1 (find_at_level_none _ _ _) Hnone n Hin).
Qed.

(** X12.  [_find_higher_file] finds nothing exactly when none of the names
    is a file in the start directory or in any of its ancestors. *)
Theorem find_higher_file_none (fs : FS) (cwd : Path) (names : list string)
    (start : option Path) :
  _find_higher_file fs cwd names start = None <->
  forall k n,
    k <= length match start with
                | None => cwd
                | Some start => start
                end ->
    In n names ->
    is_file fs (joinpath (firstn k match start with
                                   | None => cwd
                                   | Some start => start
                                   end) n) = false.
Proof.
  unfold _find_higher_file.
  set (origin := match start with None => cwd | Some s => s end).
  rewrite find_in_levels_none, levels_spec. split.
  - intros Hall k n Hk Hin. change (k <= length origin) in Hk.
    refine (proj1 (find_at_level_none _ _ _) (Hall (firstn k origin) _) n Hin).
    apply in_map_iff. exists (length origin - k). split; [f_equal; lia|].
    apply in_seq. lia.
  - intros Hall l Hl. apply in_map_iff in Hl as (i & <- & Hi). apply in_seq in Hi.
    apply find_at_level_none. intros n Hin.
    apply (Hall (length origin - i) n); [apply Nat.le_sub_l | exact Hin].
Qed.

Lemma find_higher_file_nearest_witness :
  exists (k : nat) (before : list string) (name : string) (after : list string),
    k <= length ["proj"; "sub"; "deeper"]
    /\ ["setup.cfg"; "pyproject.toml"] = before ++ name :: after
    /\ ["proj"; "pyproject.toml"] = joinpath (firstn k ["proj"; "sub"; "deeper"]) name
    /\ is_file demo_fs ["proj"; "pyproject.toml"] = true
    /\ (forall n, In n before ->
                  is_file demo_fs (joinpath (firstn k ["proj"; "sub"; "deeper"]) n) = false)
    /\ (forall j n,
           k < j <= length ["proj"; "sub"; "deeper"] ->
           In n ["setup.cfg"; "pyproject.toml"] ->
           is_file demo_fs (joinpath (firstn j ["proj"; "sub"; "deeper"]) n) = false).
Proof.
  apply (find_higher_file_nearest demo_fs [] ["setup.cfg"; "pyproject.toml"]
           (Some ["proj"; "sub"; "deeper"]) ["proj"; "pyproject.toml"]).
  vm_compute. reflexivity.
Defined.

(** ** The files of a project *)

Lemma assoc_get_app {K V} `{EqDecision K} (k : K) (l1 l2 : list (K * V)) :
  assoc_get k (l1 ++ l2)
  = match assoc_get k l1 with
    | Some v => Some v
    | None => assoc_get k l2
    end.
Proof.
  induction l1 as [|[k' v'] l1 IH]; [reflexivity|].
  cbn [app assoc_get]. destruct (decide (k' = k)); [reflexivity | exact IH].
Qed.

Section Claims.
Context `{Platform}.

Lemma claim_matches_get (fs : FS) (folder : _FolderConfig) (file : Path)
    (matches : list Path) :
  forall files : list (Path * _FolderConfig),
    assoc_get file (claim_matches fs folder matches files)
    = match assoc_get file files with
      | Some owner => Some owner
      | None =>
          if bool_decide (file ∈ map (resolve fs) matches) then Some folder else None
      end.
Proof.
  induction matches as [|m rest IH]; intros files.
  - cbn [claim_matches map]. destruct (assoc_get file files); [reflexivity|].
    rewrite bool_decide_eq_false_2 by apply not_elem_of_nil. reflexivity.
  - cbn [claim_matches map]. rewrite IH. unfold assoc_in.
    destruct (assoc_get (resolve fs m) files) as [owner|] eqn:Hm.
    + destruct (assoc_get file files) as [o|] eqn:Hf; [reflexivity|].
      assert (Hne : resolve fs m <> file) by congruence.
      destruct (decide (file ∈ map (resolve fs) rest)) as [Hin|Hout].
      * rewrite !bool_decide_eq_true_2; [reflexivity | right; exact Hin | exact Hin].
      * rewrite !bool_decide_eq_false_2; [reflexivity | | exact Hout].
        rewrite not_elem_of_cons. split; [congruence | exact Hout].
    + rewrite assoc_get_app. cbn [assoc_get].
      destruct (assoc_get file files) as [o|] eqn:Hf; [reflexivity|].
      destruct (decide (resolve fs m = file)) as [->|Hne].
      * rewrite bool_decide_eq_true_2 by left. reflexivity.
      * destruct (decide (file ∈ map (resolve fs) rest)) as [Hin|Hout].
        -- rewrite !bool_decide_eq_true_2; [reflexivity | right; exact Hin | exact Hin].
        -- rewrite !bool_decide_eq_false_2; [reflexivity | | exact Hout].
           rewrite not_elem_of_cons. split; [congruence | exact Hout].
Qed.

Lemma claim_globs_get (fs : FS) (folder : _FolderConfig) (file : Path)
    (globs : list pyval) :
  forall files files' : list (Path * _FolderConfig),
    claim_globs fs folder globs files = Ok files' ->
    assoc_get file files'
    = match assoc_get file files with
      | Some owner => Some owner
      | None =>
          if bool_decide (file ∈ glob_matches fs folder globs) then Some folder else None
      end.
Proof.
  induction globs as [|g rest IH]; intros files files' Hc.
  - injection Hc as <-. cbn [glob_matches].
    destruct (assoc_get file files); [reflexivity|].
    rewrite bool_decide_eq_false_2 by apply not_elem_of_nil. reflexivity.
  - cbn [claim_globs] in Hc. apply rbind_ok in Hc as (matches & Hg & Hc).
    rewrite (IH _ _ Hc), claim_matches_get. cbn [glob_matches]. rewrite Hg.
    destruct (assoc_get file files) as [o|]; [reflexivity|].
    destruct (decide (file ∈ map (resolve fs) matches)) as [Hin|Hout].
    + rewrite !bool_decide_eq_true_2;
        [reflexivity | apply elem_of_app; left; exact Hin | exact Hin].
    + rewrite (bool_decide_eq_false_2 _ Hout).
      destruct (decide (file ∈ glob_matches fs folder rest)) as [Hin'|Hout'].
      * rewrite !bool_decide_eq_true_2;
          [reflexivity | apply elem_of_app; right; exact Hin' | exact Hin'].
      * rewrite !bool_decide_eq_false_2; [reflexivity | | exact Hout'].
        rewrite elem_of_app. tauto.
Qed.

Lemma claim_folders_get (fs : FS) (file : Path) (folders : list _FolderConfig) :
  forall files files' : list (Path * _FolderConfig),
    claim_folders fs folders files = Ok files' ->
    assoc_get file files'
    = match assoc_get file files with
      | Some owner => Some owner
      | None =>
          List.find (fun folder => bool_decide (file ∈ folder_matches fs folder)) folders
      end.
Proof.
  induction folders as [|folder rest IH]; intros files files' Hc.
  - injection Hc as <-. destruct (assoc_get file files); reflexivity.
  - cbn [claim_folders] in Hc. apply rbind_ok in Hc as (globs & Hg & Hc).
    apply rbind_ok in Hc as (files1 & H1 & Hc).
    rewrite (IH _ _ Hc), (claim_globs_get _ _ _ _ _ _ H1). cbn [List.find].
    unfold folder_matches. rewrite Hg.
    destruct (assoc_get file files) as [o|]; [reflexivity|].
    destruct (bool_decide (file ∈ glob_matches fs folder globs)); reflexivity.
Qed.

(** X13.  The files the folders claim for substitution: no file is claimed
    twice, and a file belongs to the first folder, in the order of the
    folders, one of whose globs matches it. *)
Theorem first_folder_claims (fs : FS) (folders : list _FolderConfig)
    (files : list (Path * _FolderConfig)) :
  claim_folders fs folders [] = Ok files ->
  NoDup (map fst files)
  /\ forall file : Path,
       assoc_get file files
       = List.find (fun folder => bool_decide (file ∈ folder_matches fs folder)) folders.
Proof.
  intros Hc. split.
  - exact (claim_folders_NoDup fs folders [] files (NoDup_nil_2) Hc).
  - intros file. exact (claim_folders_get fs file folders [] files Hc).
Qed.

End Claims.

Lemma first_folder_claims_witness :
  NoDup (map fst demo_claims)
  /\ forall file : Path,
       assoc_get file demo_claims
       = List.find (fun folder => bool_decide (file ∈ folder_matches demo_fs folder))
           demo_folders.
Proof.
  apply (first_folder_claims demo_fs demo_folders demo_claims).
  vm_compute. reflexivity.
Defined.

Section Substitution.
Context `{Platform}.
Local Open Scope stateful_scope.

Lemma record_substitution_get (name : string) (file : Path) (content : string)
    (state : _ProjectState) (w w' : World) :
  assoc_get name (projects (w_state w)) = Some state ->
  record_substitution name file content w = (Ok tt, w') ->
  w_fs w' = w_fs w
  /\ assoc_get name (projects (w_state w'))
     = Some {| ps_path := ps_path state;
               ps_original_version := ps_original_version state;
               ps_version := ps_version state;
               ps_substitutions := assoc_set file content (ps_substitutions state) |}.
Proof.
  intros Hp. unfold record_substitution. rewrite Hp. intros [= <-].
  cbn [set_projects w_state projects w_fs]. split; [reflexivity|].
  apply assoc_get_set_eq.
Qed.

Lemma substitute_file_effect (name version : string) (file : Path)
    (config : _FolderConfig) (state : _ProjectState) (w w' : World) :
  assoc_get name (projects (w_state w)) = Some state ->
  substitute_file name version file config w = (Ok tt, w') ->
  exists (raw new : string) (state' : _ProjectState),
    fs_files (w_fs w) !! file = Some raw
    /\ _substitute_version_in_text version (universal_newlines raw) (fc_patterns config)
       = Ok new
    /\ fs_files (w_fs w') !! file
       = (if String.eqb (universal_newlines raw) new then Some raw else Some new)
    /\ (forall f, f <> file -> fs_files (w_fs w') !! f = fs_files (w_fs w) !! f)
    /\ assoc_get name (projects (w_state w')) = Some state'
    /\ ps_substitutions state'
       = if String.eqb (universal_newlines raw) new then ps_substitutions state
         else assoc_set file (universal_newlines raw) (ps_substitutions state).
Proof.
  intros Hp Hs. unfold substitute_file in Hs.
  apply sbind_ok in Hs as (original & w1 & Hread & Hs).
  apply read_text_ok in Hread as (-> & (raw & Hfile & ->) & _).
  apply sbind_ok in Hs as (new & w1 & Hnew & Hs).
  apply slift_ok in Hnew as [Hnew ->].
  exists raw, new.
  destruct (String.eqb (universal_newlines raw) new).
  - apply sret_ok in Hs as [_ ->]. exists state. auto 10.
  - apply sbind_ok in Hs as ([] & w1 & Hrec & Hs).
    destruct (record_substitution_get _ _ _ _ _ _ Hp Hrec) as [Hfs1 Hp1].
    apply write_text_ok in Hs as [Hfiles Hst].
    eexists. split; [exact Hfile|]. split; [exact Hnew|].
    split; [rewrite Hfiles; apply lookup_insert_eq|].
    split; [intros f Hf; rewrite Hfiles, Hfs1; apply lookup_insert_ne; congruence|].
    rewrite Hst. split; [exact Hp1 | reflexivity].
Qed.

Lemma substitute_files_effect (name version : string)
    (files : list (Path * _FolderConfig)) :
  forall (state : _ProjectState) (w w' : World),
    NoDup (map fst files) ->
    assoc_get name (projects (w_state w)) = Some state ->
    substitute_files name version files w = (Ok tt, w') ->
    exists state' : _ProjectState,
      assoc_get name (projects (w_state w')) = Some state'
      /\ forall f : Path,
           match assoc_get f files with
           | None =>
               fs_files (w_fs w') !! f = fs_files (w_fs w) !! f
               /\ assoc_get f (ps_substitutions state')
                  = assoc_get f (ps_substitutions state)
           | Some config =>
               exists raw new : string,
                 fs_files (w_fs w) !! f = Some raw
                 /\ _substitute_version_in_text version (universal_newlines raw)
                      (fc_patterns config)
                    = Ok new
                 /\ fs_files (w_fs w') !! f
                    = (if String.eqb (universal_newlines raw) new then Some raw
                       else Some new)
                 /\ assoc_get f (ps_substitutions state')
                    = if String.eqb (universal_newlines raw) new
                      then assoc_get f (ps_substitutions state)
                      else Some (universal_newlines raw)
           end.
Proof.
  induction files as [|[file config] rest IH]; intros state w w' Hnd Hp Hs.
  - apply sret_ok in Hs as [_ ->]. exists state. split; [exact Hp|].
    intros f. cbn [assoc_get]. auto.
  - cbn [map fst] in Hnd. apply NoDup_cons in Hnd as [Hfresh Hnd].
    apply assoc_get_none in Hfresh.
    cbn [substitute_files] in Hs. apply sbind_ok in Hs as ([] & w1 & H1 & Hs).
    destruct (substitute_file_effect _ _ _ _ _ _ _ Hp H1)
      as (raw & new & state1 & Hfile & Hnew & Hfile1 & Hframe1 & Hp1 & Hsubs1).
    destruct (IH state1 w1 w' Hnd Hp1 Hs) as (state' & Hp' & Hrest).
    exists state'. split; [exact Hp'|].
    intros f. cbn [assoc_get]. specialize (Hrest f).
    destruct (decide (file = f)) as [<-|Hne].
    + rewrite Hfresh in Hrest. destruct Hrest as [Hf' Hs'].
      exists raw, new. split; [exact Hfile|]. split; [exact Hnew|].
      split; [congruence|]. rewrite Hs', Hsubs1.
      destruct (String.eqb (universal_newlines raw) new);
        [reflexivity | apply assoc_get_set_eq].
    + assert (Hsame : assoc_get f (ps_substitutions state1)
                      = assoc_get f (ps_substitutions state)).
      { rewrite Hsubs1. destruct (String.eqb (universal_newlines raw) new); [reflexivity|].
        apply assoc_get_set_ne. congruence. }
      rewrite (Hframe1 f) in Hrest by congruence. rewrite Hsame in Hrest. exact Hrest.
Qed.

(** X14.  What the substitution step does for a project that has no
    substitution recorded.  A file that no folder claims is left as it is
    and is not recorded.  A file that a folder claims is read, which turns
    its line endings into line feeds, and the substitution engine is run on
    the text read with the patterns of the first folder that claims the
    file.  When the engine changes the text, the file is recorded with the
    text read and then holds the new text; when it does not, the file is
    not recorded and holds what it held, line endings included. *)
Theorem substitute_version_effect (name version : string)
    (folders : list _FolderConfig) (state : _ProjectState) (w w' : World) :
  assoc_get name (projects (w_state w)) = Some state ->
  ps_substitutions state = [] ->
  _substitute_version name version folders w = (Ok tt, w') ->
  exists state' : _ProjectState,
    assoc_get name (projects (w_state w')) = Some state'
    /\ forall f : Path,
         match List.find (fun folder => bool_decide (f ∈ folder_matches (w_fs w) folder))
                 folders with
         | None =>
             fs_files (w_fs w') !! f = fs_files (w_fs w) !! f
             /\ assoc_get f (ps_substitutions state') = None
         | Some folder =>
             exists raw new : string,
               fs_files (w_fs w) !! f = Some raw
               /\ _substitute_version_in_text version (universal_newlines raw)
                    (fc_patterns folder)
                  = Ok new
               /\ fs_files (w_fs w') !! f
                  = (if String.eqb (universal_newlines raw) new then Some raw
                     else Some new)
               /\ assoc_get f (ps_substitutions state')
                  = if String.eqb (universal_newlines raw) new then None
                    else Some (universal_newlines raw)
         end.
Proof.
  intros Hp Hempty Hs. unfold _substitute_version in Hs.
  apply sbind_ok in Hs as (st & w1 & Hget & Hs).
  unfold get_project in Hget. rewrite Hp in Hget. injection Hget as <- <-.
  rewrite Hempty in Hs.
  apply sbind_ok in Hs as (files & w1 & Hclaim & Hs). injection Hclaim as Hclaim <-.
  assert (Hnd : NoDup (map fst files))
    by exact (claim_folders_NoDup (w_fs w) folders [] files (NoDup_nil_2) Hclaim).
  destruct (substitute_files_effect _ _ _ _ _ _ Hnd Hp Hs) as (state' & Hp' & Hall).
  exists state'. split; [exact Hp'|].
  intros f. specialize (Hall f).
  rewrite (claim_folders_get _ f _ _ _ Hclaim) in Hall. cbn [assoc_get] in Hall.
  rewrite Hempty in Hall. cbn [assoc_get] in Hall. exact Hall.
Qed.

End Substitution.

Lemma substitute_version_effect_witness :
  exists state' : _ProjectState,
    assoc_get "demo"
      (projects (w_state (snd (_substitute_version "demo" "1.2.3" demo_folders
                                 crlf_world))))
    = Some state'
    /\ forall f : Path,
         match List.find
                 (fun folder => bool_decide (f ∈ folder_matches (w_fs crlf_world) folder))
                 demo_folders with
         | None =>
             fs_files (w_fs (snd (_substitute_version "demo" "1.2.3" demo_folders
                                    crlf_world))) !! f
             = fs_files (w_fs crlf_world) !! f
             /\ assoc_get f (ps_substitutions state') = None
         | Some folder =>
             exists raw new : string,
               fs_files (w_fs crlf_world) !! f = Some raw
               /\ _substitute_version_in_text "1.2.3" (universal_newlines raw)
                    (fc_patterns folder)
                  = Ok new
               /\ fs_files (w_fs (snd (_substitute_version "demo" "1.2.3" demo_folders
                                         crlf_world))) !! f
                  = (if String.eqb (universal_newlines raw) new then Some raw
                     else Some new)
               /\ assoc_get f (ps_substitutions state')
                  = if String.eqb (universal_newlines raw) new then None
                    else Some (universal_newlines raw)
         end.
Proof.
  apply (substitute_version_effect "demo" "1.2.3" demo_folders
           {| ps_path := ["proj"; "pyproject.toml"];
              ps_original_version := VStr "0.0.0";
              ps_version := "1.2.3";
              ps_substitutions := [] |}
           crlf_world);
    [reflexivity | reflexivity |].
  vm_compute. reflexivity.
Defined.

(** A file with carriage returns before its line feeds comes back from
    apply and revert with line feeds alone: the text recorded for it, and
    written back, is the text read. *)
Example crlf_file_comes_back_with_line_feeds :
  fs_files (w_fs crlf_world) !! ["proj"; "pkg.py"]
  = Some ("# demo" ++ String "013" (String "010" "__version__ = '0.0.0'")
            ++ String "013" (String "010" ""))%string
  /\ fs_files
       (w_fs (snd (_revert_version false
                     (snd (_apply_version "1.2.3" demo_config demo_path false
                             crlf_world))))) !! ["proj"; "pkg.py"]
     = Some ("# demo" ++ String "010" "__version__ = '0.0.0'" ++ String "010" "")%string.
Proof. split; vm_compute; reflexivity. Qed.

(** ** Revert *)

Section Revert.
Context `{Platform}.
Local Open Scope stateful_scope.

Lemma keeps_state_restore_files (persistent : list Path)
    (substitutions : list (Path * string)) :
  keeps_state (restore_files persistent substitutions).
Proof.
  induction substitutions as [|[file content] rest IH]; cbn [restore_files].
  - apply keeps_state_sret.
  - destruct (bool_decide (file ∈ persistent)); [exact IH|].
    apply keeps_state_sbind; [apply keeps_state_write_text | intros _; exact IH].
Qed.

Lemma keeps_state_revert_project (retain : bool) (state : _ProjectState) :
  keeps_state (revert_project retain state).
Proof.
  unfold revert_project.
  apply keeps_state_sbind; [apply keeps_state_read_text | intros text].
  apply keeps_state_sbind; [apply keeps_state_slift | intros doc].
  apply keeps_state_sbind.
  - destruct (ps_substitutions state); [apply keeps_state_sret|].
    repeat first
      [ apply keeps_state_restore_files | apply keeps_state_slift
      | apply keeps_state_read_text
      | apply keeps_state_sbind; [|intros ?] ].
  - intros doc'.
    apply keeps_state_sbind; [apply keeps_state_stamp | intros doc''].
    apply keeps_state_write_text.
Qed.

Lemma keeps_state_revert_projects (retain : bool) (ps : list (string * _ProjectState)) :
  keeps_state (revert_projects retain ps).
Proof.
  induction ps as [|[name state] rest IH]; cbn [revert_projects].
  - apply keeps_state_sret.
  - apply keeps_state_sbind; [apply keeps_state_revert_project | intros _; exact IH].
Qed.

(** X15.  A revert that succeeds leaves the registry of projects empty.  A
    revert that raises leaves the registry as it found it, with the
    projects it has reverted before the failure still in it.  Neither
    changes the other fields of the state. *)
Theorem revert_registry (retain : bool) (w : World) :
  let outcome := _revert_version retain w in
  projects (w_state (snd outcome))
  = match fst outcome with
    | Ok _ => []
    | Raise _ => projects (w_state w)
    end
  /\ cli_mode (w_state (snd outcome)) = cli_mode (w_state w)
  /\ patched_core_poetry_create (w_state (snd outcome))
     = patched_core_poetry_create (w_state w).
Proof.
  cbv zeta. unfold _revert_version, sbind.
  pose proof (keeps_state_revert_projects retain (projects (w_state w)) w) as Hk.
  destruct (revert_projects retain (projects (w_state w)) w) as [[[]|e] w1];
    cbn [fst snd set_projects w_state projects cli_mode patched_core_poetry_create] in *;
    rewrite Hk; auto.
Qed.

Lemma only_writes_restore_files (persistent : list Path)
    (substitutions : list (Path * string)) :
  only_writes (fun f => f ∈ map fst substitutions)
    (restore_files persistent substitutions).
Proof.
  induction substitutions as [|[file content] rest IH]; cbn [restore_files map fst].
  - apply only_writes_sret.
  - assert (Hrest : only_writes (fun f => f ∈ file :: map fst rest)
                      (restore_files persistent rest)).
    { eapply only_writes_weaken; [|exact IH]. intros f Hf. right. exact Hf. }
    destruct (bool_decide (file ∈ persistent)); [exact Hrest|].
    apply only_writes_sbind; [|intros _; exact Hrest].
    apply only_writes_write_text. left.
Qed.

Lemma only_writes_revert_project (retain : bool) (state : _ProjectState) :
  only_writes (fun f => f = ps_path state \/ f ∈ map fst (ps_substitutions state))
    (revert_project retain state).
Proof.
  unfold revert_project.
  apply only_writes_sbind; [apply only_writes_read_text | intros text].
  apply only_writes_sbind; [apply only_writes_slift | intros doc].
  apply only_writes_sbind.
  - destruct (ps_substitutions state) as [|s0 subs] eqn:Hsubs; [apply only_writes_sret|].
    repeat first
      [ apply only_writes_slift | apply only_writes_read_text
      | eapply only_writes_weaken; [|apply only_writes_restore_files];
        intros f Hf; right; exact Hf
      | apply only_writes_sbind; [|intros ?] ].
  - intros doc'.
    apply only_writes_sbind; [apply only_writes_stamp | intros doc''].
    apply only_writes_write_text. left. reflexivity.
Qed.

Lemma only_writes_revert_projects (retain : bool) (ps : list (string * _ProjectState)) :
  only_writes
    (fun f => exists name state,
                In (name, state) ps
                /\ (f = ps_path state \/ f ∈ map fst (ps_substitutions state)))
    (revert_projects retain ps).
Proof.
  induction ps as [|[name state] rest IH]; cbn [revert_projects].
  - apply only_writes_sret.
  - apply only_writes_sbind.
    + eapply only_writes_weaken; [|apply only_writes_revert_project].
      intros f Hf. exists name, state. split; [left; reflexivity | exact Hf].
    + intros _. eapply only_writes_weaken; [|exact IH].
      intros f (n & s & Hin & Hf). exists n, s. split; [right; exact Hin | exact Hf].
Qed.

(** X16.  Revert writes no file other than the manifests of the
    registered projects and the files recorded in their substitution
    maps, whether it succeeds or raises. *)
Theorem revert_writes_only_recorded (retain : bool) (w : World) (f : Path) :
  (forall name state,
      In (name, state) (projects (w_state w)) ->
      f <> ps_path state /\ f ∉ map fst (ps_substitutions state)) ->
  fs_files (w_fs (snd (_revert_version retain w))) !! f = fs_files (w_fs w) !! f.
Proof.
  intros Hout. unfold _revert_version, sbind.
  pose proof (only_writes_revert_projects retain (projects (w_state w)) w f) as Hw.
  destruct (revert_projects retain (projects (w_state w)) w) as [[[]|e] w1];
    cbn [fst snd set_projects w_fs] in *; apply Hw;
    intros (name & state & Hin & Hf); destruct (Hout name state Hin) as [Hne Hnotin];
    destruct Hf; contradiction.
Qed.

End Revert.

Lemma revert_writes_only_recorded_witness :
  fs_files (w_fs (snd (_revert_version false demo_applied))) !! ["proj"; "notes.txt"]
  = fs_files (w_fs demo_applied) !! ["proj"; "notes.txt"].
Proof.
  apply (revert_writes_only_recorded false demo_applied ["proj"; "notes.txt"]).
  intros name state Hin. vm_compute in Hin. destruct Hin as [[= <- <-] | []].
  split; [discriminate|].
  apply (bool_decide_eq_false_1 (_ ∈ _)). vm_compute. reflexivity.
Defined.

(** ** Files are never removed *)

Section KeepsFiles.
Context `{Platform}.
Local Open Scope stateful_scope.

Lemma keeps_files_pure {A} (g : World -> result A) :
  keeps_files (fun w => (g w, w)).
Proof. intros w. split; [reflexivity | auto]. Qed.

Lemma keeps_files_sbind {A B} (m : stateful World A) (k : A -> stateful World B) :
  keeps_files m -> (forall a, keeps_files (k a)) -> keeps_files (sbind m k).
Proof.
  intros Hm Hk w. unfold sbind. destruct (Hm w) as [Hd Hf].
  destruct (m w) as [[a|e] w1]; cbn [snd] in *; [|auto].
  destruct (Hk a w1) as [Hd' Hf']. split; [congruence | auto].
Qed.

Lemma keeps_files_write_text (p : Path) (text : string) :
  keeps_files (write_text p text).
Proof.
  intros w. unfold write_text, fs_write_text.
  destruct (bool_decide (p ∈ fs_dirs (w_fs w))); [split; auto|].
  destruct (bool_decide (parent p ∈ fs_dirs (w_fs w))).
  - cbn [snd set_fs w_fs fs_files fs_dirs]. split; [reflexivity|].
    intros f Hf. destruct (decide (p = f)) as [->|Hne].
    + rewrite lookup_insert_eq. eauto.
    + rewrite lookup_insert_ne by exact Hne. exact Hf.
  - destruct (fs_exists (w_fs w) (parent p)); split; auto.
Qed.

Lemma keeps_files_stamp (version : pyval) (enable retain : bool) (pyproject : pyval) :
  keeps_files (stamp version enable retain pyproject).
Proof.
  unfold stamp.
  apply keeps_files_sbind; [apply (keeps_files_pure (fun _ => _)) | intros doc].
  apply keeps_files_sbind;
    [apply (keeps_files_pure (fun w => Ok (cli_mode (w_state w)))) | intros cli].
  destruct (negb retain && negb cli); apply (keeps_files_pure (fun _ => _)).
Qed.

Lemma keeps_files_restore_files (persistent : list Path)
    (substitutions : list (Path * string)) :
  keeps_files (restore_files persistent substitutions).
Proof.
  induction substitutions as [|[file content] rest IH]; cbn [restore_files].
  - apply (keeps_files_pure (fun _ => _)).
  - destruct (bool_decide (file ∈ persistent)); [exact IH|].
    apply keeps_files_sbind; [apply keeps_files_write_text | intros _; exact IH].
Qed.

Lemma keeps_files_revert_project (retain : bool) (state : _ProjectState) :
  keeps_files (revert_project retain state).
Proof.
  unfold revert_project.
  apply keeps_files_sbind;
    [apply (keeps_files_pure (fun w => fs_read_text (w_fs w) _)) | intros text].
  apply keeps_files_sbind; [apply (keeps_files_pure (fun _ => _)) | intros doc].
  apply keeps_files_sbind.
  - destruct (ps_substitutions state); [apply (keeps_files_pure (fun _ => _))|].
    repeat first
      [ apply keeps_files_restore_files
      | apply (keeps_files_pure (fun w => fs_read_text (w_fs w) _))
      | apply (keeps_files_pure (fun _ => _))
      | apply keeps_files_sbind; [|intros ?] ].
  - intros doc'.
    apply keeps_files_sbind; [apply keeps_files_stamp | intros doc''].
    apply keeps_files_write_text.
Qed.

Lemma keeps_files_revert_projects (retain : bool) (ps : list (string * _ProjectState)) :
  keeps_files (revert_projects retain ps).
Proof.
  induction ps as [|[name state] rest IH]; cbn [revert_projects].
  - apply (keeps_files_pure (fun _ => _)).
  - apply keeps_files_sbind; [apply keeps_files_revert_project | intros _; exact IH].
Qed.

Lemma keeps_files_record_substitution (name : string) (file : Path) (content : string) :
  keeps_files (record_substitution name file content).
Proof.
  intros w. unfold record_substitution.
  destruct (assoc_get name (projects (w_state w))); split; auto.
Qed.

Lemma keeps_files_substitute_files (name version : string)
    (files : list (Path * _FolderConfig)) :
  keeps_files (substitute_files name version files).
Proof.
  induction files as [|[file config] rest IH]; cbn [substitute_files].
  - apply (keeps_files_pure (fun _ => _)).
  - apply keeps_files_sbind; [|intros _; exact IH].
    unfold substitute_file.
    apply keeps_files_sbind;
      [apply (keeps_files_pure (fun w => fs_read_text (w_fs w) _)) | intros original].
    apply keeps_files_sbind; [apply (keeps_files_pure (fun _ => _)) | intros new].
    destruct (String.eqb original new); [apply (keeps_files_pure (fun _ => _))|].
    apply keeps_files_sbind;
      [apply keeps_files_record_substitution | intros _; apply keeps_files_write_text].
Qed.

(** X17.  Neither the substitution step nor revert removes a file, and
    neither creates or removes a directory, whether they succeed or
    raise: after them every file that was there is still there and the
    set of directories is the same. *)
Theorem substitution_and_revert_remove_nothing (name version : string)
    (folders : list _FolderConfig) (retain : bool) (w : World) :
  (fs_dirs (w_fs (snd (_substitute_version name version folders w))) = fs_dirs (w_fs w)
   /\ forall f, is_Some (fs_files (w_fs w) !! f) ->
                is_Some (fs_files
                           (w_fs (snd (_substitute_version name version folders w))) !! f))
  /\ (fs_dirs (w_fs (snd (_revert_version retain w))) = fs_dirs (w_fs w)
      /\ forall f, is_Some (fs_files (w_fs w) !! f) ->
                   is_Some (fs_files (w_fs (snd (_revert_version retain w))) !! f)).
Proof.
  split.
  - revert w. change (keeps_files (_substitute_version name version folders)).
    unfold _substitute_version.
    apply keeps_files_sbind.
    + intros w. unfold get_project.
      destruct (assoc_get name (projects (w_state w))); split; auto.
    + intros state. destruct (ps_substitutions state);
        [|apply (keeps_files_pure (fun _ => _))].
      apply keeps_files_sbind;
        [apply (keeps_files_pure (fun w => claim_folders (w_fs w) folders []))|].
      intros files. apply keeps_files_substitute_files.
  - revert w. change (keeps_files (_revert_version retain)).
    unfold _revert_version.
    apply keeps_files_sbind;
      [apply (keeps_files_pure (fun w => Ok (projects (w_state w)))) | intros ps].
    apply keeps_files_sbind; [apply keeps_files_revert_projects | intros _].
    intros w. split; [reflexivity | auto].
Qed.

End KeepsFiles.

(** ** The manifest after apply and after revert *)

Lemma set_tool_key_get (section key : string) (value pyproject pyproject' : pyval) :
  set_tool_key section key value pyproject = Ok pyproject' ->
  (let* tool := py_getitem pyproject' "tool" in
   let* table := py_getitem tool section in
   py_getitem table key) = Ok value.
Proof.
  unfold set_tool_key. intros Hs.
  apply dict_update_ok in Hs as (items & tool & tool' & -> & _ & Htool & ->).
  apply dict_update_ok in Htool as (titems & table & table' & -> & _ & Ht & ->).
  destruct table as [| | | | |d]; try discriminate. injection Ht as <-.
  unfold py_getitem. rewrite dict_get_set_eq. cbn [rbind].
  rewrite dict_get_set_eq. cbn [rbind]. rewrite dict_get_set_eq. reflexivity.
Qed.

Lemma set_tool_key_other (section key section' key' : string)
    (value pyproject pyproject' : pyval) :
  section' <> section ->
  set_tool_key section key value pyproject = Ok pyproject' ->
  (let* tool := py_getitem pyproject' "tool" in
   let* table := py_getitem tool section' in
   py_getitem table key')
  = (let* tool := py_getitem pyproject "tool" in
     let* table := py_getitem tool section' in
     py_getitem table key').
Proof.
  unfold set_tool_key. intros Hne Hs.
  apply dict_update_ok in Hs as (items & tool & tool' & -> & Hget & Htool & ->).
  apply dict_update_ok in Htool as (titems & table & table' & -> & _ & _ & ->).
  unfold py_getitem. rewrite dict_get_set_eq, Hget. cbn [rbind].
  rewrite dict_get_set_ne by exact Hne. reflexivity.
Qed.

Lemma set_tool_key_frame (section key : string) (value pyproject pyproject' : pyval)
    (keys : list string) :
  set_tool_key section key value pyproject = Ok pyproject' ->
  ~ keys `prefix_of` ["tool"; section; key] ->
  ~ ["tool"; section; key] `prefix_of` keys ->
  lookup_path keys pyproject' = lookup_path keys pyproject.
Proof.
  unfold set_tool_key. intros Hs Hup Hdown.
  apply dict_update_ok in Hs as (items & tool & tool' & -> & Hget & Htool & ->).
  apply dict_update_ok in Htool as (titems & table & table' & -> & Hget' & Ht & ->).
  destruct table as [| | | | |d]; try discriminate. injection Ht as <-.
  destruct keys as [|k1 keys]; [exfalso; apply Hup; apply prefix_nil|].
  cbn [lookup_path].
  destruct (String.eqb_spec k1 "tool") as [->|Hk1];
    [|rewrite dict_get_set_ne by exact Hk1; reflexivity].
  rewrite dict_get_set_eq, Hget.
  destruct keys as [|k2 keys].
  { exfalso. apply Hup. exists [section; key]. reflexivity. }
  cbn [lookup_path].
  destruct (String.eqb_spec k2 section) as [->|Hk2];
    [|rewrite dict_get_set_ne by exact Hk2; reflexivity].
  rewrite dict_get_set_eq, Hget'.
  destruct keys as [|k3 keys].
  { exfalso. apply Hup. exists [key]. reflexivity. }
  cbn [lookup_path].
  destruct (String.eqb_spec k3 key) as [->|Hk3];
    [|rewrite dict_get_set_ne by exact Hk3; reflexivity].
  exfalso. apply Hdown. exists keys. reflexivity.
Qed.

Section Manifest.
Context `{Platform}.
Local Open Scope stateful_scope.

(** The document [stamp] returns is the one it was given with the two
    assignments made. *)
Lemma stamp_exact (version : pyval) (enable retain : bool)
    (pyproject pyproject' : pyval) (w w' : World) :
  stamp version enable retain pyproject w = (Ok pyproject', w') ->
  exists versioned : pyval,
    set_tool_key "poetry" "version" version pyproject = Ok versioned
    /\ if negb retain && negb (cli_mode (w_state w))
       then set_tool_key "poetry-dynamic-versioning" "enable" (VBool enable) versioned
            = Ok pyproject'
       else pyproject' = versioned.
Proof.
  unfold stamp. intros Hs.
  apply sbind_ok in Hs as (d1 & w1 & H1 & Hs). apply slift_ok in H1 as [H1 ->].
  apply sbind_ok in Hs as (cli & w2 & H2 & Hs). injection H2 as <- <-.
  exists d1. split; [exact H1|].
  destruct (negb retain && negb (cli_mode (w_state w))).
  - apply slift_ok in Hs as [Hs _]. exact Hs.
  - apply sret_ok in Hs as [-> _]. reflexivity.
Qed.

Lemma stamp_frame (version : pyval) (enable retain : bool)
    (pyproject pyproject' : pyval) (w w' : World) (keys : list string) :
  stamp version enable retain pyproject w = (Ok pyproject', w') ->
  ~ keys `prefix_of` ["tool"; "poetry"; "version"] ->
  ~ ["tool"; "poetry"; "version"] `prefix_of` keys ->
  (negb retain && negb (cli_mode (w_state w)) = true ->
   ~ keys `prefix_of` ["tool"; "poetry-dynamic-versioning"; "enable"]
   /\ ~ ["tool"; "poetry-dynamic-versioning"; "enable"] `prefix_of` keys) ->
  lookup_path keys pyproject' = lookup_path keys pyproject.
Proof.
  intros Hs Hup Hdown Hswitch.
  destruct (stamp_exact _ _ _ _ _ _ _ Hs) as (versioned & Hv & He).
  rewrite <- (set_tool_key_frame _ _ _ _ _ keys Hv Hup Hdown).
  destruct (negb retain && negb (cli_mode (w_state w))); [|congruence].
  destruct (Hswitch eq_refl) as [Hup' Hdown'].
  exact (set_tool_key_frame _ _ _ _ _ keys He Hup' Hdown').
Qed.

Lemma stamp_enable (version : pyval) (enable retain : bool)
    (pyproject pyproject' : pyval) (w w' : World) :
  stamp version enable retain pyproject w = (Ok pyproject', w') ->
  manifest_enable pyproject'
  = if negb retain && negb (cli_mode (w_state w)) then Ok (VBool enable)
    else manifest_enable pyproject.
Proof.
  unfold stamp. intros Hs.
  apply sbind_ok in Hs as (d1 & w1 & H1 & Hs). apply slift_ok in H1 as [H1 ->].
  apply sbind_ok in Hs as (cli & w2 & H2 & Hs). injection H2 as <- <-.
  assert (Hkeep : manifest_enable d1 = manifest_enable pyproject).
  { apply (set_tool_key_other "poetry" "version" "poetry-dynamic-versioning" "enable"
             _ _ _ ltac:(discriminate) H1). }
  destruct (negb retain && negb (cli_mode (w_state w))).
  - apply slift_ok in Hs as [Hs ->]. exact (set_tool_key_get _ _ _ _ _ Hs).
  - apply sret_ok in Hs as [-> ->]. exact Hkeep.
Qed.

Lemma substitute_version_untouched (name version : string)
    (folders : list _FolderConfig) (w w' : World) (f : Path) :
  _substitute_version name version folders w = (Ok tt, w') ->
  (forall state', assoc_get name (projects (w_state w')) = Some state' ->
                  assoc_get f (ps_substitutions state') = None) ->
  fs_files (w_fs w') !! f = fs_files (w_fs w) !! f.
Proof.
  intros Hs Hnone. unfold _substitute_version in Hs.
  apply sbind_ok in Hs as (state & w1 & Hget & Hs).
  unfold get_project in Hget.
  destruct (assoc_get name (projects (w_state w))) as [st|] eqn:Hp; [|discriminate].
  injection Hget as -> <-.
  destruct (ps_substitutions state) as [|s0 subs] eqn:Hsubs.
  - apply sbind_ok in Hs as (files & w1 & Hclaim & Hs). injection Hclaim as Hclaim <-.
    assert (Hnd : NoDup (map fst files))
      by exact (claim_folders_NoDup (w_fs w) folders [] files (NoDup_nil_2) Hclaim).
    destruct (substitute_files_effect _ _ _ _ _ _ Hnd Hp Hs) as (state' & Hp' & Hall).
    specialize (Hall f). specialize (Hnone state' Hp').
    destruct (assoc_get f files) as [config|]; [|exact (proj1 Hall)].
    destruct Hall as (raw & new & Hfile & _ & Hfile' & Hrec).
    rewrite Hnone in Hrec.
    destruct (String.eqb (universal_newlines raw) new); [congruence | discriminate].
  - apply sret_ok in Hs as [_ ->]. reflexivity.
Qed.

(** X18.  After an apply that succeeds, the manifest on disk is the
    dump of the document parsed from the manifest that was read, with its
    version field assigned the new version and then, unless [retain] is
    given or the CLI mode is on, the plugin's [enable] assigned false: so
    its version is the new version, its [enable] is false or, with
    [retain] or in CLI mode, as it was read, and at every path of keys that
    neither leads to an assigned field nor goes through one it holds what
    the parsed document holds.  This is so when the manifest is none of
    the extra files of the configuration and is not recorded as
    substituted. *)
Theorem apply_stamps_manifest (version : string) (config : dict) (pyproject_path : Path)
    (retain : bool) (w w' : World) :
  _apply_version version config pyproject_path retain w = (Ok tt, w') ->
  pyproject_path ∉ extra_paths (parent pyproject_path) config ->
  (forall name state,
      In (name, state) (projects (w_state w')) ->
      assoc_get pyproject_path (ps_substitutions state) = None) ->
  exists (text : string) (parsed versioned pyproject : pyval),
    fs_read_text (w_fs w) pyproject_path = Ok text
    /\ toml_parse text = Ok parsed
    /\ fs_files (w_fs w') !! pyproject_path = Some (toml_dumps pyproject)
    /\ set_tool_key "poetry" "version" (VStr version) parsed = Ok versioned
    /\ (if negb retain && negb (cli_mode (w_state w))
        then set_tool_key "poetry-dynamic-versioning" "enable" (VBool false) versioned
             = Ok pyproject
        else pyproject = versioned)
    /\ manifest_version pyproject = Ok (VStr version)
    /\ manifest_enable pyproject
       = (if negb retain && negb (cli_mode (w_state w)) then Ok (VBool false)
          else manifest_enable parsed)
    /\ forall keys : list string,
         ~ keys `prefix_of` ["tool"; "poetry"; "version"] ->
         ~ ["tool"; "poetry"; "version"] `prefix_of` keys ->
         (negb retain && negb (cli_mode (w_state w)) = true ->
          ~ keys `prefix_of` ["tool"; "poetry-dynamic-versioning"; "enable"]
          /\ ~ ["tool"; "poetry-dynamic-versioning"; "enable"] `prefix_of` keys) ->
         lookup_path keys pyproject = lookup_path keys parsed.
Proof.
  intros Ha Hextra Hrec. unfold _apply_version in Ha.
  apply sbind_ok in Ha as (name & w1 & Hm & Ha).
  apply sbind_ok in Ha as (folders & w2 & Hf & Ha). apply slift_ok in Hf as [_ ->].
  assert (Hsame : fs_files (w_fs w') !! pyproject_path
                  = fs_files (w_fs w1) !! pyproject_path).
  { apply (substitute_version_untouched _ _ _ _ _ _ Ha).
    intros state' Hget. apply (Hrec name state').
    clear - Hget. induction (projects (w_state w')) as [|[n s] l IH]; [discriminate|].
    cbn [assoc_get] in Hget. destruct (decide (n = name)) as [->|_].
    - injection Hget as ->. left. reflexivity.
    - right. exact (IH Hget). }
  rewrite Hsame. clear Ha Hsame Hrec.
  unfold write_manifest_and_files in Hm.
  apply sbind_ok in Hm as (text & w0 & Hread & Hm).
  apply read_text_ok in Hread as (-> & _ & Hread).
  apply sbind_ok in Hm as (parsed & w0 & Hparse & Hm).
  apply slift_ok in Hparse as [Hparse ->].
  apply sbind_ok in Hm as (pyproject & w0 & Hstamp & Hm).
  pose proof (stamp_enable _ _ _ _ _ _ _ Hstamp) as Henable.
  destruct (stamp_exact _ _ _ _ _ _ _ Hstamp) as (versioned & Hversioned & Hswitched).
  pose proof (fun keys => stamp_frame _ _ _ _ _ _ _ keys Hstamp) as Hframe_doc.
  apply stamp_ok in Hstamp as [-> Hversion].
  apply sbind_ok in Hm as ([] & w3 & Hwrite & Hm).
  apply write_text_ok in Hwrite as [Hfiles _].
  apply sbind_ok in Hm as (tool & w0 & Ht & Hm). apply slift_ok in Ht as [_ ->].
  apply sbind_ok in Hm as (poetry & w0 & Ht & Hm). apply slift_ok in Ht as [_ ->].
  apply sbind_ok in Hm as (n1 & w0 & Ht & Hm). apply slift_ok in Ht as [_ ->].
  apply sbind_ok in Hm as (n2 & w0 & Ht & Hm). apply slift_ok in Ht as [_ ->].
  apply sbind_ok in Hm as (files & w0 & Hfs & Hm). apply slift_ok in Hfs as [Hfs ->].
  apply sbind_ok in Hm as (d & w0 & Hd & Hm). apply slift_ok in Hd as [Hd ->].
  apply sbind_ok in Hm as ([] & w4 & Hcreate & Hm). apply sret_ok in Hm as [_ ->].
  exists text, parsed, versioned, pyproject.
  split; [exact Hread|]. split; [exact Hparse|].
  split; [|split; [exact Hversioned|]; split; [exact Hswitched|];
           split; [exact Hversion|]; split; [exact Henable | exact Hframe_doc]].
  pose proof (only_writes_create_files (parent pyproject_path) d w3 pyproject_path)
    as Hframe.
  rewrite Hcreate in Hframe. cbn [snd] in Hframe. rewrite Hframe.
  - rewrite Hfiles. apply lookup_insert_eq.
  - unfold extra_paths in Hextra. unfold py_getitem in Hfs.
    destruct (dict_get "files" config) as [v|]; [|discriminate].
    injection Hfs as ->. destruct files; try discriminate. injection Hd as ->.
    exact Hextra.
Qed.

(** X19.  After a revert that succeeds, of a registry that holds one
    project, the manifest of the project holds a document whose version
    field is the original version and in which, unless [retain] is given
    or the CLI mode is on, the plugin's [enable] is true. *)
Theorem revert_enables_plugin (retain : bool) (name : string) (state : _ProjectState)
    (w w' : World) :
  projects (w_state w) = [(name, state)] ->
  _revert_version retain w = (Ok tt, w') ->
  exists pyproject : pyval,
    fs_files (w_fs w') !! ps_path state = Some (toml_dumps pyproject)
    /\ manifest_version pyproject = Ok (ps_original_version state)
    /\ (retain = false -> cli_mode (w_state w) = false ->
        manifest_enable pyproject = Ok (VBool true)).
Proof.
  intros Hp Hr. unfold _revert_version in Hr.
  apply sbind_ok in Hr as (ps & w0 & Hps & Hr). injection Hps as <- <-.
  apply sbind_ok in Hr as ([] & w1 & Hr1 & Hr). injection Hr as <-.
  rewrite Hp in Hr1. cbn [revert_projects] in Hr1.
  apply sbind_ok in Hr1 as ([] & w2 & Hr1 & Hr2). apply sret_ok in Hr2 as [_ ->].
  cbn [set_projects w_fs].
  unfold revert_project in Hr1.
  apply sbind_ok in Hr1 as (text & w0 & Hread & Hr1).
  apply read_text_ok in Hread as (-> & _ & _).
  apply sbind_ok in Hr1 as (doc & w0 & Hparse & Hr1).
  apply slift_ok in Hparse as [_ ->].
  apply sbind_ok in Hr1 as (doc' & w3 & Hmid & Hr1).
  apply sbind_ok in Hr1 as (doc'' & w4 & Hstamp & Hr1).
  pose proof (stamp_enable _ _ _ _ _ _ _ Hstamp) as Henable.
  apply stamp_ok in Hstamp as [-> Hversion].
  apply write_text_ok in Hr1 as [Hfinal _].
  assert (Hst : w_state w3 = w_state w).
  { destruct (ps_substitutions state) as [|s0 subs].
    - apply sret_ok in Hmid as [_ ->]. reflexivity.
    - apply sbind_ok in Hmid as (c & w0 & Hc & Hmid). apply slift_ok in Hc as [_ ->].
      apply sbind_ok in Hmid as (f & w0 & Hc & Hmid). apply slift_ok in Hc as [_ ->].
      apply sbind_ok in Hmid as (f' & w0 & Hc & Hmid). apply slift_ok in Hc as [_ ->].
      apply sbind_ok in Hmid as (p & w0 & Hc & Hmid). apply slift_ok in Hc as [_ ->].
      apply sbind_ok in Hmid as ([] & w5 & Hrest & Hmid).
      apply sbind_ok in Hmid as (t & w0 & Hc & Hmid).
      apply read_text_ok in Hc as (-> & _ & _).
      apply slift_ok in Hmid as [_ ->].
      pose proof (keeps_state_restore_files p (s0 :: subs) w) as Hk.
      rewrite Hrest in Hk. exact Hk. }
  exists doc''. split; [rewrite Hfinal; apply lookup_insert_eq|].
  split; [exact Hversion|].
  intros -> Hcli. rewrite Henable, Hst, Hcli. reflexivity.
Qed.

(** X20.  An apply whose manifest cannot be read or parsed, or whose
    parsed manifest cannot take the version or the [enable] switch (it has
    no [tool.poetry] table, or no table of the plugin while the switch is
    due), raises that error and leaves the files and the state as they
    were. *)
Theorem apply_fails_before_writing (version : string) (config : dict)
    (pyproject_path : Path) (retain : bool) (w : World) (e : exn) :
  (fs_read_text (w_fs w) pyproject_path = Raise e
   \/ (exists text,
          fs_read_text (w_fs w) pyproject_path = Ok text
          /\ toml_parse text = Raise e)
   \/ (exists text parsed,
          fs_read_text (w_fs w) pyproject_path = Ok text
          /\ toml_parse text = Ok parsed
          /\ fst (stamp (VStr version) false retain parsed w) = Raise e)) ->
  _apply_version version config pyproject_path retain w = (Raise e, w).
Proof.
  intros Hfail. unfold _apply_version, write_manifest_and_files, sbind, read_text, slift.
  destruct Hfail as [Hread | [(text & Hread & Hparse)
                             | (text & parsed & Hread & Hparse & Hstamp)]].
  - rewrite Hread. reflexivity.
  - rewrite Hread, Hparse. reflexivity.
  - rewrite Hread, Hparse.
    assert (Hsame : snd (stamp (VStr version) false retain parsed w) = w).
    { clear. unfold stamp, sbind, slift, sret.
      destruct (set_tool_key "poetry" "version" (VStr version) parsed); [|reflexivity].
      cbn [snd]. destruct (negb retain && negb (cli_mode (w_state w))); [|reflexivity].
      destruct (set_tool_key _ _ _ _); reflexivity. }
    destruct (stamp (VStr version) false retain parsed w) as [[doc|e'] w1].
    + discriminate.
    + cbn [fst snd] in *. congruence.
Qed.

End Manifest.

Lemma apply_stamps_manifest_witness :
  exists (text : string) (parsed versioned pyproject : pyval),
    fs_read_text (w_fs demo_world) demo_path = Ok text
    /\ toml_parse text = Ok parsed
    /\ fs_files (w_fs demo_applied) !! demo_path = Some (toml_dumps pyproject)
    /\ set_tool_key "poetry" "version" (VStr "1.2.3") parsed = Ok versioned
    /\ (if negb false && negb (cli_mode (w_state demo_world))
        then set_tool_key "poetry-dynamic-versioning" "enable" (VBool false) versioned
             = Ok pyproject
        else pyproject = versioned)
    /\ manifest_version pyproject = Ok (VStr "1.2.3")
    /\ manifest_enable pyproject
       = (if negb false && negb (cli_mode (w_state demo_world)) then Ok (VBool false)
          else manifest_enable parsed)
    /\ forall keys : list string,
         ~ keys `prefix_of` ["tool"; "poetry"; "version"] ->
         ~ ["tool"; "poetry"; "version"] `prefix_of` keys ->
         (negb false && negb (cli_mode (w_state demo_world)) = true ->
          ~ keys `prefix_of` ["tool"; "poetry-dynamic-versioning"; "enable"]
          /\ ~ ["tool"; "poetry-dynamic-versioning"; "enable"] `prefix_of` keys) ->
         lookup_path keys pyproject = lookup_path keys parsed.
Proof.
  apply (apply_stamps_manifest "1.2.3" demo_config demo_path false demo_world
           demo_applied).
  - vm_compute. reflexivity.
  - apply (bool_decide_eq_false_1 (_ ∈ _)). vm_compute. reflexivity.
  - intros name state Hin. vm_compute in Hin. destruct Hin as [[= <- <-] | []].
    vm_compute. reflexivity.
Defined.

Lemma revert_enables_plugin_witness :
  exists pyproject : pyval,
    fs_files (w_fs (snd (_revert_version false demo_applied))) !! ps_path demo_state
    = Some (toml_dumps pyproject)
    /\ manifest_version pyproject = Ok (ps_original_version demo_state)
    /\ (false = false -> cli_mode (w_state demo_applied) = false ->
        manifest_enable pyproject = Ok (VBool true)).
Proof.
  apply (revert_enables_plugin false "demo" demo_state demo_applied).
  - vm_compute. reflexivity.
  - vm_compute. reflexivity.
Defined.

Lemma apply_fails_before_writing_witness :
  _apply_version "1.2.3" default_section ["proj"; "pyproject.toml"] false bare_world
  = (Raise (KeyError "poetry-dynamic-versioning"), bare_world).
Proof.
  apply (apply_fails_before_writing "1.2.3" default_section ["proj"; "pyproject.toml"]
           false bare_world (KeyError "poetry-dynamic-versioning")).
  right. right. eexists _, _.
  split; [vm_compute; reflexivity|]. split; [vm_compute; reflexivity|].
  vm_compute. reflexivity.
Defined.

(** ** The entry point *)

Section EntryPointProperties.
Context `{Collaborators} `{Platform}.
Local Open Scope stateful_scope.

Lemma in_log_world {A} (m : logged A) (s : Session) :
  s_world (snd (in_log m s)) = s_world s /\ s_cwd (snd (in_log m s)) = s_cwd s.
Proof. unfold in_log. destruct (m (s_log s)) as [r log]. auto. Qed.

Lemma in_world_cwd {A} (m : stateful World A) (s : Session) :
  s_cwd (snd (in_world m s)) = s_cwd s /\ s_log (snd (in_world m s)) = s_log s.
Proof. unfold in_world. destruct (m (s_world s)) as [r w]. auto. Qed.

Lemma query_version_spec (name : string) (config : dict) (pyproject_path : Path)
    (env : gmap string string) (s : Session) :
  s_cwd s ∈ fs_dirs (w_fs (s_world s)) ->
  s_world (snd (query_version name config pyproject_path env s)) = s_world s
  /\ s_cwd (snd (query_version name config pyproject_path env s)) = s_cwd s.
Proof.
  intros Hcwd. unfold query_version, sbind, chdir, try_finally, in_log.
  cbn [s_world s_cwd].
  destruct (bool_decide (parent pyproject_path ∈ fs_dirs (w_fs (s_world s)))).
  - cbn [s_world s_log s_cwd].
    destruct (_get_version config (Some name) env (s_log s)) as [r log].
    cbn [s_world]. rewrite (bool_decide_eq_true_2 _ Hcwd).
    cbn [fst snd s_world s_cwd s_log]. auto.
  - destruct (fs_exists _ _); auto.
Qed.

Lemma query_version_world (name : string) (config : dict) (pyproject_path : Path)
    (env : gmap string string) (s : Session) :
  w_fs (s_world (snd (query_version name config pyproject_path env s)))
  = w_fs (s_world s)
  /\ w_state (s_world (snd (query_version name config pyproject_path env s)))
     = w_state (s_world s).
Proof.
  unfold query_version, sbind, chdir, try_finally, in_log. cbn [s_world s_cwd].
  destruct (bool_decide (parent pyproject_path ∈ fs_dirs (w_fs (s_world s)))).
  - cbn [s_world s_log s_cwd].
    destruct (_get_version config (Some name) env (s_log s)) as [r log].
    cbn [s_world].
    destruct (bool_decide (s_cwd s ∈ fs_dirs (w_fs (s_world s)))).
    + cbn [snd s_world]. auto.
    + destruct (fs_exists _ _); cbn [snd s_world]; auto.
  - destruct (fs_exists _ _); auto.
Qed.

Lemma resolve_and_apply_name (name : string) (original : pyval) (config : dict)
    (pyproject_path : Path) (retain io : bool) (env : gmap string string)
    (s s' : Session) (r : option string) :
  resolve_and_apply name original config pyproject_path retain io env s = (Ok r, s') ->
  r = Some name.
Proof.
  unfold resolve_and_apply. intros Hr.
  apply sbind_ok in Hr as (version & s1 & _ & Hr).
  apply sbind_ok in Hr as ([] & s2 & _ & Hr).
  apply sret_ok in Hr as [-> _]. reflexivity.
Qed.

Lemma resolve_and_apply_cwd (name : string) (original : pyval) (config : dict)
    (pyproject_path : Path) (retain io : bool) (env : gmap string string)
    (s : Session) :
  s_cwd s ∈ fs_dirs (w_fs (s_world s)) ->
  s_cwd (snd (resolve_and_apply name original config pyproject_path retain io env s))
  = s_cwd s.
Proof.
  intros Hcwd. unfold resolve_and_apply, sbind.
  destruct (query_version_spec name config pyproject_path env s Hcwd) as [_ Hq].
  destruct (query_version name config pyproject_path env s) as [[version|e] s1];
    cbn [snd] in *; [|exact Hq].
  rewrite <- Hq. clear Hq.
  destruct original;
    try (unfold in_world, register;
         cbn [s_world s_log s_cwd];
         destruct io;
           [ destruct (_apply_version _ _ _ _ _) as [[[]|e] w2]; reflexivity
           | reflexivity ]).
  reflexivity.
Qed.

Lemma resolve_and_apply_without_io (name : string) (original : pyval) (config : dict)
    (pyproject_path : Path) (retain : bool) (env : gmap string string) (s : Session) :
  let outcome :=
    resolve_and_apply name original config pyproject_path retain false env s in
  w_fs (s_world (snd outcome)) = w_fs (s_world s)
  /\ (w_state (s_world (snd outcome)) = w_state (s_world s)
      \/ exists version : string,
           fst outcome = Ok (Some name)
           /\ projects (w_state (s_world (snd outcome)))
              = assoc_set name
                  {| ps_path := pyproject_path; ps_original_version := original;
                     ps_version := version; ps_substitutions := [] |}
                  (projects (w_state (s_world s)))).
Proof.
  cbv zeta. unfold resolve_and_apply, sbind.
  destruct (query_version_world name config pyproject_path env s) as [Hfs Hst].
  destruct (query_version name config pyproject_path env s) as [[version|e] s1];
    cbn [snd] in *; [|auto].
  destruct original;
    try (unfold in_world, register; cbn [fst snd s_world w_fs set_projects w_state projects];
         split; [exact Hfs|]; right; exists version; rewrite Hst; auto).
  cbn [fst snd]. auto.
Qed.

Lemma query_version_ok (name : string) (config : dict) (pyproject_path : Path)
    (env : gmap string string) (s s1 : Session) (version : string) :
  query_version name config pyproject_path env s = (Ok version, s1) ->
  _get_version config (Some name) env (s_log s) = (Ok version, s_log s1)
  /\ s_world s1 = s_world s.
Proof.
  unfold query_version, sbind, chdir, try_finally, in_log. cbn [s_world s_cwd].
  destruct (bool_decide (parent pyproject_path ∈ fs_dirs (w_fs (s_world s)))).
  - cbn [s_world s_log s_cwd].
    destruct (_get_version config (Some name) env (s_log s)) as [r log].
    cbn [s_world].
    destruct (bool_decide (s_cwd s ∈ fs_dirs (w_fs (s_world s)))).
    + intros [= -> <-]. cbn [s_log s_world]. auto.
    + destruct (fs_exists _ _); discriminate.
  - destruct (fs_exists _ _); discriminate.
Qed.

Lemma resolve_and_apply_registers (name : string) (original : pyval) (config : dict)
    (pyproject_path : Path) (retain : bool) (env : gmap string string) (s : Session) :
  let outcome :=
    resolve_and_apply name original config pyproject_path retain false env s in
  w_state (s_world (snd outcome)) = w_state (s_world s)
  \/ exists version : string,
       fst outcome = Ok (Some name)
       /\ original <> VNone
       /\ _get_version config (Some name) env (s_log s)
          = (Ok version, s_log (snd outcome))
       /\ projects (w_state (s_world (snd outcome)))
          = assoc_set name
              {| ps_path := pyproject_path; ps_original_version := original;
                 ps_version := version; ps_substitutions := [] |}
              (projects (w_state (s_world s))).
Proof.
  cbv zeta. unfold resolve_and_apply, sbind.
  destruct (query_version_world name config pyproject_path env s) as [_ Hst].
  destruct (query_version name config pyproject_path env s) as [[version|e] s1] eqn:Hq;
    cbn [snd] in *; [|left; exact Hst].
  destruct (query_version_ok _ _ _ _ _ _ _ Hq) as [Hversion Hworld].
  destruct original;
    try (right; exists version; unfold in_world, register;
         cbn [fst snd s_world s_log set_projects w_state projects];
         split; [reflexivity|]; split; [discriminate|]; split; [exact Hversion|];
         rewrite Hworld; reflexivity).
  left. cbn [snd]. exact Hst.
Qed.

Lemma bind_quiet {A B} (P : result B * Session -> Prop) (m : stateful Session A)
    (k : A -> stateful Session B) (s : Session) :
  snd (m s) = s ->
  (forall e, fst (m s) = Raise e -> P (Raise e, s)) ->
  (forall a, fst (m s) = Ok a -> P (k a s)) ->
  P (sbind m k s).
Proof.
  unfold sbind. destruct (m s) as [[a|e] s1]; cbn [fst snd]; intros -> He Ha; auto.
Qed.

Lemma entry_point_shape (name : option string) (original : pyval)
    (pyproject : option pyval) (pyproject_path : option Path)
    (retain force io : bool) (env : gmap string string) (s : Session) :
  let outcome :=
    _get_and_apply_version name original pyproject pyproject_path retain force io env s in
  (snd outcome = s
   /\ match fst outcome with
      | Ok (Some n) => assoc_in n (projects (w_state (s_world s))) = true
      | Ok None => force = false
      | Raise _ => True
      end)
  \/ exists (n : string) (o : pyval) (config : dict) (path : Path),
       assoc_in n (projects (w_state (s_world s))) = false
       /\ outcome = resolve_and_apply n o config path retain io env s.
Proof.
  cbv zeta.
  set (P := fun outcome : result (option string) * Session =>
              (snd outcome = s
               /\ match fst outcome with
                  | Ok (Some n) => assoc_in n (projects (w_state (s_world s))) = true
                  | Ok None => force = false
                  | Raise _ => True
                  end)
              \/ exists (n : string) (o : pyval) (config : dict) (path : Path),
                   assoc_in n (projects (w_state (s_world s))) = false
                   /\ outcome = resolve_and_apply n o config path retain io env s).
  change (P (_get_and_apply_version name original pyproject pyproject_path retain force
               io env s)).
  assert (Hraise : forall e, P (Raise e, s)) by (intros e; left; split; [reflexivity|exact I]).
  assert (Hknown : forall n, assoc_in n (projects (w_state (s_world s))) = true ->
                             P (Ok (Some n), s)) by (intros n Hn; left; split; auto).
  assert (Hproceed :
            forall (n : string) (o : pyval) (document : pyval) (path : Path),
              assoc_in n (projects (w_state (s_world s))) = false ->
              P (sbind (slift (_get_config document))
                   (fun config =>
                      sbind (slift (py_getitem (VDict config) "enable"))
                        (fun enable =>
                           if negb (py_truthy enable) && negb force
                           then sbind (registered n)
                                  (fun known => sret (if known then Some n else None))
                           else resolve_and_apply n o config path retain io env)) s)).
  { intros n o document path Hn.
    apply bind_quiet; [reflexivity | intros e _; apply Hraise | intros config _].
    apply bind_quiet; [reflexivity | intros e _; apply Hraise | intros enable _].
    destruct (negb (py_truthy enable) && negb force) eqn:Hoff.
    - unfold sbind, registered, sret. rewrite Hn. left. split; [reflexivity|].
      cbn [fst]. destruct force; [|reflexivity].
      rewrite andb_false_r in Hoff. discriminate.
    - right. exists n, o, config, path. auto. }
  unfold _get_and_apply_version.
  apply bind_quiet.
  { destruct name; reflexivity. }
  { intros e _. apply Hraise. }
  intros known Hk. destruct known.
  { destruct name as [n|]; [|discriminate]. apply Hknown.
    unfold registered in Hk. cbn [fst] in Hk. congruence. }
  assert (Hfresh : forall n, name = Some n ->
                             assoc_in n (projects (w_state (s_world s))) = false).
  { intros n ->. unfold registered in Hk. cbn [fst] in Hk. congruence. }
  clear Hk.
  apply bind_quiet.
  { destruct pyproject_path; [reflexivity|].
    destruct (_find_higher_file _ _ _ _); reflexivity. }
  { intros e _. apply Hraise. }
  intros path _.
  apply bind_quiet.
  { destruct pyproject; [reflexivity|].
    unfold sbind, in_world, read_text, slift. cbn [s_world].
    destruct s as [w log cwd]. cbn [s_world s_log s_cwd].
    destruct (fs_read_text (w_fs w) path); reflexivity. }
  { intros e _. apply Hraise. }
  intros document _.
  apply bind_quiet.
  { destruct name as [n|]; [destruct original|]; reflexivity || 
      (unfold sbind, slift, registered, sret;
       destruct (manifest_identity document); reflexivity). }
  { intros e _. apply Hraise. }
  intros [[n o] known] Hid.
  assert (Hn : if known then assoc_in n (projects (w_state (s_world s))) = true
               else assoc_in n (projects (w_state (s_world s))) = false).
  { assert (Hderived :
              fst (sbind (slift (manifest_identity document))
                     (fun identity =>
                        sbind (registered (fst identity))
                          (fun known => sret (identity, known))) s)
              = Ok (n, o, known) ->
              if known then assoc_in n (projects (w_state (s_world s))) = true
              else assoc_in n (projects (w_state (s_world s))) = false).
    { unfold sbind, slift, registered, sret.
      destruct (manifest_identity document) as [[n' o']|e]; [|discriminate].
      cbn [fst]. intros [= <- <- <-].
      destruct (assoc_in n' (projects (w_state (s_world s)))); reflexivity. }
    destruct name as [n0|]; [|exact (Hderived Hid)].
    destruct original; try exact (Hderived Hid);
      cbn [fst sret] in Hid; injection Hid as <- <- <-; apply Hfresh; reflexivity. }
  destruct known; [apply Hknown; exact Hn|].
  apply Hproceed. exact Hn.
Qed.

(** Where a call that goes on to resolve the version has its project, its
    manifest and its configuration from. *)
Lemma entry_point_origin (name : option string) (original : pyval)
    (pyproject : option pyval) (pyproject_path : option Path)
    (retain force io : bool) (env : gmap string string) (s : Session) :
  let outcome :=
    _get_and_apply_version name original pyproject pyproject_path retain force io env s in
  snd outcome = s
  \/ exists (n : string) (o : pyval) (config : dict) (path : Path) (document : pyval),
       assoc_in n (projects (w_state (s_world s))) = false
       /\ match pyproject_path with
          | Some given => path = given
          | None =>
              _find_higher_file (w_fs (s_world s)) (s_cwd s) ["pyproject.toml"] None
              = Some path
          end
       /\ match pyproject with
          | Some given => document = given
          | None =>
              exists text : string,
                fs_read_text (w_fs (s_world s)) path = Ok text
                /\ toml_parse text = Ok document
          end
       /\ match name, original with
          | None, _ | Some _, VNone => manifest_identity document = Ok (n, o)
          | Some given, _ => n = given /\ o = original
          end
       /\ _get_config document = Ok config
       /\ outcome = resolve_and_apply n o config path retain io env s.
Proof.
  cbv zeta.
  set (P := fun outcome : result (option string) * Session =>
              snd outcome = s
              \/ exists (n : string) (o : pyval) (config : dict) (path : Path)
                        (document : pyval),
                   assoc_in n (projects (w_state (s_world s))) = false
                   /\ match pyproject_path with
                      | Some given => path = given
                      | None =>
                          _find_higher_file (w_fs (s_world s)) (s_cwd s)
                            ["pyproject.toml"] None
                          = Some path
                      end
                   /\ match pyproject with
                      | Some given => document = given
                      | None =>
                          exists text : string,
                            fs_read_text (w_fs (s_world s)) path = Ok text
                            /\ toml_parse text = Ok document
                      end
                   /\ match name, original with
                      | None, _ | Some _, VNone => manifest_identity document = Ok (n, o)
                      | Some given, _ => n = given /\ o = original
                      end
                   /\ _get_config document = Ok config
                   /\ outcome = resolve_and_apply n o config path retain io env s).
  change (P (_get_and_apply_version name original pyproject pyproject_path retain force
               io env s)).
  assert (Hquiet : forall r, P (r, s)) by (intros r; left; reflexivity).
  unfold _get_and_apply_version.
  apply bind_quiet.
  { destruct name; reflexivity. }
  { intros e _. apply Hquiet. }
  intros known Hk. destruct known; [apply Hquiet|].
  assert (Hfresh : forall n, name = Some n ->
                             assoc_in n (projects (w_state (s_world s))) = false).
  { intros n ->. unfold registered in Hk. cbn [fst] in Hk. congruence. }
  clear Hk.
  apply bind_quiet.
  { destruct pyproject_path; [reflexivity|].
    destruct (_find_higher_file _ _ _ _); reflexivity. }
  { intros e _. apply Hquiet. }
  intros path Hpath.
  assert (Hpath' : match pyproject_path with
                   | Some given => path = given
                   | None =>
                       _find_higher_file (w_fs (s_world s)) (s_cwd s)
                         ["pyproject.toml"] None
                       = Some path
                   end).
  { destruct pyproject_path as [given|]; cbn [fst sret] in Hpath; [congruence|].
    destruct (_find_higher_file _ _ _ _); cbn [fst] in Hpath; congruence. }
  clear Hpath.
  apply bind_quiet.
  { destruct pyproject; [reflexivity|].
    unfold sbind, in_world, read_text, slift. cbn [s_world].
    destruct s as [w log cwd]. cbn [s_world s_log s_cwd].
    destruct (fs_read_text (w_fs w) path); reflexivity. }
  { intros e _. apply Hquiet. }
  intros document Hdoc.
  assert (Hdoc' : match pyproject with
                  | Some given => document = given
                  | None =>
                      exists text : string,
                        fs_read_text (w_fs (s_world s)) path = Ok text
                        /\ toml_parse text = Ok document
                  end).
  { destruct pyproject as [given|]; cbn [fst sret] in Hdoc; [congruence|].
    unfold sbind, in_world, read_text, slift in Hdoc. cbn [s_world] in Hdoc.
    destruct (fs_read_text (w_fs (s_world s)) path) as [text|e]; [|discriminate].
    exists text. split; [reflexivity|]. cbn [fst] in Hdoc. exact Hdoc. }
  clear Hdoc.
  apply bind_quiet.
  { destruct name as [n|]; [destruct original|]; reflexivity ||
      (unfold sbind, slift, registered, sret;
       destruct (manifest_identity document); reflexivity). }
  { intros e _. apply Hquiet. }
  intros [[n o] known] Hid.
  destruct known; [apply Hquiet|].
  assert (Hderived :
            fst (sbind (slift (manifest_identity document))
                   (fun identity =>
                      sbind (registered (fst identity))
                        (fun known => sret (identity, known))) s)
            = Ok (n, o, false) ->
            manifest_identity document = Ok (n, o)
            /\ assoc_in n (projects (w_state (s_world s))) = false).
  { unfold sbind, slift, registered, sret.
    destruct (manifest_identity document) as [[n' o']|e]; [|discriminate].
    cbn [fst]. intros [= <- <- Hreg]. auto. }
  assert (Hid' : match name, original with
                 | None, _ | Some _, VNone => manifest_identity document = Ok (n, o)
                 | Some given, _ => n = given /\ o = original
                 end
                 /\ assoc_in n (projects (w_state (s_world s))) = false).
  { destruct name as [n0|]; [|exact (Hderived Hid)].
    destruct original; try exact (Hderived Hid);
      cbn [fst sret] in Hid; injection Hid as <- <-;
      (split; [split; reflexivity | apply Hfresh; reflexivity]). }
  destruct Hid' as [Hid' Hn]. clear Hid Hderived.
  apply bind_quiet; [reflexivity | intros e _; apply Hquiet | intros config Hconfig].
  cbn [fst slift] in Hconfig.
  apply bind_quiet; [reflexivity | intros e _; apply Hquiet | intros enable _].
  destruct (negb (py_truthy enable) && negb force).
  - unfold sbind, registered, sret. left. reflexivity.
  - right. exists n, o, config, path, document. auto 10.
Qed.

(** X21.  When [_get_and_apply_version] returns [None] it has changed
    nothing: the files, the registry, the log of queries and commands and
    the working directory are as they were; and it does so only when it is
    not forced. *)
Theorem entry_point_none (name : option string) (original : pyval)
    (pyproject : option pyval) (pyproject_path : option Path)
    (retain force io : bool) (env : gmap string string) (s : Session) :
  fst (_get_and_apply_version name original pyproject pyproject_path retain force io
         env s) = Ok None ->
  snd (_get_and_apply_version name original pyproject pyproject_path retain force io
         env s) = s
  /\ force = false.
Proof.
  intros Hnone.
  destruct (entry_point_shape name original pyproject pyproject_path retain force io
              env s) as [[Hsame Hfst] | (n & o & config & path & _ & Heq)].
  - rewrite Hnone in Hfst. auto.
  - rewrite Heq in Hnone.
    destruct (resolve_and_apply n o config path retain io env s) as [r s'] eqn:Hr.
    cbn [fst] in Hnone. subst r. apply resolve_and_apply_name in Hr. discriminate.
Qed.

(** X22.  When [_get_and_apply_version] returns the name of a project
    that was registered before the call, it has changed nothing: no file
    is written, the project is not registered anew, the VCS is not asked
    and the working directory is as it was. *)
Theorem entry_point_registered (name : option string) (original : pyval)
    (pyproject : option pyval) (pyproject_path : option Path)
    (retain force io : bool) (env : gmap string string) (s : Session) (n : string) :
  fst (_get_and_apply_version name original pyproject pyproject_path retain force io
         env s) = Ok (Some n) ->
  assoc_in n (projects (w_state (s_world s))) = true ->
  snd (_get_and_apply_version name original pyproject pyproject_path retain force io
         env s) = s.
Proof.
  intros Hsome Hn.
  destruct (entry_point_shape name original pyproject pyproject_path retain force io
              env s) as [[Hsame _] | (n' & o & config & path & Hfresh & Heq)];
    [exact Hsame|].
  rewrite Heq in Hsome.
  destruct (resolve_and_apply n' o config path retain io env s) as [r s'] eqn:Hr.
  cbn [fst] in Hsome. subst r. apply resolve_and_apply_name in Hr.
  injection Hr as <-. congruence.
Qed.

(** X23.  When the working directory is a directory of the file store,
    [_get_and_apply_version] ends in the working directory it started in,
    whether it returns or raises. *)
Theorem entry_point_restores_cwd (name : option string) (original : pyval)
    (pyproject : option pyval) (pyproject_path : option Path)
    (retain force io : bool) (env : gmap string string) (s : Session) :
  s_cwd s ∈ fs_dirs (w_fs (s_world s)) ->
  s_cwd (snd (_get_and_apply_version name original pyproject pyproject_path retain force
                io env s))
  = s_cwd s.
Proof.
  intros Hcwd.
  destruct (entry_point_shape name original pyproject pyproject_path retain force io
              env s) as [[Hsame _] | (n & o & config & path & _ & Heq)].
  - rewrite Hsame. reflexivity.
  - rewrite Heq. apply resolve_and_apply_cwd. exact Hcwd.
Qed.

(** X24.  With [io] off [_get_and_apply_version] writes no file and
    creates no directory.  Either it leaves the state as it was, or it
    returns the name of a project that was not registered and has entered
    it in the registry with no substitution recorded and with: the path of
    the manifest, which is the given one or else the one found upwards of
    the working directory; the original version, which is the given one
    or, when the name or the original version is not given, the one of the
    manifest, as the name then is; and the version that [_get_version]
    returns for the configuration of the manifest, the events of that
    resolution being those added to the log. *)
Theorem entry_point_without_io (name : option string) (original : pyval)
    (pyproject : option pyval) (pyproject_path : option Path)
    (retain force : bool) (env : gmap string string) (s : Session) :
  let outcome :=
    _get_and_apply_version name original pyproject pyproject_path retain force false
      env s in
  w_fs (s_world (snd outcome)) = w_fs (s_world s)
  /\ (w_state (s_world (snd outcome)) = w_state (s_world s)
      \/ exists (n : string) (path : Path) (document : pyval) (config : dict)
                (o : pyval) (version : string),
           fst outcome = Ok (Some n)
           /\ assoc_in n (projects (w_state (s_world s))) = false
           /\ match pyproject_path with
              | Some given => path = given
              | None =>
                  _find_higher_file (w_fs (s_world s)) (s_cwd s) ["pyproject.toml"] None
                  = Some path
              end
           /\ match pyproject with
              | Some given => document = given
              | None =>
                  exists text : string,
                    fs_read_text (w_fs (s_world s)) path = Ok text
                    /\ toml_parse text = Ok document
              end
           /\ match name, original with
              | None, _ | Some _, VNone => manifest_identity document = Ok (n, o)
              | Some given, _ => n = given /\ o = original
              end
           /\ o <> VNone
           /\ _get_config document = Ok config
           /\ _get_version config (Some n) env (s_log s)
              = (Ok version, s_log (snd outcome))
           /\ projects (w_state (s_world (snd outcome)))
              = assoc_set n
                  {| ps_path := path; ps_original_version := o;
                     ps_version := version; ps_substitutions := [] |}
                  (projects (w_state (s_world s)))).
Proof.
  cbv zeta.
  destruct (entry_point_origin name original pyproject pyproject_path retain force false
              env s)
    as [Hsame | (n & o & config & path & document & Hfresh & Hpath & Hdoc & Hid
                 & Hconfig & Heq)].
  - rewrite Hsame. auto.
  - rewrite Heq.
    destruct (resolve_and_apply_without_io n o config path retain env s) as [Hfs _].
    split; [exact Hfs|].
    destruct (resolve_and_apply_registers n o config path retain env s)
      as [Hst | (version & Hfst & Hsome & Hversion & Hps)]; [left; exact Hst|].
    right. exists n, path, document, config, o, version. auto 12.
Qed.

End EntryPointProperties.

(** A run with [io] off over the demo project, not yet registered: the
    project is entered with the manifest found from the working directory,
    the version of the manifest and the version the collaborators give,
    and no file changes. *)
Example entry_point_without_io_run :
  let fresh := {| s_world := set_projects [] demo_world; s_log := [];
                  s_cwd := ["proj"] |} in
  let outcome :=
    _get_and_apply_version None VNone None None false false false ∅ fresh in
  fst outcome = Ok (Some "demo")
  /\ projects (w_state (s_world (snd outcome)))
     = [("demo", {| ps_path := ["proj"; "pyproject.toml"];
                    ps_original_version := VStr "0.0.0";
                    ps_version := "0.1.0";
                    ps_substitutions := [] |})]
  /\ w_fs (s_world (snd outcome)) = demo_fs.
Proof. cbv zeta. repeat split; vm_compute; reflexivity. Qed.

Lemma entry_point_none_witness :
  snd (_get_and_apply_version None VNone None None false false true ∅ bare_session)
  = bare_session
  /\ false = false.
Proof.
  apply (entry_point_none None VNone None None false false true ∅ bare_session).
  vm_compute. reflexivity.
Defined.

Lemma entry_point_registered_witness :
  snd (_get_and_apply_version None VNone None None false true true ∅ demo_session)
  = demo_session.
Proof.
  apply (entry_point_registered None VNone None None false true true ∅ demo_session
           "demo").
  - vm_compute. reflexivity.
  - vm_compute. reflexivity.
Defined.

Lemma entry_point_restores_cwd_witness :
  s_cwd (snd (_get_and_apply_version (Some "other") (VStr "0.0.0") None
                (Some demo_path) false true true ∅ demo_session))
  = ["proj"].
Proof.
  apply (entry_point_restores_cwd (Some "other") (VStr "0.0.0") None (Some demo_path)
           false true true ∅ demo_session).
  apply (bool_decide_eq_true_1 (_ ∈ _)). vm_compute. reflexivity.
Defined.

(** ** Content without a match *)

Lemma sub_scan_misses (r : regex) (t : list titem) (rest : chars) :
  forall before : chars,
    no_match_from r before rest = true ->
    sub_scan r t before rest None = rest.
Proof.
  induction rest as [|c rest IH]; intros before Hno; cbn [no_match_from] in Hno.
  - destruct (match_at r before [] false) eqn:Hm; [discriminate|].
    rewrite (sub_scan_no_match _ _ _ _ Hm). reflexivity.
  - destruct (match_at r before (c :: rest) false) eqn:Hm; [discriminate|].
    rewrite (sub_scan_no_match _ _ _ _ Hm). f_equal. apply IH. exact Hno.
Qed.

(** X25.  Content in which no pattern finds a match comes out of the
    substitution as it went in, when every pattern has a known mode, a
    value that compiles with its two groups, and a text to insert without
    a backslash. *)
Theorem substitution_without_match (version content : string)
    (patterns : list _SubPattern) :
  forallb (pattern_misses version content) patterns = true ->
  _substitute_version_in_text version content patterns = Ok content.
Proof.
  induction patterns as [|p rest IH]; [reflexivity|].
  cbn [forallb]. intros Hall. apply andb_true_iff in Hall as [Hp Hrest].
  cbn [_substitute_version_in_text]. unfold pattern_misses in Hp.
  destruct (sp_value p) as [| | |value| |]; try discriminate.
  destruct (insert_for (sp_mode p) version) as [insert|e]; [|discriminate].
  cbn [rbind]. unfold re_sub.
  destruct (parse_regex (list_ascii_of_string value)) as [[r ngroups]|]; [|discriminate].
  apply andb_true_iff in Hp as [Hp Hmiss]. apply andb_true_iff in Hp as [Hgroups Hnb].
  apply Nat.leb_le in Hgroups.
  rewrite (parse_replacement ngroups insert Hnb Hgroups).
  rewrite (sub_scan_misses _ _ _ _ Hmiss), string_of_list_ascii_of_string.
  cbn [rbind]. exact (IH Hrest).
Qed.

Lemma substitution_without_match_witness :
  _substitute_version_in_text "1.2.3" "import os" default_patterns = Ok "import os".
Proof.
  apply (substitution_without_match "1.2.3" "import os" default_patterns).
  vm_compute. reflexivity.
Defined.

(** ** What apply changes *)

Section ApplyFrame.
Context `{Platform}.
Local Open Scope stateful_scope.

(** X26.  After an apply that succeeds, a file other than the manifest
    and the extra files of the configuration that is not recorded in a
    substitution map holds what it held before: every other file apply has
    changed is recorded, with the content revert will give it back. *)
Theorem apply_changes_are_recorded (version : string) (config : dict)
    (pyproject_path : Path) (retain : bool) (w w' : World) (f : Path) :
  _apply_version version config pyproject_path retain w = (Ok tt, w') ->
  f <> pyproject_path ->
  f ∉ extra_paths (parent pyproject_path) config ->
  (forall name state,
      In (name, state) (projects (w_state w')) ->
      assoc_get f (ps_substitutions state) = None) ->
  fs_files (w_fs w') !! f = fs_files (w_fs w) !! f.
Proof.
  intros Ha Hne Hextra Hrec. unfold _apply_version in Ha.
  apply sbind_ok in Ha as (name & w1 & Hm & Ha).
  apply sbind_ok in Ha as (folders & w2 & Hf & Ha). apply slift_ok in Hf as [_ ->].
  transitivity (fs_files (w_fs w1) !! f).
  - apply (substitute_version_untouched _ _ _ _ _ _ Ha).
    intros state' Hget. apply (Hrec name state').
    clear - Hget. induction (projects (w_state w')) as [|[n s] l IH]; [discriminate|].
    cbn [assoc_get] in Hget. destruct (decide (n = name)) as [->|_].
    + injection Hget as ->. left. reflexivity.
    + right. exact (IH Hget).
  - pose proof (only_writes_write_manifest_and_files version config pyproject_path retain
                  w f) as Hframe.
    rewrite Hm in Hframe. apply Hframe. intros [Heq | Hin]; contradiction.
Qed.

End ApplyFrame.

Lemma apply_changes_are_recorded_witness :
  fs_files (w_fs demo_applied) !! ["proj"; "notes.txt"]
  = fs_files (w_fs demo_world) !! ["proj"; "notes.txt"].
Proof.
  apply (apply_changes_are_recorded "1.2.3" demo_config demo_path false demo_world
           demo_applied ["proj"; "notes.txt"]).
  - vm_compute. reflexivity.
  - discriminate.
  - apply (bool_decide_eq_false_1 (_ ∈ _)). vm_compute. reflexivity.
  - intros name state Hin. vm_compute in Hin. destruct Hin as [[= <- <-] | []].
    vm_compute. reflexivity.
Defined.

(** ** Files change only for registered projects *)

Section Registration.
Context `{Collaborators} `{Platform}.
Local Open Scope stateful_scope.

Lemma keeps_names_of_state {A} (m : stateful World A) :
  keeps_state m -> keeps_names m.
Proof. intros Hk w. rewrite (Hk w). reflexivity. Qed.

Lemma keeps_names_sbind {A B} (m : stateful World A) (k : A -> stateful World B) :
  keeps_names m -> (forall a, keeps_names (k a)) -> keeps_names (sbind m k).
Proof.
  intros Hm Hk w. unfold sbind. specialize (Hm w).
  destruct (m w) as [[a|e] w1]; cbn [snd] in *; [|exact Hm].
  rewrite (Hk a w1). exact Hm.
Qed.

Lemma keeps_names_record_substitution (name : string) (file : Path) (content : string) :
  keeps_names (record_substitution name file content).
Proof.
  intros w. unfold record_substitution.
  destruct (assoc_get name (projects (w_state w))) as [state|] eqn:Hget; [|reflexivity].
  cbn [snd set_projects w_state projects]. rewrite assoc_set_keys.
  unfold assoc_in. rewrite Hget. reflexivity.
Qed.

Lemma keeps_names_substitute_files (name version : string)
    (files : list (Path * _FolderConfig)) :
  keeps_names (substitute_files name version files).
Proof.
  induction files as [|[file config] rest IH]; cbn [substitute_files].
  - apply keeps_names_of_state, keeps_state_sret.
  - apply keeps_names_sbind; [|intros _; exact IH].
    unfold substitute_file.
    apply keeps_names_sbind;
      [apply keeps_names_of_state, keeps_state_read_text | intros original].
    apply keeps_names_sbind; [apply keeps_names_of_state, keeps_state_slift | intros new].
    destruct (String.eqb original new); [apply keeps_names_of_state, keeps_state_sret|].
    apply keeps_names_sbind; [apply keeps_names_record_substitution | intros _].
    apply keeps_names_of_state, keeps_state_write_text.
Qed.

Lemma keeps_names_apply_version (version : string) (config : dict)
    (pyproject_path : Path) (retain : bool) :
  keeps_names (_apply_version version config pyproject_path retain).
Proof.
  unfold _apply_version.
  apply keeps_names_sbind;
    [apply keeps_names_of_state, keeps_state_write_manifest_and_files | intros name].
  apply keeps_names_sbind; [apply keeps_names_of_state, keeps_state_slift | intros folders].
  unfold _substitute_version.
  apply keeps_names_sbind.
  - intros w. unfold get_project.
    destruct (assoc_get name (projects (w_state w))); reflexivity.
  - intros state. destruct (ps_substitutions state);
      [|apply keeps_names_of_state, keeps_state_sret].
    apply keeps_names_sbind; [intros w; reflexivity | intros files].
    apply keeps_names_substitute_files.
Qed.

Lemma register_then_apply (n : string) (path : Path) (o : pyval) (version : string)
    (config : dict) (retain io : bool) (s : Session) :
  assoc_in n
    (projects
       (w_state
          (s_world
             (snd (sbind (in_world (register n path o version))
                     (fun _ => if io
                               then in_world (_apply_version version config path retain)
                               else sret tt) s)))))
  = true.
Proof.
  unfold sbind, in_world, register. cbn [s_world s_log s_cwd].
  assert (Hreg : assoc_in n
                   (projects
                      (w_state
                         (set_projects
                            (assoc_set n
                               {| ps_path := path; ps_original_version := o;
                                  ps_version := version; ps_substitutions := [] |}
                               (projects (w_state (s_world s))))
                            (s_world s))))
                 = true).
  { unfold assoc_in. cbn [set_projects w_state projects].
    rewrite assoc_get_set_eq. reflexivity. }
  destruct io; [|exact Hreg].
  match goal with
  | |- context [_apply_version ?v ?c ?p ?r ?w] =>
      pose proof (keeps_names_apply_version v c p r w) as Hnames;
      destruct (_apply_version v c p r w) as [res w2]
  end.
  cbn [snd s_world] in *.
  destruct (assoc_in n (projects (w_state w2))) eqn:Hin; [reflexivity|].
  apply assoc_in_spec in Hin. rewrite Hnames in Hin. apply assoc_in_spec in Hin.
  congruence.
Qed.

(** X27.  [_get_and_apply_version] changes the files or the directories
    only in a call in which it enters a project, one that was not
    registered before, in the registry; the project is still registered
    when the call ends, whether it returns or raises, so that a revert
    finds it. *)
Theorem entry_point_changes_need_registration (name : option string) (original : pyval)
    (pyproject : option pyval) (pyproject_path : option Path)
    (retain force io : bool) (env : gmap string string) (s : Session) :
  let after :=
    s_world (snd (_get_and_apply_version name original pyproject pyproject_path retain
                    force io env s)) in
  w_fs after = w_fs (s_world s)
  \/ exists n : string,
       assoc_in n (projects (w_state (s_world s))) = false
       /\ assoc_in n (projects (w_state after)) = true.
Proof.
  cbv zeta.
  destruct (entry_point_shape name original pyproject pyproject_path retain force io
              env s) as [[Hsame _] | (n & o & config & path & Hfresh & Heq)].
  - left. rewrite Hsame. reflexivity.
  - rewrite Heq. unfold resolve_and_apply.
    destruct (query_version_world n config path env s) as [Hfs Hst].
    change (sbind (query_version n config path env) ?k s)
      with (match query_version n config path env s with
            | (Ok a, s') => k a s'
            | (Raise e, s') => (Raise e, s')
            end).
    destruct (query_version n config path env s) as [[version|e] s1];
      cbn [snd] in *; [|left; exact Hfs].
    pose proof (register_then_apply n path o version config retain io s1) as Hreg.
    set (enter := sbind (in_world (register n path o version))
                    (fun _ => if io
                              then in_world (_apply_version version config path retain)
                              else sret tt)) in *.
    assert (Hsome :
              exists n0 : string,
                assoc_in n0 (projects (w_state (s_world s))) = false
                /\ assoc_in n0
                     (projects
                        (w_state
                           (s_world (snd (sbind enter (fun _ => sret (Some n)) s1)))))
                   = true).
    { exists n. split; [exact Hfresh|]. unfold sbind at 1.
      destruct (enter s1) as [[[]|e] s2]; exact Hreg. }
    destruct o; try (right; exact Hsome).
    left. exact Hfs.
Qed.

End Registration.

(** ** Folders *)

Lemma get_config_folders (addition tool section substitution config : dict)
    (xs : list pyval) :
  NoDup (map fst addition) ->
  NoDup (map fst tool) ->
  NoDup (map fst section) ->
  NoDup (map fst substitution) ->
  dict_get "tool" addition = Some (VDict tool) ->
  dict_get "poetry-dynamic-versioning" tool = Some (VDict section) ->
  dict_get "substitution" section = Some (VDict substitution) ->
  dict_get "folders" substitution = Some (VList xs) ->
  _get_config (VDict addition) = Ok config ->
  exists substitution' : dict,
    dict_get "substitution" config = Some (VDict substitution')
    /\ dict_get "folders" substitution'
       = Some (VList (map (fun x => initialize "patterns" (initialize "files" x)) xs)).
Proof.
  intros Hnd Hnd1 Hnd2 Hnd3 Htool Hsection Hsub Hxs Hc.
  unfold _get_config, _default_config in Hc. cbv zeta in Hc.
  cbn [py_getitem] in Hc. rewrite (merge_lookup _ _ _ Hnd), Htool in Hc.
  cbn [dict_get String.eqb Ascii.eqb Bool.eqb rbind py_getitem] in Hc.
  rewrite (merge_lookup _ _ _ Hnd1), Hsection in Hc.
  cbn [dict_get String.eqb Ascii.eqb Bool.eqb rbind] in Hc.
  apply rbind_ok in Hc as (s1 & H1 & Hc).
  apply rbind_ok in Hc as (s2 & H2 & Hc).
  apply rbind_ok in Hc as (s3 & H3 & Hc).
  apply rbind_ok in Hc as (s4 & H4 & Hc).
  destruct s4 as [| | | | |d4]; try discriminate. injection Hc as ->.
  apply dict_update_ok in H1 as (i0 & old0 & new0 & [= <-] & _ & _ & ->).
  apply dict_update_ok in H2 as (i1 & old1 & new1 & [= <-] & _ & _ & ->).
  apply dict_update_ok in H3 as (i2 & old2 & new2 & [= <-] & Hg2 & Hf2 & ->).
  apply dict_update_ok in H4 as (i3 & old3 & new3 & [= <-] & Hg3 & Hf3 & [= ->]).
  rewrite dict_get_set_eq in Hg3. injection Hg3 as <-.
  rewrite !dict_get_set_ne in Hg2 by discriminate.
  rewrite (merge_lookup _ _ _ Hnd2), Hsub in Hg2.
  cbn [default_section dict_get String.eqb Ascii.eqb Bool.eqb] in Hg2.
  injection Hg2 as <-.
  apply dict_update_ok in Hf2 as (j & f & f' & [= <-] & Hgf & Hf & ->).
  apply dict_update_ok in Hf3 as (j3 & p & p' & [= <-] & _ & _ & ->).
  rewrite (merge_lookup _ _ _ Hnd3), Hxs in Hgf. injection Hgf as <-.
  cbn [initialize_elements fold_left] in Hf. injection Hf as <-.
  eexists. split; [apply dict_get_set_eq|].
  rewrite dict_get_set_ne by discriminate. apply dict_get_set_eq.
Qed.

(** X28.  A folder table of the manifest that gives a [path] and neither
    [files] nor [patterns]: among the folders made of the configuration
    [_get_config] returns, the first is the main folder, at the root, and
    the table gives a folder at its path under the root with the files
    and the patterns of the main folder. *)
Theorem folder_with_path_only (addition tool section substitution config : dict)
    (xs : list pyval) (d : dict) (rel : string) (root : Path)
    (folders : list _FolderConfig) :
  NoDup (map fst addition) ->
  NoDup (map fst tool) ->
  NoDup (map fst section) ->
  NoDup (map fst substitution) ->
  dict_get "tool" addition = Some (VDict tool) ->
  dict_get "poetry-dynamic-versioning" tool = Some (VDict section) ->
  dict_get "substitution" section = Some (VDict substitution) ->
  dict_get "folders" substitution = Some (VList xs) ->
  In (VDict d) xs ->
  dict_get "path" d = Some (VStr rel) ->
  dict_get "files" d = None ->
  dict_get "patterns" d = None ->
  _get_config (VDict addition) = Ok config ->
  FolderConfig_from_config config root = Ok folders ->
  exists (main : _FolderConfig) (extra : list _FolderConfig),
    folders = main :: extra
    /\ fc_path main = root
    /\ In {| fc_path := joinpath root rel; fc_files := fc_files main;
             fc_patterns := fc_patterns main |} extra.
Proof.
  intros Hnd Hnd1 Hnd2 Hnd3 Htool Hsection Hsub Hxs Hin Hpath Hfiles Hpatterns Hc Hfrom.
  destruct (get_config_folders _ _ _ _ _ _ Hnd Hnd1 Hnd2 Hnd3 Htool Hsection Hsub Hxs Hc)
    as (substitution' & Hs' & Hf').
  unfold FolderConfig_from_config in Hfrom. cbn [py_getitem] in Hfrom.
  rewrite Hs' in Hfrom. cbn [rbind py_getitem] in Hfrom.
  apply rbind_ok in Hfrom as (files & _ & Hfrom).
  apply rbind_ok in Hfrom as (raw & _ & Hfrom).
  apply rbind_ok in Hfrom as (patterns & _ & Hfrom).
  cbv zeta in Hfrom. cbn [py_getitem] in Hfrom.
  rewrite Hf' in Hfrom. cbn [rbind py_iter] in Hfrom.
  apply rbind_ok in Hfrom as (extra & Hextra & Hfrom).
  assert (Hfolders : folders
                     = {| fc_path := root; fc_files := files; fc_patterns := patterns |}
                       :: extra) by congruence.
  subst folders. clear Hfrom.
  eexists _, extra. split; [reflexivity|]. split; [reflexivity|].
  cbn [fc_files fc_patterns].
  destruct (result_map_in _ _ _
              (initialize "patterns" (initialize "files" (VDict d))) Hextra)
    as (folder & Hfolder & Hin').
  { apply (in_map (fun x => initialize "patterns" (initialize "files" x))). exact Hin. }
  assert (folder = {| fc_path := joinpath root rel; fc_files := files;
                      fc_patterns := patterns |}) as <-; [|exact Hin'].
  cbn [initialize] in Hfolder. unfold dict_in in Hfolder. rewrite Hfiles in Hfolder.
  cbn [initialize] in Hfolder. unfold dict_in in Hfolder.
  rewrite dict_get_set_ne, Hpatterns in Hfolder by discriminate.
  unfold extra_folder in Hfolder. cbn [py_getitem] in Hfolder.
  rewrite !dict_get_set_ne, Hpath in Hfolder by discriminate. cbn [rbind] in Hfolder.
  rewrite !dict_get_set_eq in Hfolder. cbn [rbind] in Hfolder.
  congruence.
Qed.

Lemma folder_with_path_only_witness :
  exists (main : _FolderConfig) (extra : list _FolderConfig),
    sample_folders = main :: extra
    /\ fc_path main = ["proj"]
    /\ In {| fc_path := joinpath ["proj"] "sub"; fc_files := fc_files main;
             fc_patterns := fc_patterns main |} extra.
Proof.
  assert (Hnd : forall l : list string, bool_decide (NoDup l) = true -> NoDup l).
  { intros l. apply bool_decide_eq_true_1. }
  refine (folder_with_path_only [("tool", VDict sample_tool)] sample_tool
            sample_section
            [ ("patterns", VList [VDict [("value", VStr "(v = )\d+()")]]);
              ("folders", VList [VDict [("path", VStr "sub")]]) ]
            sample_settings
            [VDict [("path", VStr "sub")]]
            [("path", VStr "sub")] "sub" ["proj"] sample_folders
            _ _ _ _ eq_refl eq_refl eq_refl eq_refl _ eq_refl eq_refl eq_refl _ _);
    try (apply Hnd; vm_compute; reflexivity).
  - left. reflexivity.
  - vm_compute. reflexivity.
  - vm_compute. reflexivity.
Defined.
